(** * check-tram-schedule.py: a shallow embedding and its properties

    The script answers "departure times of tram line L (at stop S) on a
    weekday / Saturday / Sunday" from a GTFS dump, with a dataset cache
    (24 h) and a query cache (1 h) kept in the [ambrogioctl] state store.

    Conventions of the embedding.
    - A Python [str] is a Rocq [string], a character standing for a
      code point; [str.encode] is UTF-8 on the code points below 256.
      [str.lower] comes with the interpreter (it may change the length
      of a string); [Py.lower] is what it does below code point 256.
    - A [dict] is an association list in insertion order (module [Dict]):
      the script iterates over [items()] and takes the first match.
    - Functions with effects run in the monad [M] over a [World]: the
      files on disk, the clock, what the spawned processes answer, and
      the trace of effects performed so far.
    - [json], [datetime.fromisoformat], [strftime], [str.lower] and the
      iteration order of a [set] come with the interpreter; they are the
      fields of the class [PyLib]. *)

From Stdlib Require Import ZArith NArith Lia Bool Ascii String List Sorted Permutation.
From stdpp Require Import base option list gmap strings.

Local Open Scope string_scope.

(** ** Python strings *)

Module Py.

(** [str.lower] on text of code points below 256: A-Z and the accented
    capitals U+00C0..U+00DE (without the multiplication sign U+00D7) move
    up by 32. The script itself calls the interpreter's [str_lower]. *)
Definition lower_char (c : ascii) : ascii :=
  let n := N_of_ascii c in
  if ((65 <=? n) && (n <=? 90)
      || (192 <=? n) && (n <=? 222) && negb (n =? 215))%N
  then ascii_of_N (n + 32) else c.

Fixpoint lower (s : string) : string :=
  match s with
  | EmptyString => EmptyString
  | String c r => String (lower_char c) (lower r)
  end.

(** [s[:n]] *)
Fixpoint slice_to (n : nat) (s : string) : string :=
  match n, s with
  | S k, String c r => String c (slice_to k r)
  | _, _ => EmptyString
  end.

(** [s.replace(old, new)] for a one-character [old]. *)
Fixpoint replace (old : ascii) (new : string) (s : string) : string :=
  match s with
  | EmptyString => EmptyString
  | String c r =>
      if Ascii.eqb c old then new ++ replace old new r
      else String c (replace old new r)
  end.

Fixpoint startswith (p s : string) : bool :=
  match p, s with
  | EmptyString, _ => true
  | String a p', String b s' => Ascii.eqb a b && startswith p' s'
  | String _ _, EmptyString => false
  end.

(** [needle in hay] *)
Fixpoint contains (needle hay : string) : bool :=
  startswith needle hay
  || match hay with
     | EmptyString => false
     | String _ r => contains needle r
     end.

(** [str.isspace] for one character (below 256). *)
Definition isspace (c : ascii) : bool :=
  let n := N_of_ascii c in
  ((9 <=? n) && (n <=? 13) || (28 <=? n) && (n <=? 32)
   || (n =? 133) || (n =? 160))%N.

Fixpoint lstrip (s : string) : string :=
  match s with
  | String c r => if isspace c then lstrip r else s
  | EmptyString => EmptyString
  end.

Fixpoint rstrip (s : string) : string :=
  match s with
  | EmptyString => EmptyString
  | String c r =>
      match rstrip r with
      | EmptyString => if isspace c then EmptyString else String c EmptyString
      | r' => String c r'
      end
  end.

Definition strip (s : string) : string := rstrip (lstrip s).

(** [s.split(sep, 1)[1]]: what follows the first [sep]; [None] is the
    IndexError of a string without [sep]. *)
Fixpoint after_first (sep : ascii) (s : string) : option string :=
  match s with
  | EmptyString => None
  | String c r => if Ascii.eqb c sep then Some r else after_first sep r
  end.

(** [sep.join(l)] *)
Fixpoint join (sep : string) (l : list string) : string :=
  match l with
  | [] => ""
  | [x] => x
  | x :: r => x ++ sep ++ join sep r
  end.

Definition digit (n : nat) : ascii := ascii_of_nat (48 + n).

Fixpoint str_of_nat_aux (fuel n : nat) (acc : string) : string :=
  match fuel with
  | O => acc
  | S f =>
      let acc' := String (digit (n mod 10)) acc in
      match n / 10 with
      | O => acc'
      | q => str_of_nat_aux f q acc'
      end
  end.

(** [str(n)] for a length or a count. *)
Definition str_of_nat (n : nat) : string := str_of_nat_aux (S n) n "".

(** [str.encode()]: UTF-8, one byte below 128 and two bytes from there. *)
Definition encode_char (c : ascii) : list N :=
  let n := N_of_ascii c in
  if (n <? 128)%N then [n]
  else [N.lor 192 (N.shiftr n 6); N.lor 128 (N.land n 63)].

Fixpoint encode (s : string) : list N :=
  match s with
  | EmptyString => []
  | String c r => encode_char c ++ encode r
  end.

(** Truth value of a string and of an optional string. *)
Definition truthy (s : string) : bool :=
  match s with EmptyString => false | _ => true end.

Definition truthy_opt (o : option string) : bool :=
  match o with Some s => truthy s | None => false end.

(** The newline character. *)
Definition nl : string := String (ascii_of_nat 10) EmptyString.

(** [l[0:n], l[n:2n], ...], as [range(0, len(l), n)] cuts it. *)
Fixpoint chunks {A : Type} (fuel n : nat) (l : list A) : list (list A) :=
  match fuel, l with
  | S f, _ :: _ => firstn n l :: chunks f n (skipn n l)
  | _, _ => nil
  end.

End Py.

(** ** hashlib.sha256 (FIPS 180-4), on bytes as [N] *)

Module Sha256.

Local Open Scope N_scope.

Definition mask32 : N := 0xFFFFFFFF.
Definition add32 (x y : N) : N := N.land (x + y) mask32.
Definition rotr (n x : N) : N :=
  N.lor (N.shiftr x n) (N.land (N.shiftl x (32 - n)) mask32).
Definition xor3 (x y z : N) : N := N.lxor (N.lxor x y) z.
Definition Ch (x y z : N) : N :=
  N.lxor (N.land x y) (N.land (N.lxor x mask32) z).
Definition Maj (x y z : N) : N :=
  xor3 (N.land x y) (N.land x z) (N.land y z).
Definition Sigma0 (x : N) : N := xor3 (rotr 2 x) (rotr 13 x) (rotr 22 x).
Definition Sigma1 (x : N) : N := xor3 (rotr 6 x) (rotr 11 x) (rotr 25 x).
Definition sigma0 (x : N) : N := xor3 (rotr 7 x) (rotr 18 x) (N.shiftr x 3).
Definition sigma1 (x : N) : N := xor3 (rotr 17 x) (rotr 19 x) (N.shiftr x 10).

(** The first 64 primes. *)
Definition is_prime (n : nat) : bool :=
  forallb (fun d => negb (Nat.eqb (n mod d) 0)) (seq 2 (n - 2)).

Definition primes : list N :=
  map N.of_nat (List.filter is_prime (seq 2 310)).

(** The integer cube root of [x], found bit by bit from bit [bits] down. *)
Fixpoint cube_root (bits : nat) (x r : N) : N :=
  match bits with
  | O => r
  | S b =>
      let r' := r + N.shiftl 1 (N.of_nat b) in
      cube_root b x (if r' * r' * r' <=? x then r' else r)
  end.

(** The round constants: the first 32 bits of the fractional parts of the
    cube roots of the first 64 primes. *)
Definition K : list N :=
  map (fun p => N.land (cube_root 40 (N.shiftl p 96) 0) mask32) primes.

(** The initial hash value: the same of the square roots of the first 8. *)
Definition H0 : list N :=
  map (fun p => N.land (N.sqrt (N.shiftl p 64)) mask32) (firstn 8 primes).

(** Big-endian bytes of [x], [n] of them. *)
Fixpoint be_bytes (n : nat) (x : N) : list N :=
  match n with
  | O => []
  | S k => be_bytes k (N.shiftr x 8) ++ [N.land x 255]
  end.

Definition pad (msg : list N) : list N :=
  let len := N.of_nat (length msg) in
  let zeros := N.to_nat ((119 - len mod 64) mod 64) in
  msg ++ [128] ++ repeat 0 zeros ++ be_bytes 8 (8 * len).

(** Bytes to big-endian 32-bit words. *)
Fixpoint words (fuel : nat) (bs : list N) : list N :=
  match fuel, bs with
  | S f, a :: b :: c :: d :: r =>
      (N.shiftl a 24 + N.shiftl b 16 + N.shiftl c 8 + d) :: words f r
  | _, _ => []
  end.

(** The message schedule, latest word first. *)
Fixpoint schedule (n : nat) (rev_w : list N) : list N :=
  match n with
  | O => rev_w
  | S k =>
      let w i := nth i rev_w 0 in
      let x := add32 (add32 (sigma1 (w 1%nat)) (w 6%nat))
                     (add32 (sigma0 (w 14%nat)) (w 15%nat)) in
      schedule k (x :: rev_w)
  end.

Definition round (st : list N) (kw : N * N) : list N :=
  match st with
  | [a; b; c; d; e; f; g; h] =>
      let t1 := add32 (add32 (add32 h (Sigma1 e)) (add32 (Ch e f g) (fst kw)))
                      (snd kw) in
      let t2 := add32 (Sigma0 a) (Maj a b c) in
      [add32 t1 t2; a; b; c; add32 d t1; e; f; g]
  | _ => st
  end.

Fixpoint zip_add (l1 l2 : list N) : list N :=
  match l1, l2 with
  | x :: r1, y :: r2 => add32 x y :: zip_add r1 r2
  | _, _ => []
  end.

Definition compress (st block : list N) : list N :=
  let w := rev (schedule 48 (rev block)) in
  zip_add st (fold_left round (combine K w) st).

(** One 16-word block after the other. *)
Fixpoint blocks (fuel : nat) (st ws : list N) : list N :=
  match fuel, ws with
  | S f, _ :: _ => blocks f (compress st (firstn 16 ws)) (skipn 16 ws)
  | _, _ => st
  end.

Definition digest (msg : list N) : list N :=
  let bs := pad msg in
  let ws := words (length bs) bs in
  blocks (length ws) H0 ws.

Definition hex_char (n : N) : ascii :=
  if n <? 10 then ascii_of_N (48 + n) else ascii_of_N (87 + n).

Fixpoint hex_word (n : nat) (x : N) (acc : string) : string :=
  match n with
  | O => acc
  | S k => hex_word k (N.shiftr x 4) (String (hex_char (N.land x 15)) acc)
  end.

(** [hashlib.sha256(msg).hexdigest()] *)
Definition hexdigest (msg : list N) : string :=
  fold_right (fun w acc => hex_word 8 w acc) ""%string (digest msg).

End Sha256.

Local Open Scope list_scope.

(** ** Dictionaries: association lists in insertion order *)

Module Dict.
Section Dict.
Context {V : Type}.

(** [d.get(k)] *)
Fixpoint get (k : string) (d : list (string * V)) : option V :=
  match d with
  | [] => None
  | (k', v) :: r => if String.eqb k' k then Some v else get k r
  end.

(** [k in d] *)
Definition mem (k : string) (d : list (string * V)) : bool :=
  match get k d with Some _ => true | None => false end.

(** [d[k] = v]: an existing key keeps its place, a new one goes last. *)
Fixpoint set (k : string) (v : V) (d : list (string * V)) : list (string * V) :=
  match d with
  | [] => [(k, v)]
  | (k', v') :: r =>
      if String.eqb k' k then (k', v) :: r else (k', v') :: set k v r
  end.

Definition keys (d : list (string * V)) : list string := map fst d.

End Dict.

(** [d[k].append(x)] on a [defaultdict(list)]. *)
Definition append {A : Type} (k : string) (x : A)
    (d : list (string * list A)) : list (string * list A) :=
  set k (default [] (get k d) ++ [x]) d.

End Dict.

(** ** [sorted(l, key=...)]: a stable sort on string keys *)

Section Sorted.
Context {A : Type} (key : A -> string).

Fixpoint insert_sorted (x : A) (l : list A) : list A :=
  match l with
  | [] => [x]
  | y :: r =>
      if String.leb (key x) (key y) then x :: y :: r
      else y :: insert_sorted x r
  end.

Fixpoint sorted (l : list A) : list A :=
  match l with
  | [] => []
  | x :: r => insert_sorted x (sorted r)
  end.

End Sorted.

(** ** The data: GTFS rows, JSON values, instants, files *)

Record RouteRow := mkRouteRow {
  r_route_id : string;
  route_short_name : string;
  route_long_name : string;
  r_route_type : string }.

Record StopRow := mkStopRow {
  s_stop_id : string;
  stop_name_col : string;
  stop_lat : option string;
  stop_lon : option string }.

Record TripRow := mkTripRow {
  t_trip_id : string;
  t_route_id : string;
  service_id : string;
  trip_headsign : option string }.

Record StopTimeRow := mkStopTimeRow {
  st_trip_id : string;
  st_stop_id : string;
  departure_time : string }.

(** The values of the [routes] and [stops] dictionaries. *)
Record Route := mkRoute {
  short_name : string;
  long_name : string;
  type : string }.

Record Stop := mkStop {
  name : string;
  lat : string;
  lon : string }.

(** A parsed JSON value; an object is a dict. The script never computes
    with a number, which is kept as an integer. *)
#[warnings="-register-all"]
Inductive json :=
| JNull
| JBool (b : bool)
| JNum (z : Z)
| JStr (s : string)
| JArr (l : list json)
| JObj (d : list (string * json)).

(** A [datetime]: its wall-clock fields as microseconds since the epoch
    and its fixed UTC offset, [None] for a naive value. The script
    compares [total_seconds()] with a whole number of seconds; with
    microsecond resolution that comparison is exact on integers. *)
Record datetime := mkDatetime {
  wall : Z;
  tzoffset : option Z }.

Inductive exn :=
| KeyError | TypeError | AttributeError | ValueError | IndexError
| JSONDecodeError | FileNotFoundError | BadZipFile | OSError
| IsADirectoryError.

(** What a file holds: one of the four tables as [csv.DictReader] yields
    it, or text. *)
Inductive content :=
| Routes (rows : list RouteRow)
| Stops (rows : list StopRow)
| Trips (rows : list TripRow)
| StopTimes (rows : list StopTimeRow)
| Text (s : string).

(** What is at a path: a regular file, an archive (it lists its
    members, [None] when [zipfile.ZipFile] rejects it) or a directory. *)
Inductive file :=
| Plain (c : content)
| Archive (members : option (list (string * content)))
| Directory.

(** The effects the script performs. *)
Inductive event :=
| Stderr (msg : string)
| Stdout (msg : string)
| StateGet (key : string)
| StateSet (key value : string)
| Stat (path : string)
| Mkdir (path : string)
| Curl (url dest : string)
| Extract (zip dest : string)
| OpenRead (path : string)
| WriteFile (path text : string).

(** The world a run starts in and leaves behind.
    - [fs]: what the run finds at the paths it tests or opens, files and
      directories alike, and the files it writes. A directory the run
      creates is recorded as its [Mkdir] event; the script tests no path
      after creating it. Creating a directory and writing the report are
      taken to succeed.
    - [ctl_get key]: return code and standard output of
      [ambrogioctl state get key], [None] when spawning it raises;
      within one run no key is read after it is written, so the answers
      are fixed.
    - [curl_run]: return code of [curl] and the file it leaves at its
      [-o] path, [None] when spawning it raises. *)
Record World := mkWorld {
  fs : gmap string file;
  utc_now : Z;
  local_offset : Z;
  ctl_get : string -> option (Z * string);
  curl_run : option (Z * option file);
  trace : list event }.

(** ** The monad: state, [sys.exit] and exceptions *)

Inductive outcome (A : Type) :=
| Ret (a : A)
| Exit (code : Z)
| Raise (e : exn).
Arguments Ret {A} a.
Arguments Exit {A} code.
Arguments Raise {A} e.

Definition M (A : Type) : Type := World -> outcome A * World.

Definition ret {A} (a : A) : M A := fun w => (Ret a, w).

Definition bind {A B} (m : M A) (k : A -> M B) : M B :=
  fun w =>
    match m w with
    | (Ret a, w') => k a w'
    | (Exit c, w') => (Exit c, w')
    | (Raise e, w') => (Raise e, w')
    end.

Notation "x <- m ;; k" := (bind m (fun x => k))
  (at level 100, m at level 90, right associativity).
Notation "m ;; k" := (bind m (fun _ => k))
  (at level 100, right associativity).

Definition raise {A} (e : exn) : M A := fun w => (Raise e, w).

(** [sys.exit(code)] *)
Definition exit {A} (code : Z) : M A := fun w => (Exit code, w).

(** [try: m except Exception: h]; [SystemExit] is not an [Exception]. *)
Definition try_except {A} (m : M A) (h : exn -> M A) : M A :=
  fun w =>
    match m w with
    | (Raise e, w') => h e w'
    | r => r
    end.

Definition get_world : M World := fun w => (Ret w, w).

(** [w] after the effects [evs], and [w] with the files [f]. *)
Definition add_events (w : World) (evs : list event) : World :=
  mkWorld (fs w) (utc_now w) (local_offset w) (ctl_get w) (curl_run w)
          (trace w ++ evs).

Definition with_fs (w : World) (f : gmap string file) : World :=
  mkWorld f (utc_now w) (local_offset w) (ctl_get w) (curl_run w) (trace w).

Definition emit (e : event) : M unit := fun w => (Ret tt, add_events w [e]).

Definition set_fs (f : gmap string file) : M unit :=
  fun w => (Ret tt, with_fs w f).

(** Lift a pure computation that may raise. *)
Definition lift {A} (r : exn + A) : M A :=
  match r with inl e => raise e | inr a => ret a end.

(** The exit status of the process. *)
Definition exit_code {A} (o : outcome A) : Z :=
  match o with Ret _ => 0 | Exit c => c | Raise _ => 1 end.

(** ** What the interpreter provides *)

Class PyLib := {
  (** [json.loads]; [None] is a [JSONDecodeError]. *)
  json_loads : string -> option json;
  json_dumps : json -> string;
  (** [datetime.fromisoformat]; [None] is a [ValueError]. *)
  fromisoformat : string -> option datetime;
  strftime : datetime -> string -> string;
  (** [str(e)] of a caught exception. *)
  str_exn : exn -> string;
  (** [str.lower]. *)
  str_lower : string -> string;
  (** The order in which a set of pairs is iterated, as a proposal:
      [py_set] follows it as far as it enumerates the set. *)
  set_order : list (string * string) -> list (string * string) }.

Section Script.
Context `{PyLib}.

(** [set(l)] as the list it is iterated in: no duplicates, the elements
    of [l], in the order [set_order] proposes (any order can be proposed).
    Of the proposal the elements of [l] are kept, each where it comes
    first; elements of [l] that the proposal leaves out follow. *)
Definition py_set (l : list (string * string)) : list (string * string) :=
  reverse (remove_dups (reverse (filter (fun x => x ∈ l) (set_order l) ++ l))).

(** ** Configuration *)

Definition GTFS_URL : string := "https://dati.comune.milano.it/gtfs.zip".
Definition GTFS_CACHE_TTL : Z := 86400.
Definition SCHEDULE_CACHE_TTL : Z := 3600.
Definition DATA_DIR : string := "/data/generated/atm-tram-schedule".

(** [Path / str] *)
Definition joinpath (dir p : string) : string :=
  if Py.startswith "/" p then p else dir +:+ "/" +:+ p.

Definition GTFS_DIR : string := joinpath DATA_DIR "gtfs".
Definition GTFS_ZIP : string := joinpath GTFS_DIR "gtfs.zip".

Definition SERVICE_PATTERNS : list (string * string) :=
  [("weekday", " LV "); ("saturday", " SAB "); ("sunday", " FEST ")].

(** ** Small effects *)

Definition log (msg : string) : M unit := emit (Stderr msg).
Definition print (msg : string) : M unit := emit (Stdout msg).

(** [Path(p).exists()]: true of a file and of a directory. *)
Definition path_exists (p : string) : M bool :=
  emit (Stat p) ;;
  w <- get_world ;;
  ret (bool_decide (is_Some (fs w !! p))).

(** [datetime.now(tz)] *)
Definition now (tz : option Z) : M datetime :=
  w <- get_world ;;
  ret (mkDatetime (utc_now w + default (local_offset w) tz)%Z tz).

(** [datetime.utcnow()] *)
Definition utcnow : M datetime :=
  w <- get_world ;;
  ret (mkDatetime (utc_now w) None).

(** [(a - b)] in microseconds; mixing naive and aware values raises. *)
Definition sub_datetime (a b : datetime) : exn + Z :=
  match tzoffset a, tzoffset b with
  | Some oa, Some ob => inr ((wall a - oa) - (wall b - ob))%Z
  | None, None => inr (wall a - wall b)%Z
  | _, _ => inl TypeError
  end.

(** [age < ttl] with [age] in microseconds and [ttl] in seconds. *)
Definition younger (age ttl : Z) : bool := (age <? ttl * 1000000)%Z.

(** [datetime.fromisoformat(s.replace("Z", "+00:00"))] *)
Definition parse_timestamp (s : string) : exn + datetime :=
  match fromisoformat (Py.replace "Z" "+00:00" s) with
  | Some ts => inr ts
  | None => inl ValueError
  end.

(** ** The state store *)

Definition get_cache_state (key : string) : M (option string) :=
  try_except
    (emit (StateGet key) ;;
     w <- get_world ;;
     match ctl_get w key with
     | None => raise OSError
     | Some (returncode, stdout) =>
         if (returncode =? 0)%Z then
           if Py.contains "=" stdout then
             match Py.after_first "=" (Py.strip stdout) with
             | Some v => ret (Some v)
             | None => raise IndexError
             end
           else ret None
         else ret None
     end)
    (fun _ => ret None).

Definition set_cache_state (key value : string) : M unit :=
  try_except (emit (StateSet key value)) (fun _ => ret tt).

(** ** JSON values as Python objects *)

Definition json_truthy (j : json) : bool :=
  match j with
  | JNull => false
  | JBool b => b
  | JNum z => negb (z =? 0)%Z
  | JStr s => Py.truthy s
  | JArr l => match l with [] => false | _ => true end
  | JObj d => match d with [] => false | _ => true end
  end.

(** [j[k]] for a string [k] *)
Definition subscript (j : json) (k : string) : exn + json :=
  match j with
  | JObj d =>
      match Dict.get k d with Some v => inr v | None => inl KeyError end
  | _ => inl TypeError
  end.

(** [j.get(k)] *)
Definition json_get (j : json) (k : string) : exn + json :=
  match j with
  | JObj d => inr (default JNull (Dict.get k d))
  | _ => inl AttributeError
  end.

(** A string method called on [j]. *)
Definition as_str (j : json) : exn + string :=
  match j with JStr s => inr s | _ => inl AttributeError end.

(** [Path(j)] *)
Definition as_path (j : json) : exn + string :=
  match j with JStr s => inr s | _ => inl TypeError end.

(** [str(j)] inside an f-string. *)
Definition py_str (j : json) : string :=
  match j with JStr s => s | _ => json_dumps j end.

(** ** The query cache *)

Definition check_cache (cache_key : string) (ttl : Z) : M (option json) :=
  cache_entry <- get_cache_state cache_key ;;
  if negb (Py.truthy_opt cache_entry) then ret None
  else
    try_except
      (cache_data <- lift (match json_loads (default "" cache_entry) with
                           | Some j => inr j
                           | None => inl JSONDecodeError
                           end) ;;
       stamp <- lift (subscript cache_data "timestamp") ;;
       stamp_str <- lift (as_str stamp) ;;
       timestamp <- lift (parse_timestamp stamp_str) ;;
       current <- now (tzoffset timestamp) ;;
       age <- lift (sub_datetime current timestamp) ;;
       if younger age ttl then
         text_path <- lift (json_get cache_data "text_path") ;;
         if json_truthy text_path then
           p <- lift (as_path text_path) ;;
           there <- path_exists p ;;
           if there then ret (Some cache_data) else ret None
         else ret None
       else ret None)
      (fun _ => ret None).

(** ** The dataset *)

Definition gtfs_cache_key : string := "atm-tram-schedule:gtfs:timestamp".

(** [subprocess.run(["curl", "-sL", url, "-o", dest, "--max-time", "120"])] *)
Definition curl (url dest : string) : M Z :=
  emit (Curl url dest) ;;
  w <- get_world ;;
  match curl_run w with
  | None => raise FileNotFoundError
  | Some (returncode, written) =>
      match written with
      | Some f => set_fs (<[dest := f]> (fs w))
      | None => ret tt
      end ;;
      ret returncode
  end.

(** [zipfile.ZipFile(zip).extractall(dest)] *)
Definition extractall (zip dest : string) : M unit :=
  emit (Extract zip dest) ;;
  w <- get_world ;;
  match fs w !! zip with
  | Some (Archive (Some members)) =>
      set_fs (fold_left
                (fun m nc => <[joinpath dest (fst nc) := Plain (snd nc)]> m)
                members (fs w))
  | Some Directory => raise IsADirectoryError
  | Some _ => raise BadZipFile
  | None => raise FileNotFoundError
  end.

(** [download_gtfs] from "Need to download/extract" on. *)
Definition refresh_gtfs : M bool :=
  log "Downloading GTFS data from ATM Milano..." ;;
  emit (Mkdir GTFS_DIR) ;;
  zip_there <- path_exists GTFS_ZIP ;;
  fetched <-
    (if negb zip_there then
       returncode <- curl GTFS_URL GTFS_ZIP ;;
       if negb (returncode =? 0)%Z then
         log "Error: Failed to download GTFS data" ;; ret false
       else ret true
     else ret true) ;;
  if negb fetched then ret false
  else
    log "Extracting GTFS data..." ;;
    extracted <-
      try_except
        (extractall GTFS_ZIP GTFS_DIR ;; ret true)
        (fun e => log ("Error extracting GTFS: " +:+ str_exn e) ;;
                  ret false) ;;
    if negb extracted then ret false
    else
      t <- utcnow ;;
      let now_iso := strftime t "%Y-%m-%dT%H:%M:%SZ" in
      set_cache_state gtfs_cache_key now_iso ;;
      ret true.

Definition download_gtfs : M bool :=
  let routes_file := joinpath GTFS_DIR "routes.txt" in
  let stops_file := joinpath GTFS_DIR "stops.txt" in
  let trips_file := joinpath GTFS_DIR "trips.txt" in
  let stop_times_file := joinpath GTFS_DIR "stop_times.txt" in
  e1 <- path_exists routes_file ;;
  e2 <- path_exists stops_file ;;
  e3 <- path_exists trips_file ;;
  e4 <- path_exists stop_times_file ;;
  let all_files_exist := e1 && e2 && e3 && e4 in
  gtfs_timestamp <- get_cache_state gtfs_cache_key ;;
  fresh <-
    (if all_files_exist && Py.truthy_opt gtfs_timestamp then
       try_except
         (ts <- lift (parse_timestamp (default "" gtfs_timestamp)) ;;
          current <- now (tzoffset ts) ;;
          age <- lift (sub_datetime current ts) ;;
          ret (younger age GTFS_CACHE_TTL))
         (fun _ => ret false)
     else ret false) ;;
  if fresh : bool then ret true else refresh_gtfs.

(** ** Loading the tables *)

(** [open(path)] read through [csv.DictReader]: the rows of the table
    expected there. A missing file raises; so does, on its first row, a
    file that holds something else. *)
Definition open_table {A} (path : string) (pick : content -> option (list A))
    : M (list A) :=
  emit (OpenRead path) ;;
  w <- get_world ;;
  match fs w !! path with
  | Some (Plain c) =>
      match pick c with Some rows => ret rows | None => raise KeyError end
  | Some (Archive _) => raise ValueError
  | Some Directory => raise IsADirectoryError
  | None => raise FileNotFoundError
  end.

(** The dictionary [load_routes] builds from the rows. *)
Definition routes_dict (rows : list RouteRow) : list (string * Route) :=
  fold_left
    (fun routes row =>
       Dict.set (r_route_id row)
         (mkRoute (route_short_name row) (route_long_name row)
                  (r_route_type row))
         routes)
    rows [].

Definition load_routes : M (list (string * Route)) :=
  rows <- open_table (joinpath GTFS_DIR "routes.txt")
            (fun c => match c with Routes r => Some r | _ => None end) ;;
  ret (routes_dict rows).

(** The dictionary [load_stops] builds from the rows. *)
Definition stops_dict (rows : list StopRow) : list (string * Stop) :=
  fold_left
    (fun stops row =>
       Dict.set (s_stop_id row)
         (mkStop (stop_name_col row) (default "" (stop_lat row))
                 (default "" (stop_lon row)))
         stops)
    rows [].

Definition load_stops : M (list (string * Stop)) :=
  rows <- open_table (joinpath GTFS_DIR "stops.txt")
            (fun c => match c with Stops r => Some r | _ => None end) ;;
  ret (stops_dict rows).

(** ** The query *)

Definition is_tram_line (line : string) (item : string * Route) : bool :=
  String.eqb (short_name (snd item)) line && String.eqb (type (snd item)) "0".

Definition find_route_id (line : string) (routes : list (string * Route))
    : option string :=
  let tram_id := "T" +:+ line in
  if Dict.mem tram_id routes then Some tram_id
  else
    match List.find (is_tram_line line) routes with
    | Some (route_id, _) => Some route_id
    | None => None
    end.

Definition trip_matches (route_id service_pattern : string) (row : TripRow)
    : bool :=
  String.eqb (t_route_id row) route_id
  && Py.contains service_pattern (service_id row).

(** The loop of [find_trips] over the rows still to read. *)
Fixpoint scan_trips (route_id service_pattern : string) (limit : nat)
    (rows : list TripRow) (trips : list (string * string))
    : list (string * string) :=
  match rows with
  | [] => trips
  | row :: rest =>
      if trip_matches route_id service_pattern row then
        let trips' :=
          Dict.set (t_trip_id row) (default "Unknown" (trip_headsign row))
                   trips in
        if (limit <=? length trips')%nat then trips'
        else scan_trips route_id service_pattern limit rest trips'
      else scan_trips route_id service_pattern limit rest trips
  end.

Definition find_trips (route_id service_pattern : string) (limit : nat)
    : M (list (string * string)) :=
  rows <- open_table (joinpath GTFS_DIR "trips.txt")
            (fun c => match c with Trips r => Some r | _ => None end) ;;
  ret (scan_trips route_id service_pattern limit rows []).

Definition find_stops_by_name (name_ : string) (stops : list (string * Stop))
    : list string :=
  let name_lower := str_lower name_ in
  map fst
    (List.filter (fun item => Py.contains name_lower (str_lower (name (snd item))))
                 stops).

(** One row of [stop_times.txt] in the loop of [get_stop_times]. *)
Definition add_stop_time (trip_info : list (string * string))
    (stop_ids : option (list string))
    (times_by_stop : list (string * list (string * string)))
    (row : StopTimeRow) : list (string * list (string * string)) :=
  match Dict.get (st_trip_id row) trip_info with
  | Some headsign =>
      let stop_id := st_stop_id row in
      if match stop_ids with
         | None => true
         | Some ids => bool_decide (stop_id ∈ ids)
         end
      then Dict.append stop_id (departure_time row, headsign) times_by_stop
      else times_by_stop
  | None => times_by_stop
  end.

(** The second loop of [get_stop_times]: sort by time, without duplicates. *)
Definition sort_times (times_by_stop : list (string * list (string * string)))
    : list (string * list (string * string)) :=
  fold_left
    (fun result item => Dict.set (fst item) (sorted fst (py_set (snd item))) result)
    times_by_stop [].

Definition get_stop_times (trip_info : list (string * string))
    (stop_ids : option (list string))
    : M (list (string * list (string * string))) :=
  (if (10 <? length trip_info)%nat then
     log ("Scanning stop_times.txt for "
          +:+ Py.str_of_nat (length trip_info) +:+ " trips...")
   else ret tt) ;;
  rows <- open_table (joinpath GTFS_DIR "stop_times.txt")
            (fun c => match c with StopTimes r => Some r | _ => None end) ;;
  ret (sort_times (fold_left (add_stop_time trip_info stop_ids) rows [])).

(** ** The report *)

(** The loop "group by direction" of [format_output]. *)
Definition by_direction (times_with_direction : list (string * string))
    : list (string * list string) :=
  fold_left (fun acc th => Dict.append (snd th) (fst th) acc)
            times_with_direction [].

Definition direction_lines (groups : list (string * list string))
    (direction : string) : list string :=
  let times := default [] (Dict.get direction groups) in
  ["  Direction: " +:+ direction;
   "  (" +:+ Py.str_of_nat (length times) +:+ " departures)";
   ""]
  ++ map (fun time_group => "    " +:+ Py.join "  " time_group)
         (Py.chunks (length times) 6 times)
  ++ [""].

Definition stop_lines (stop_times : list (string * list (string * string)))
    (stops : list (string * Stop)) (stop_id : string) : list string :=
  let times_with_direction := default [] (Dict.get stop_id stop_times) in
  let stop_display :=
    match Dict.get stop_id stops with
    | Some stop_info => name stop_info
    | None => stop_id
    end in
  let groups := by_direction times_with_direction in
  ["Stop: " +:+ stop_display +:+ " (" +:+ stop_id +:+ ")";
   "Departures: " +:+ Py.str_of_nat (length times_with_direction)
     +:+ " scheduled";
   ""]
  ++ flat_map (direction_lines groups) (sorted id (Dict.keys groups)).

Definition format_output (line stop_name schedule_type route_id : string)
    (trips : list (string * string))
    (stop_times : list (string * list (string * string)))
    (stops : list (string * Stop)) (matching_stops : list string)
    : M string :=
  t <- utcnow ;;
  let header :=
    ["=== ATM Tram Schedule (GTFS) ===";
     "Line: " +:+ line;
     "Stop: " +:+ (if Py.truthy stop_name then stop_name else "all stops");
     "Schedule Type: " +:+ schedule_type;
     "Queried At: " +:+ strftime t "%Y-%m-%dT%H:%M:%SZ";
     "Data Source: GTFS Static Feed";
     "";
     "Route ID: " +:+ route_id;
     "";
     "=== Trips for " +:+ schedule_type +:+ " ===";
     "Found " +:+ Py.str_of_nat (length trips) +:+ " trips";
     ""] in
  let matching :=
    if Py.truthy stop_name && negb (bool_decide (matching_stops = [])) then
      ["=== Stops matching '" +:+ stop_name +:+ "' ===";
       "Found " +:+ Py.str_of_nat (length matching_stops)
         +:+ " matching stops:"]
      ++ map (fun stop_id =>
                "  " +:+ stop_id +:+ ": "
                +:+ match Dict.get stop_id stops with
                    | Some stop_info => name stop_info
                    | None => "Unknown"
                    end)
             matching_stops
      ++ [""]
    else [] in
  let departures :=
    match stop_times with
    | [] => ["No departure times found."]
    | _ => flat_map (stop_lines stop_times stops)
                    (sorted id (Dict.keys stop_times))
    end in
  ret (Py.join Py.nl
         (header ++ matching ++ ["=== Departure Times ==="; ""] ++ departures
          ++ ["=== Note ===";
              "This data is from GTFS static feed (scheduled times, not real-time).";
              "Times shown are in HH:MM:SS format.";
              "For real-time data, the ATM API is currently unavailable due to access restrictions."])).

(** ** The entry point *)

Definition cache_input (line stop_name schedule_type : string) : string :=
  line +:+ ":" +:+ stop_name +:+ ":" +:+ schedule_type.

Definition cache_hash (line stop_name schedule_type : string) : string :=
  Sha256.hexdigest (Py.encode (cache_input line stop_name schedule_type)).

Definition cache_key (line stop_name schedule_type : string) : string :=
  "atm-tram-schedule:cache:" +:+ cache_hash line stop_name schedule_type.

(** The part of the file name made from the stop name. *)
Definition slug_fragment (stop_name : string) : string :=
  Py.replace " " "" (Py.slice_to 30 (str_lower stop_name)).

Definition slug (line stop_name : string) : string :=
  if Py.truthy stop_name then "line" +:+ line +:+ "-" +:+ slug_fragment stop_name
  else "line" +:+ line +:+ "-all".

(** [main] from the cache miss on. The route ids are the keys of a dict,
    so [sorted(routes.items())] orders by id alone; creating the
    directory and writing the report are taken to succeed. *)
Definition run_query (line stop_name schedule_type key : string) : M unit :=
  ok <- download_gtfs ;;
  if negb ok then exit 1
  else
    log ("Querying GTFS data for line " +:+ line +:+ "...") ;;
    routes <- load_routes ;;
    stops <- load_stops ;;
    let found := find_route_id line routes in
    if negb (Py.truthy_opt found) then
      log ("Error: Line " +:+ line +:+ " not found in GTFS data") ;;
      log (Py.nl +:+ "Available tram lines (route_type=0):") ;;
      fold_right
        (fun item rest_ =>
           (if String.eqb (type (snd item)) "0" then
              log ("  " +:+ short_name (snd item) +:+ ": "
                   +:+ long_name (snd item))
            else ret tt) ;;
           rest_)
        (ret tt) (sorted fst routes) ;;
      exit 1
    else
      let route_id := default "" found in
      service_pattern <-
        lift (match Dict.get schedule_type SERVICE_PATTERNS with
              | Some p => inr p
              | None => inl KeyError
              end) ;;
      trips <- find_trips route_id service_pattern 50 ;;
      match trips with
      | [] =>
          log ("No trips found for line " +:+ line +:+ " on " +:+ schedule_type) ;;
          exit 1
      | _ =>
          matching_stops <-
            (if Py.truthy stop_name then
               let matching := find_stops_by_name stop_name stops in
               (match matching with
                | [] =>
                    log ("Warning: No stops found matching '" +:+ stop_name
                         +:+ "'") ;;
                    log "Showing all stops for this line instead"
                | _ => ret tt
                end) ;;
               ret (Some matching)
             else ret None) ;;
          stop_times <- get_stop_times trips matching_stops ;;
          d <- now None ;;
          let out_dir := joinpath DATA_DIR (strftime d "%Y/%m/%d") in
          emit (Mkdir out_dir) ;;
          d' <- now None ;;
          let ts := strftime d' "%Y%m%d-%H%M%S" in
          let text_path :=
            joinpath out_dir (ts +:+ "-" +:+ slug line stop_name +:+ ".txt") in
          output <- format_output line stop_name schedule_type route_id trips
                      stop_times stops (default [] matching_stops) ;;
          emit (WriteFile text_path output) ;;
          w <- get_world ;;
          set_fs (<[text_path := Plain (Text output)]> (fs w)) ;;
          t <- utcnow ;;
          let now_iso := strftime t "%Y-%m-%dT%H:%M:%SZ" in
          let cache_value :=
            json_dumps (JObj [("timestamp", JStr now_iso);
                              ("line", JStr line);
                              ("stop", JStr stop_name);
                              ("schedule_type", JStr schedule_type);
                              ("text_path", JStr text_path)]) in
          set_cache_state key cache_value ;;
          print ("LINE: " +:+ line) ;;
          print ("STOP: " +:+ (if Py.truthy stop_name then stop_name else "all")) ;;
          print ("TYPE: " +:+ schedule_type) ;;
          print ("TEXT: " +:+ text_path) ;;
          print "SOURCE: GTFS" ;;
          print "CACHE: miss"
      end.

Definition usage : list string :=
  ["Usage: check-tram-schedule.py <line-number> [stop-name] [schedule-type]";
   "  line-number:    Tram line number (e.g., 9, 12, 16)";
   "  stop-name:      Stop name (optional, shows all stops if omitted)";
   "  schedule-type:  weekday (default), saturday, sunday"].

(** [argv] is [sys.argv], the script's name first. *)
Definition main (argv : list string) : M unit :=
  if (length argv <? 2)%nat || (4 <? length argv)%nat then
    fold_right (fun l rest_ => log l ;; rest_) (ret tt) usage ;;
    exit 1
  else
    let line := nth 1 argv "" in
    let stop_name := if (2 <? length argv)%nat then nth 2 argv "" else "" in
    let schedule_type :=
      if (3 <? length argv)%nat then nth 3 argv "" else "weekday" in
    if negb (Dict.mem schedule_type SERVICE_PATTERNS) then
      log ("Error: schedule-type must be one of: "
           +:+ Py.join ", " (Dict.keys SERVICE_PATTERNS)) ;;
      exit 1
    else
      let key := cache_key line stop_name schedule_type in
      cached <- check_cache key SCHEDULE_CACHE_TTL ;;
      match cached with
      | Some cache_data =>
          if json_truthy cache_data then
            print ("LINE: " +:+ line) ;;
            print ("STOP: " +:+ (if Py.truthy stop_name then stop_name else "all")) ;;
            print ("TYPE: " +:+ schedule_type) ;;
            text_path <- lift (subscript cache_data "text_path") ;;
            print ("TEXT: " +:+ py_str text_path) ;;
            print "SOURCE: GTFS" ;;
            print "CACHE: hit" ;;
            exit 0
          else run_query line stop_name schedule_type key
      | None => run_query line stop_name schedule_type key
      end.

End Script.

(** ** What a run observes of the world it starts in *)

Section Observations.
Context `{PyLib}.

(** The value [get_cache_state] finds under [key]. *)
Definition stored_value (w : World) (key : string) : option string :=
  match ctl_get w key with
  | Some (returncode, stdout) =>
      if (returncode =? 0)%Z && Py.contains "=" stdout
      then Py.after_first "=" (Py.strip stdout)
      else None
  | None => None
  end.

(** The age, in microseconds, that the script computes for the instant
    [ts]: against the clock in the zone of [ts], or against local time
    for a naive [ts]. *)
Definition age_at (w : World) (ts : datetime) : Z :=
  match tzoffset ts with
  | Some off => (utc_now w - (wall ts - off))%Z
  | None => (utc_now w + local_offset w - wall ts)%Z
  end.

Definition file_there (w : World) (p : string) : bool :=
  bool_decide (is_Some (fs w !! p)).

Definition tables_there (w : World) : bool :=
  file_there w (joinpath GTFS_DIR "routes.txt")
  && file_there w (joinpath GTFS_DIR "stops.txt")
  && file_there w (joinpath GTFS_DIR "trips.txt")
  && file_there w (joinpath GTFS_DIR "stop_times.txt").

(** The dataset passes the freshness test of [download_gtfs]. *)
Definition dataset_fresh (w : World) : bool :=
  tables_there w
  && match stored_value w gtfs_cache_key with
     | Some stamp =>
         Py.truthy stamp
         && match fromisoformat (Py.replace "Z" "+00:00" stamp) with
            | Some ts => younger (age_at w ts) GTFS_CACHE_TTL
            | None => false
            end
     | None => false
     end.

(** The effects with which [download_gtfs] starts. *)
Definition freshness_checks : list event :=
  [Stat (joinpath GTFS_DIR "routes.txt");
   Stat (joinpath GTFS_DIR "stops.txt");
   Stat (joinpath GTFS_DIR "trips.txt");
   Stat (joinpath GTFS_DIR "stop_times.txt");
   StateGet gtfs_cache_key].




Definition is_fetch (e : event) : bool :=
  match e with Curl _ _ => true | _ => false end.

Definition is_extraction (e : event) : bool :=
  match e with Extract _ _ => true | _ => false end.

(** A write to the disk or to the state store. *)
Definition is_write (e : event) : bool :=
  match e with
  | StateSet _ _ | Mkdir _ | Curl _ _ | Extract _ _ | WriteFile _ _ => true
  | _ => false
  end.

(** The lines a run wrote on the error stream, and the files it wrote. *)
Definition stderr_lines (evs : list event) : list string :=
  flat_map (fun e => match e with Stderr msg => [msg] | _ => [] end) evs.

Definition stdout_lines (evs : list event) : list string :=
  flat_map (fun e => match e with Stdout msg => [msg] | _ => [] end) evs.

Definition files_written (evs : list event) : list (string * string) :=
  flat_map (fun e => match e with WriteFile p text => [(p, text)] | _ => [] end)
           evs.

(** [m] writes nothing on standard output and does not leave through
    [sys.exit]. *)
Definition prints_nothing {A} (m : M A) : Prop :=
  forall w,
    stdout_lines (trace (snd (m w))) = stdout_lines (trace w)
    /\ forall code, fst (m w) <> Exit code.

(** The six lines that [main] prints for a result. *)
Definition result_lines (line stop_name schedule_type text_path cache : string)
    : list string :=
  ["LINE: " +:+ line;
   "STOP: " +:+ (if Py.truthy stop_name then stop_name else "all");
   "TYPE: " +:+ schedule_type;
   "TEXT: " +:+ text_path;
   "SOURCE: GTFS";
   "CACHE: " +:+ cache].

(** What a run that started in [w0] has added to standard output when it
    ends with [r]: the result lines, or nothing. *)
Definition result_on_stdout (line stop_name schedule_type : string)
    (w0 : World) (r : outcome unit * World) : Prop :=
  exists out,
    stdout_lines (trace (snd r)) = stdout_lines (trace w0) ++ out
    /\ match fst r with
       | Ret _ =>
           exists p, out = result_lines line stop_name schedule_type p "miss"
       | Exit code =>
           (code = 0%Z
            /\ exists p, out = result_lines line stop_name schedule_type p "hit")
           \/ (code = 1%Z /\ out = [])
       | Raise _ => out = []
       end.

End Observations.

(** ** A small city, for examples *)

Module Sample.

Definition dq : string := String (ascii_of_nat 34) "".

Fixpoint dumps_fields (d : list (string * json)) : string :=
  match d with
  | [] => ""
  | (k, JStr v) :: r =>
      dq +:+ k +:+ dq +:+ ": " +:+ dq +:+ v +:+ dq
      +:+ match r with [] => "" | _ => ", " +:+ dumps_fields r end
  | _ :: r => dumps_fields r
  end.

(** [json.dumps] on the objects the script writes: string fields only. *)
Definition dumps (j : json) : string :=
  match j with
  | JObj d => "{" +:+ dumps_fields d +:+ "}"
  | JStr s => dq +:+ s +:+ dq
  | _ => "null"
  end.

Definition report_path : string :=
  "/data/generated/atm-tram-schedule/2026/11/04/20261104-080000-line9-all.txt".

Definition entry : json :=
  JObj [("timestamp", JStr "2026-11-04T08:00:00Z");
        ("line", JStr "9");
        ("stop", JStr "");
        ("schedule_type", JStr "weekday");
        ("text_path", JStr report_path)].

(** 2026-11-04T08:00:00Z in microseconds. *)
Definition at_8_00 : Z := 1793779200000000.
Definition minutes (n : Z) : Z := (n * 60 * 1000000)%Z.

(** An interpreter that knows one timestamp and one cache entry, and
    whose clock reads 08:30 UTC. *)
Definition lib : PyLib := {|
  json_loads s := if String.eqb s (dumps entry) then Some entry else None;
  json_dumps := dumps;
  fromisoformat s :=
    if String.eqb s "2026-11-04T08:00:00+00:00"
    then Some (mkDatetime at_8_00 (Some 0%Z)) else None;
  strftime _ fmt :=
    if String.eqb fmt "%Y/%m/%d" then "2026/11/04"
    else if String.eqb fmt "%Y%m%d-%H%M%S" then "20261104-083000"
    else "2026-11-04T08:30:00Z";
  str_exn _ := "File is not a zip file";
  str_lower := Py.lower;
  set_order l := l |}.

(** The same interpreter, iterating every set the other way round. *)
Definition backwards : PyLib := {|
  json_loads := json_loads (PyLib := lib);
  json_dumps := json_dumps (PyLib := lib);
  fromisoformat := fromisoformat (PyLib := lib);
  strftime := strftime (PyLib := lib);
  str_exn := str_exn (PyLib := lib);
  str_lower := str_lower (PyLib := lib);
  set_order l := reverse l |}.

Definition routes : list RouteRow :=
  [mkRouteRow "B90" "90" "Circolare destra" "3";
   mkRouteRow "T9" "9" "Centrale FS - P.ta Genova" "0";
   mkRouteRow "15" "15" "Duomo - Rozzano" "0";
   mkRouteRow "T1" "1" "Greco - Roserio" "0"].

Definition stops : list StopRow :=
  [mkStopRow "S1" "Centrale FS" (Some "45.48") (Some "9.20");
   mkStopRow "S2" "P.ta Venezia" None None;
   mkStopRow "S3" "P.ta Genova" None None].

Definition trips : list TripRow :=
  [mkTripRow "t1" "T9" "2026 LV 1" (Some "P.ta Genova");
   mkTripRow "t2" "T9" "2026 LV 2" (Some "Centrale FS");
   mkTripRow "t3" "T9" "2026 SAB 1" (Some "P.ta Genova");
   mkTripRow "t4" "T1" "2026 LV 1" None].

Definition stop_times : list StopTimeRow :=
  [mkStopTimeRow "t1" "S1" "08:10:00";
   mkStopTimeRow "t1" "S2" "08:20:00";
   mkStopTimeRow "t2" "S2" "08:05:00";
   mkStopTimeRow "t2" "S1" "08:15:00";
   mkStopTimeRow "t1" "S1" "08:10:00";
   mkStopTimeRow "t1" "S1" "07:40:00";
   mkStopTimeRow "t3" "S1" "09:00:00"].

Definition archive : file :=
  Archive (Some [("routes.txt", Routes routes); ("stops.txt", Stops stops);
                 ("trips.txt", Trips trips);
                 ("stop_times.txt", StopTimes stop_times)]).

Definition tables : gmap string file :=
  <[joinpath GTFS_DIR "routes.txt" := Plain (Routes routes)]>
    (<[joinpath GTFS_DIR "stops.txt" := Plain (Stops stops)]>
       (<[joinpath GTFS_DIR "trips.txt" := Plain (Trips trips)]>
          (<[joinpath GTFS_DIR "stop_times.txt" := Plain (StopTimes stop_times)]>
             (<[GTFS_ZIP := archive]> ∅)))).

(** [ambrogioctl state get] over the given entries. *)
Definition store (entries : list (string * string)) (key : string)
    : option (Z * string) :=
  match Dict.get key entries with
  | Some v => Some (0%Z, key +:+ "=" +:+ v +:+ Py.nl)
  | None => Some (1%Z, "")
  end.

(** Tables on disk, refreshed half an hour ago; nothing cached. *)
Definition fresh : World :=
  mkWorld tables (at_8_00 + minutes 30) (minutes 60)
          (store [(gtfs_cache_key, "2026-11-04T08:00:00Z")]) None [].

(** The same with the query "line 9, all stops, weekday" cached. *)
Definition cached : World :=
  mkWorld (<[report_path := Plain (Text "report")]> tables)
          (at_8_00 + minutes 30) (minutes 60)
          (store [(gtfs_cache_key, "2026-11-04T08:00:00Z");
                  (cache_key "9" "" "weekday", dumps entry)])
          None [].

(** The same with a directory where the cached report was. *)
Definition cached_directory : World :=
  with_fs cached (<[report_path := Directory]> (fs cached)).


(** Nothing on disk and nothing recorded; [curl] answers as given. *)
Definition bare (answer : option (Z * option file)) : World :=
  mkWorld ∅ (at_8_00 + minutes 30) (minutes 60) (store []) answer [].

(** [curl] cannot resolve the host (return code 6, no file). *)
Definition offline : World := bare (Some (6%Z, None)).


End Sample.

(** ** The trip selection as the specification words it *)

(** What [find_trips] stores for a row. *)
Definition trip_entry (row : TripRow) : string * string :=
  (t_trip_id row, default "Unknown" (trip_headsign row)).

(** The first [limit] rows, in table order, of the route and with the
    pattern in their service id. *)
Definition selected_trips (route_id service_pattern : string) (limit : nat)
    (rows : list TripRow) : list (string * string) :=
  map trip_entry
      (firstn limit (List.filter (trip_matches route_id service_pattern) rows)).

(** ** The departures of a stop, read off the table *)

(** The (time, headsign) pairs of the rows of [stop_times.txt] at the
    stop [stop_id] whose trip is selected, in the order of the table. *)
Definition departures_at (trip_info : list (string * string))
    (rows : list StopTimeRow) (stop_id : string) : list (string * string) :=
  flat_map
    (fun row =>
       match Dict.get (st_trip_id row) trip_info with
       | Some headsign =>
           if String.eqb (st_stop_id row) stop_id
           then [(departure_time row, headsign)] else []
       | None => []
       end)
    rows.

(** ** The slug as the specification words it, for comparison *)

(** Lowercase, strip the spaces, then truncate to 30. *)
Definition slug_fragment_spec `{PyLib} (stop_name : string) : string :=
  Py.slice_to 30 (Py.replace " " "" (str_lower stop_name)).

(** [str.decode()] of what [Py.encode] produces. *)
Fixpoint decode (bs : list N) : string :=
  match bs with
  | [] => EmptyString
  | b :: r =>
      if (b <? 128)%N then String (ascii_of_N b) (decode r)
      else
        match r with
        | [] => EmptyString
        | b2 :: r' =>
            String (ascii_of_N (N.lor (N.shiftl (N.land b 3) 6) (N.land b2 63)))
                   (decode r')
        end
  end.

(** ** Properties of the string functions *)

Lemma length_slice_to (n : nat) (s : string) :
  String.length (Py.slice_to n s) <= n.
Proof.
  revert s; induction n as [|k IH]; intros [|c r]; simpl; try lia.
  specialize (IH r); lia.
Qed.

Lemma slice_to_all (n : nat) (s : string) :
  String.length s <= n -> Py.slice_to n s = s.
Proof.
  revert s; induction n as [|k IH]; intros [|c r]; simpl; intros Hl;
    try reflexivity; try lia.
  f_equal; apply IH; lia.
Qed.

Lemma append_empty_l (s : string) : "" +:+ s = s.
Proof. reflexivity. Qed.

Lemma append_cons (c : ascii) (s t : string) :
  String c s +:+ t = String c (s +:+ t).
Proof. reflexivity. Qed.

Lemma length_strip_spaces (s : string) :
  String.length (Py.replace " " "" s) <= String.length s.
Proof.
  induction s as [|c r IH]; [simpl; lia|].
  simpl Py.replace. destruct (Ascii.eqb c " ");
    rewrite ?append_empty_l; simpl; lia.
Qed.

Lemma strip_spaces_no_space (s : string) :
  Py.contains " " (Py.replace " " "" s) = false.
Proof.
  induction s as [|c r IH]; [reflexivity|].
  simpl Py.replace. destruct (Ascii.eqb c " ") eqn:E; [exact IH|].
  cbn [Py.contains Py.startswith]. rewrite Ascii.eqb_sym, E. exact IH.
Qed.

(** Stripping a prefix gives a prefix of the stripped string. *)
Lemma strip_slice_prefix (s : string) :
  forall n m, n <= m ->
    Py.startswith (Py.replace " " "" (Py.slice_to n s))
                  (Py.slice_to m (Py.replace " " "" s)) = true.
Proof.
  induction s as [|c r IH]; intros n m Hnm.
  - destruct n; reflexivity.
  - destruct n as [|k]; [reflexivity|].
    destruct m as [|m']; [lia|].
    simpl Py.slice_to at 1. simpl Py.replace.
    destruct (Ascii.eqb c " ") eqn:E.
    + apply IH; lia.
    + cbn [Py.startswith Py.slice_to]. rewrite Ascii.eqb_refl. apply IH; lia.
Qed.

Lemma truthy_length (s : string) : Py.truthy s = true <-> s <> "".
Proof. destruct s; simpl; split; congruence. Qed.

Lemma contains_char_cons (a c : ascii) (r : string) :
  Py.contains (String a "") (String c r)
  = Ascii.eqb a c || Py.contains (String a "") r.
Proof.
  cbn [Py.contains Py.startswith]. destruct r; now rewrite andb_true_r.
Qed.

Lemma contains_char_app (a : ascii) (x y : string) :
  Py.contains (String a "") (x +:+ String a y) = true.
Proof.
  induction x as [|c r IH].
  - rewrite append_empty_l, contains_char_cons, Ascii.eqb_refl. reflexivity.
  - rewrite append_cons, contains_char_cons, IH. apply orb_true_r.
Qed.

(** A string is cut in one way at the first occurrence of a character. *)
Lemma cut_at_first (a : ascii) (x1 x2 y1 y2 : string) :
  Py.contains (String a "") x1 = false ->
  Py.contains (String a "") x2 = false ->
  x1 +:+ String a y1 = x2 +:+ String a y2 ->
  x1 = x2 /\ y1 = y2.
Proof.
  revert x2; induction x1 as [|c r IH]; intros [|c' r'] H1 H2 E.
  - rewrite !append_empty_l in E. split; congruence.
  - rewrite append_empty_l, append_cons in E. injection E as -> _.
    rewrite contains_char_cons, Ascii.eqb_refl in H2. discriminate.
  - rewrite append_empty_l, append_cons in E. injection E as -> _.
    rewrite contains_char_cons, Ascii.eqb_refl in H1. discriminate.
  - rewrite !append_cons in E. injection E as -> E.
    rewrite contains_char_cons in H1, H2.
    apply orb_false_iff in H1 as [_ H1], H2 as [_ H2].
    destruct (IH r' H1 H2 E) as [-> ->]. split; reflexivity.
Qed.

(** And in one way at the last occurrence. *)
Lemma cut_at_last (a : ascii) (x1 x2 y1 y2 : string) :
  Py.contains (String a "") y1 = false ->
  Py.contains (String a "") y2 = false ->
  x1 +:+ String a y1 = x2 +:+ String a y2 ->
  x1 = x2 /\ y1 = y2.
Proof.
  revert x2; induction x1 as [|c r IH]; intros [|c' r'] H1 H2 E.
  - rewrite !append_empty_l in E. split; congruence.
  - rewrite append_empty_l, append_cons in E. injection E as _ E.
    rewrite E, contains_char_app in H1. discriminate.
  - rewrite append_empty_l, append_cons in E. injection E as _ E.
    rewrite <- E, contains_char_app in H2. discriminate.
  - rewrite !append_cons in E. injection E as -> E.
    destruct (IH r' H1 H2 E) as [-> ->]. split; reflexivity.
Qed.

Lemma append_assoc (x y z : string) : (x +:+ y) +:+ z = x +:+ (y +:+ z).
Proof. induction x as [|c r IH]; [reflexivity|]. rewrite !append_cons; now f_equal. Qed.

Lemma schedule_type_cases (t : string) :
  Dict.mem t SERVICE_PATTERNS = true ->
  t = "weekday" \/ t = "saturday" \/ t = "sunday".
Proof.
  unfold Dict.mem, SERVICE_PATTERNS. cbn [Dict.get].
  destruct (String.eqb_spec "weekday" t); [auto|].
  destruct (String.eqb_spec "saturday" t); [auto|].
  destruct (String.eqb_spec "sunday" t); [auto|discriminate].
Qed.

Lemma schedule_type_no_colon (t : string) :
  Dict.mem t SERVICE_PATTERNS = true -> Py.contains ":" t = false.
Proof.
  intros Ht. destruct (schedule_type_cases t Ht) as [-> | [-> | ->]]; reflexivity.
Qed.

Lemma decode_encode_char (c : ascii) (r : list N) :
  decode (Py.encode_char c ++ r) = String c (decode r).
Proof.
  destruct c as [[] [] [] [] [] [] [] []]; reflexivity.
Qed.

Lemma decode_encode (s : string) : decode (Py.encode s) = s.
Proof.
  induction s as [|c r IH]; [reflexivity|].
  cbn [Py.encode]. rewrite decode_encode_char, IH. reflexivity.
Qed.

Lemma encode_injective (s1 s2 : string) :
  Py.encode s1 = Py.encode s2 -> s1 = s2.
Proof.
  intros E. rewrite <- (decode_encode s1), <- (decode_encode s2). now f_equal.
Qed.

Lemma cache_hash_of_input (l1 s1 t1 l2 s2 t2 : string) :
  cache_input l1 s1 t1 = cache_input l2 s2 t2 ->
  cache_hash l1 s1 t1 = cache_hash l2 s2 t2.
Proof. unfold cache_hash. intros ->. reflexivity. Qed.

Lemma cache_input_cut (l1 s1 t1 l2 s2 t2 : string) :
  (Py.contains ":" l1 = false /\ Py.contains ":" l2 = false)
  \/ (Py.contains ":" s1 = false /\ Py.contains ":" s2 = false) ->
  Py.contains ":" t1 = false -> Py.contains ":" t2 = false ->
  cache_input l1 s1 t1 = cache_input l2 s2 t2 ->
  l1 = l2 /\ s1 = s2 /\ t1 = t2.
Proof.
  unfold cache_input. intros [[Hl1 Hl2] | [Hs1 Hs2]] Ht1 Ht2 E.
  - apply cut_at_first in E as [-> E]; try assumption.
    apply (cut_at_last ":" s1 s2 t1 t2) in E as [-> ->]; auto.
  - change (l1 +:+ ":" +:+ s1 +:+ ":" +:+ t1)
      with (l1 +:+ (":" +:+ s1) +:+ ":" +:+ t1) in E.
    change (l2 +:+ ":" +:+ s2 +:+ ":" +:+ t2)
      with (l2 +:+ (":" +:+ s2) +:+ ":" +:+ t2) in E.
    rewrite <- !(append_assoc _ _ (":" +:+ _)) in E.
    apply (cut_at_last ":") in E as [E ->]; try assumption.
    apply (cut_at_last ":" l1 l2 s1 s2) in E as [-> ->]; auto.
Qed.

(** C3 (amended). For a non-empty stop name the file name continues,
    after "line<line>-", with the stop name lowercased, cut to its first
    30 characters, and then without the spaces of that prefix; this holds
    whatever [str.lower] does to the name. The fragment has at most 30
    characters and no space; it is a prefix of "lowercase, strip spaces,
    truncate to 30" and equal to it when the lowercased name has at most
    30 characters. *)
Theorem slug_lower_truncate_strip `{PyLib} (line stop_name : string) :
  stop_name <> "" ->
  slug line stop_name
  = "line" +:+ line +:+ "-"
    +:+ Py.replace " " "" (Py.slice_to 30 (str_lower stop_name))
  /\ String.length (slug_fragment stop_name) <= 30
  /\ Py.contains " " (slug_fragment stop_name) = false
  /\ Py.startswith (slug_fragment stop_name) (slug_fragment_spec stop_name) = true
  /\ (String.length (str_lower stop_name) <= 30 ->
      slug_fragment stop_name = slug_fragment_spec stop_name).
Proof.
  intros Hne. apply truthy_length in Hne.
  unfold slug, slug_fragment, slug_fragment_spec. rewrite Hne.
  split; [reflexivity|]. split.
  { etransitivity; [apply length_strip_spaces | apply length_slice_to]. }
  split; [apply strip_spaces_no_space|].
  split; [apply strip_slice_prefix; lia|].
  intros Hl. rewrite !slice_to_all; [reflexivity | | exact Hl].
  etransitivity; [apply length_strip_spaces | exact Hl].
Qed.

Lemma slug_lower_truncate_strip_witness :
  "Duomo M1 M3" <> ""
  /\ slug (H := Sample.lib) "9" "Duomo M1 M3" = "line9-duomom1m3"
  /\ String.length (str_lower (PyLib := Sample.lib) "Duomo M1 M3") <= 30
  /\ slug_fragment (H := Sample.lib) "Duomo M1 M3"
     = slug_fragment_spec (H := Sample.lib) "Duomo M1 M3".
Proof.
  split; [discriminate|].
  destruct (slug_lower_truncate_strip (H := Sample.lib) "9" "Duomo M1 M3")
    as (E & _ & _ & _ & Hshort); [discriminate|].
  split; [rewrite E; vm_compute; reflexivity|].
  assert (Hl : String.length (str_lower (PyLib := Sample.lib) "Duomo M1 M3")
               <= 30) by (vm_compute; lia).
  split; [exact Hl | exact (Hshort Hl)].
Defined.

(** C3 as the specification words it fails on a long name with spaces:
    the code cuts at 30 characters before it removes the spaces. *)
Lemma slug_strip_then_truncate_fails :
  slug (H := Sample.lib) "9" "Piazza Ventiquattro Maggio Porta Ticinese"
    = "line9-piazzaventiquattromaggiopor"
  /\ "line9-"
     +:+ slug_fragment_spec (H := Sample.lib)
           "Piazza Ventiquattro Maggio Porta Ticinese"
    = "line9-piazzaventiquattromaggioportat"
  /\ slug (H := Sample.lib) "9" "Piazza Ventiquattro Maggio Porta Ticinese"
    <> "line9-"
       +:+ slug_fragment_spec (H := Sample.lib)
             "Piazza Ventiquattro Maggio Porta Ticinese".
Proof.
  split; [vm_compute; reflexivity|].
  split; [vm_compute; reflexivity|].
  vm_compute. discriminate.
Qed.

(** C2 (amended). Equal query triples have equal fingerprints. On triples
    with a recognised schedule type in which the line, or else the stop
    name, is free of ':' in both triples, the string that is hashed
    determines the triple; two such triples with one fingerprint are the
    same triple, or SHA-256 collides on their two different encodings. *)
Theorem fingerprint_determines_triple (l1 s1 t1 l2 s2 t2 : string) :
  (Py.contains ":" l1 = false /\ Py.contains ":" l2 = false)
  \/ (Py.contains ":" s1 = false /\ Py.contains ":" s2 = false) ->
  Dict.mem t1 SERVICE_PATTERNS = true ->
  Dict.mem t2 SERVICE_PATTERNS = true ->
  (cache_input l1 s1 t1 = cache_input l2 s2 t2
   <-> l1 = l2 /\ s1 = s2 /\ t1 = t2)
  /\ (l1 = l2 /\ s1 = s2 /\ t1 = t2 ->
      cache_hash l1 s1 t1 = cache_hash l2 s2 t2)
  /\ (cache_hash l1 s1 t1 = cache_hash l2 s2 t2 ->
      (l1 = l2 /\ s1 = s2 /\ t1 = t2)
      \/ (Py.encode (cache_input l1 s1 t1) <> Py.encode (cache_input l2 s2 t2)
          /\ Sha256.hexdigest (Py.encode (cache_input l1 s1 t1))
             = Sha256.hexdigest (Py.encode (cache_input l2 s2 t2)))).
Proof.
  intros Hfree Ht1 Ht2.
  assert (Hcut : cache_input l1 s1 t1 = cache_input l2 s2 t2 ->
                 l1 = l2 /\ s1 = s2 /\ t1 = t2).
  { apply cache_input_cut; auto using schedule_type_no_colon. }
  split; [split; [exact Hcut | now intros (-> & -> & ->)]|].
  split; [now intros (-> & -> & ->)|].
  intros Hh.
  destruct (string_dec (cache_input l1 s1 t1) (cache_input l2 s2 t2)) as [E|N].
  - left; auto.
  - right. split; [|exact Hh].
    intros E; apply N, encode_injective, E.
Qed.

Lemma fingerprint_determines_triple_witness :
  Dict.mem "weekday" SERVICE_PATTERNS = true
  /\ Dict.mem "sunday" SERVICE_PATTERNS = true
  /\ (cache_input "9" "Duomo" "weekday" = cache_input "9" "Duomo" "sunday"
      <-> "9" = "9" /\ "Duomo" = "Duomo" /\ "weekday" = "sunday").
Proof.
  split; [reflexivity|]. split; [reflexivity|].
  exact (proj1 (fingerprint_determines_triple
                  "9" "Duomo" "weekday" "9" "Duomo" "sunday"
                  (or_introl (conj eq_refl eq_refl)) eq_refl eq_refl)).
Defined.

(** C2 as stated fails: the separator ':' may occur in the line and in
    the stop name, so two different triples are hashed as one string. *)
Lemma fingerprint_collision :
  ~ (forall l1 s1 t1 l2 s2 t2 : string,
       Dict.mem t1 SERVICE_PATTERNS = true ->
       Dict.mem t2 SERVICE_PATTERNS = true ->
       (cache_hash l1 s1 t1 = cache_hash l2 s2 t2
        <-> l1 = l2 /\ s1 = s2 /\ t1 = t2)).
Proof.
  intros Hclaim.
  destruct (Hclaim "1:2" "3" "weekday" "1" "2:3" "weekday") as [Hinj _];
    [reflexivity | reflexivity |].
  assert (E : cache_input "1:2" "3" "weekday" = cache_input "1" "2:3" "weekday")
    by reflexivity.
  apply cache_hash_of_input in E.
  destruct (Hinj E) as [N _]. discriminate N.
Qed.

(** ** Running the effects *)

Section Runs.
Context `{PyLib}.

Lemma add_events_app (w : World) (a b : list event) :
  add_events (add_events w a) b = add_events w (a ++ b).
Proof. unfold add_events; simpl. now rewrite <- app_assoc. Qed.

Lemma bind_run {A B} (m : M A) (k : A -> M B) (w w' : World) (a : A) :
  m w = (Ret a, w') -> (x <- m ;; k x) w = k a w'.
Proof. unfold bind. now intros ->. Qed.

Lemma path_exists_run (p : string) (w : World) :
  path_exists p w = (Ret (file_there w p), add_events w [Stat p]).
Proof. reflexivity. Qed.

Lemma get_cache_state_run (key : string) (w : World) :
  get_cache_state key w
  = (Ret (stored_value w key), add_events w [StateGet key]).
Proof.
  unfold get_cache_state, stored_value, try_except, bind, emit, get_world.
  cbn [ctl_get add_events].
  destruct (ctl_get w key) as [[rc out]|]; [|reflexivity].
  destruct (rc =? 0)%Z; [|reflexivity].
  destruct (Py.contains "=" out); [|reflexivity].
  cbn [andb]. destruct (Py.after_first "=" (Py.strip out)); reflexivity.
Qed.

(** Reading the clock to age a timestamp neither fails nor has an effect. *)
Lemma age_run {A} (ts : datetime) (k : Z -> M A) (w : World) :
  (current <- now (tzoffset ts) ;;
   age <- lift (sub_datetime current ts) ;;
   k age) w
  = k (age_at w ts) w.
Proof.
  destruct ts as [wl [off|]];
    cbv [bind now get_world ret sub_datetime age_at lift raise tzoffset wall
         default id]; f_equal; lia.
Qed.
Lemma file_there_add_events (w : World) (evs : list event) (p : string) :
  file_there (add_events w evs) p = file_there w p.
Proof. reflexivity. Qed.

Lemma stored_value_add_events (w : World) (evs : list event) (k : string) :
  stored_value (add_events w evs) k = stored_value w k.
Proof. reflexivity. Qed.

Lemma age_at_add_events (w : World) (evs : list event) (ts : datetime) :
  age_at (add_events w evs) ts = age_at w ts.
Proof. reflexivity. Qed.

Lemma try_except_run {A} (m : M A) (h : exn -> M A) (w w' : World) (a : A) :
  m w = (Ret a, w') -> try_except m h w = (Ret a, w').
Proof. unfold try_except. now intros ->. Qed.

Lemma ret_run {A} (a : A) (w : World) : ret a w = (Ret a, w).
Proof. reflexivity. Qed.

Lemma emit_run (e : event) (w : World) :
  emit e w = (Ret tt, add_events w [e]).
Proof. reflexivity. Qed.

Lemma log_run (msg : string) (w : World) :
  log msg w = (Ret tt, add_events w [Stderr msg]).
Proof. reflexivity. Qed.

Lemma print_run (msg : string) (w : World) :
  print msg w = (Ret tt, add_events w [Stdout msg]).
Proof. reflexivity. Qed.

Lemma set_cache_state_run (key value : string) (w : World) :
  set_cache_state key value w = (Ret tt, add_events w [StateSet key value]).
Proof. reflexivity. Qed.

Lemma utcnow_run (w : World) :
  utcnow w = (Ret (mkDatetime (utc_now w) None), w).
Proof. reflexivity. Qed.

Lemma now_run (tz : option Z) (w : World) :
  now tz w
  = (Ret (mkDatetime (utc_now w + default (local_offset w) tz)%Z tz), w).
Proof. reflexivity. Qed.


End Runs.

Ltac run_step :=
  first
    [ erewrite bind_run by apply emit_run
    | erewrite bind_run by apply log_run
    | erewrite bind_run by apply print_run
    | erewrite bind_run by apply path_exists_run
    | erewrite bind_run by apply get_cache_state_run
    | erewrite bind_run by apply set_cache_state_run
    | erewrite bind_run by apply utcnow_run
    | erewrite bind_run by apply now_run
    | erewrite bind_run by apply ret_run ].

Section Dataset.
Context `{PyLib}.

Lemma download_gtfs_run (w : World) :
  download_gtfs w
  = if dataset_fresh w then (Ret true, add_events w freshness_checks)
    else refresh_gtfs (add_events w freshness_checks).
Proof.
  unfold download_gtfs.
  repeat (erewrite bind_run; [|apply path_exists_run]).
  erewrite bind_run; [|apply get_cache_state_run].
  rewrite !file_there_add_events, !stored_value_add_events, !add_events_app.
  cbn [app]. fold freshness_checks.
  unfold dataset_fresh, tables_there.
  set (w1 := add_events w freshness_checks).
  destruct (file_there w (joinpath GTFS_DIR "routes.txt")); [|reflexivity].
  destruct (file_there w (joinpath GTFS_DIR "stops.txt")); [|reflexivity].
  destruct (file_there w (joinpath GTFS_DIR "trips.txt")); [|reflexivity].
  destruct (file_there w (joinpath GTFS_DIR "stop_times.txt")); [|reflexivity].
  cbn [andb].
  destruct (stored_value w gtfs_cache_key) as [stamp|]; [|reflexivity].
  cbn [Py.truthy_opt from_option id]. destruct (Py.truthy stamp); [|reflexivity].
  cbn [andb]. unfold parse_timestamp.
  destruct (fromisoformat (Py.replace "Z" "+00:00" stamp)) as [ts|];
    [|reflexivity].
  unfold bind at 1, try_except. cbn [lift].
  change ((ts0 <- ret ts ;; current <- now (tzoffset ts0) ;;
           age <- lift (sub_datetime current ts0) ;;
           ret (younger age GTFS_CACHE_TTL)) w1)
    with ((current <- now (tzoffset ts) ;;
           age <- lift (sub_datetime current ts) ;;
           ret (younger age GTFS_CACHE_TTL)) w1).
  rewrite age_run. unfold ret at 1. subst w1. rewrite age_at_add_events.
  destruct (younger (age_at w ts) GTFS_CACHE_TTL); reflexivity.
Qed.

End Dataset.

Section DatasetClaims.
Context `{PyLib}.

Lemma stored_value_of_run (w : World) (key : string) (o : option string) :
  fst (get_cache_state key w) = Ret o -> stored_value w key = o.
Proof. rewrite get_cache_state_run. cbn [fst]. congruence. Qed.

Lemma dataset_fresh_intro (w : World) (stamp : string) (ts : datetime) :
  is_Some (fs w !! joinpath GTFS_DIR "routes.txt") ->
  is_Some (fs w !! joinpath GTFS_DIR "stops.txt") ->
  is_Some (fs w !! joinpath GTFS_DIR "trips.txt") ->
  is_Some (fs w !! joinpath GTFS_DIR "stop_times.txt") ->
  stored_value w gtfs_cache_key = Some stamp ->
  stamp <> "" ->
  fromisoformat (Py.replace "Z" "+00:00" stamp) = Some ts ->
  (age_at w ts < GTFS_CACHE_TTL * 1000000)%Z ->
  dataset_fresh w = true.
Proof.
  intros H1 H2 H3 H4 Hs Hne Hp Hage.
  unfold dataset_fresh, tables_there, file_there.
  rewrite !bool_decide_eq_true_2 by assumption.
  rewrite Hs, Hp. apply truthy_length in Hne. rewrite Hne.
  unfold younger. cbn [andb]. now apply Z.ltb_lt.
Qed.

(** C4. With the four tables on disk and a recorded timestamp younger
    than 24 hours, [download_gtfs] returns [True] after four existence
    tests and one read of the state store: no fetch, no extraction, no
    write to the disk or to the store, and the files are as before. *)
Theorem fresh_dataset_is_left_alone (w : World) (stamp : string)
    (ts : datetime) :
  is_Some (fs w !! joinpath GTFS_DIR "routes.txt") ->
  is_Some (fs w !! joinpath GTFS_DIR "stops.txt") ->
  is_Some (fs w !! joinpath GTFS_DIR "trips.txt") ->
  is_Some (fs w !! joinpath GTFS_DIR "stop_times.txt") ->
  fst (get_cache_state gtfs_cache_key w) = Ret (Some stamp) ->
  stamp <> "" ->
  fromisoformat (Py.replace "Z" "+00:00" stamp) = Some ts ->
  (age_at w ts < GTFS_CACHE_TTL * 1000000)%Z ->
  download_gtfs w = (Ret true, add_events w freshness_checks)
  /\ fs (snd (download_gtfs w)) = fs w
  /\ Forall (fun e => is_fetch e = false /\ is_extraction e = false
                      /\ is_write e = false)
            freshness_checks.
Proof.
  intros H1 H2 H3 H4 Hs Hne Hp Hage.
  apply stored_value_of_run in Hs.
  rewrite download_gtfs_run,
    (dataset_fresh_intro w stamp ts H1 H2 H3 H4 Hs Hne Hp Hage).
  split; [reflexivity|]. split; [reflexivity|].
  unfold freshness_checks. repeat constructor.
Qed.


End DatasetClaims.

Lemma fresh_dataset_is_left_alone_witness :
  fst (download_gtfs (H := Sample.lib) Sample.fresh) = Ret true
  /\ trace (snd (download_gtfs (H := Sample.lib) Sample.fresh))
     = freshness_checks.
Proof.
  destruct (fresh_dataset_is_left_alone (H := Sample.lib) Sample.fresh
              "2026-11-04T08:00:00Z" (mkDatetime Sample.at_8_00 (Some 0%Z)))
    as [E _].
  - vm_compute; eauto.
  - vm_compute; eauto.
  - vm_compute; eauto.
  - vm_compute; eauto.
  - vm_compute; reflexivity.
  - discriminate.
  - vm_compute; reflexivity.
  - vm_compute; reflexivity.
  - rewrite E. split; reflexivity.
Defined.



Section CacheClaims.
Context `{PyLib}.

(** C8. A schedule type other than weekday, saturday and sunday makes
    [main] exit with status 1 after one line on the error stream: nothing
    is read from or written to the disk or the state store, and the
    files are as before. *)
Theorem invalid_schedule_type_exits_early
    (prog line stop_name schedule_type : string) (w : World) :
  schedule_type <> "weekday" ->
  schedule_type <> "saturday" ->
  schedule_type <> "sunday" ->
  main [prog; line; stop_name; schedule_type] w
  = (Exit 1,
     add_events w
       [Stderr "Error: schedule-type must be one of: weekday, saturday, sunday"])
  /\ exit_code (fst (main [prog; line; stop_name; schedule_type] w)) = 1%Z
  /\ fs (snd (main [prog; line; stop_name; schedule_type] w)) = fs w.
Proof.
  intros H1 H2 H3.
  assert (Hmem : Dict.mem schedule_type SERVICE_PATTERNS = false).
  { unfold Dict.mem, SERVICE_PATTERNS. cbn [Dict.get].
    apply not_eq_sym, String.eqb_neq in H1, H2, H3. now rewrite H1, H2, H3. }
  assert (E : main [prog; line; stop_name; schedule_type] w
              = (Exit 1,
                 add_events w
                   [Stderr "Error: schedule-type must be one of: weekday, saturday, sunday"])).
  { unfold main. cbn [length Nat.ltb Nat.leb orb nth]. rewrite Hmem.
    cbn [negb]. reflexivity. }
  rewrite E. repeat split.
Qed.

(** A miss of [check_cache]: one read of the store, nothing returned,
    and the conditions of a hit lead to a contradiction that is left. *)
Ltac miss key Hmiss :=
  exists None, [StateGet key]; split; [reflexivity|];
  split; [repeat constructor|]; intros ?; apply Hmiss;
  intros (? & ? & ? & ? & Hs' & Hne' & Hl' & Hsub' & Hp' & Hage' & Hg'
          & Hpne' & Hex');
  injection Hs' as <-.

(** C10. [check_cache] always returns, and it writes nothing. It
    returns the stored entry exactly when the entry is present and not
    empty, parses as JSON with a string "timestamp" that
    [fromisoformat] accepts, is younger than the TTL, and names in
    "text_path" a non-empty path that exists on disk, be it a file or a
    directory; in every other case it returns [None]. *)
Theorem check_cache_total (cache_key : string) (ttl : Z) (w : World) :
  exists (r : option json) (evs : list event),
    check_cache cache_key ttl w = (Ret r, add_events w evs)
    /\ Forall (fun e => is_write e = false) evs
    /\ forall data, r = Some data <->
         exists entry stamp ts p,
           fst (get_cache_state cache_key w) = Ret (Some entry)
           /\ entry <> ""
           /\ json_loads entry = Some data
           /\ subscript data "timestamp" = inr (JStr stamp)
           /\ fromisoformat (Py.replace "Z" "+00:00" stamp) = Some ts
           /\ (age_at w ts < ttl * 1000000)%Z
           /\ json_get data "text_path" = inr (JStr p)
           /\ p <> ""
           /\ is_Some (fs w !! p).
Proof.
  unfold check_cache. run_step.
  rewrite get_cache_state_run. cbn [fst].
  set (w1 := add_events w [StateGet cache_key]).
  assert (Hmiss : forall (c : Prop),
             (c -> False) ->
             forall data : json, None = Some data <-> c).
  { intros c Hc data. split; [discriminate | intros Hx; destruct (Hc Hx)]. }
  destruct (stored_value w cache_key) as [entry|] eqn:Hsv.
  2:{ exists None, [StateGet cache_key]. split; [reflexivity|].
      split; [repeat constructor|]. intros data. apply Hmiss.
      intros (? & ? & ? & ? & Hs & _). discriminate Hs. }
  cbn [Py.truthy_opt from_option id].
  destruct (Py.truthy entry) eqn:Htr; cbn [negb].
  2:{ exists None, [StateGet cache_key]. split; [reflexivity|].
      split; [repeat constructor|]. intros data. apply Hmiss.
      intros (? & ? & ? & ? & Hs & Hne & _). injection Hs as <-.
      apply truthy_length in Hne. congruence. }
  unfold try_except.
  destruct (json_loads entry) as [data|] eqn:Hl; cbn [lift];
    [|miss cache_key Hmiss; congruence].
  run_step.
  destruct (subscript data "timestamp") as [e|stampv] eqn:Hsub; cbn [lift];
    [miss cache_key Hmiss; congruence|].
  run_step.
  destruct stampv as [ | b | z | stamp | l | d ]; cbn [as_str lift];
    try (miss cache_key Hmiss; congruence).
  run_step. unfold parse_timestamp.
  destruct (fromisoformat (Py.replace "Z" "+00:00" stamp)) as [ts|] eqn:Hp;
    cbn [lift]; [|miss cache_key Hmiss; congruence].
  run_step. rewrite age_run. subst w1. rewrite age_at_add_events.
  destruct (younger (age_at w ts) ttl) eqn:Hy.
  2:{ miss cache_key Hmiss.
      rewrite Hl in Hl'; injection Hl' as <-.
      rewrite Hsub in Hsub'; injection Hsub' as <-.
      rewrite Hp in Hp'; injection Hp' as <-.
      unfold younger in Hy. apply Z.ltb_ge in Hy. lia. }
  destruct (json_get data "text_path") as [e|pathv] eqn:Hg; cbn [lift];
    [miss cache_key Hmiss; congruence|].
  run_step.
  destruct pathv as [ | b | z | p | l | d ];
    cbn [json_truthy as_path lift];
    try (miss cache_key Hmiss; congruence).
  - destruct b; miss cache_key Hmiss; congruence.
  - destruct (negb (z =? 0)%Z); miss cache_key Hmiss; congruence.
  - destruct (Py.truthy p) eqn:Htp.
    2:{ miss cache_key Hmiss.
        rewrite Hl in Hl'; injection Hl' as <-.
        rewrite Hg in Hg'; injection Hg' as <-.
        apply truthy_length in Hpne'. congruence. }
    do 2 run_step. rewrite file_there_add_events, add_events_app. cbn [app].
    destruct (file_there w p) eqn:Hthere.
    + exists (Some data), [StateGet cache_key; Stat p].
      split; [reflexivity|]. split; [repeat constructor|].
      intros data'. split.
      * intros [= <-]. exists entry, stamp, ts, p.
        repeat split; try assumption; try reflexivity.
        -- now apply truthy_length.
        -- unfold younger in Hy. now apply Z.ltb_lt.
        -- now apply truthy_length.
        -- unfold file_there in Hthere. now apply bool_decide_eq_true in Hthere.
      * intros (? & ? & ? & ? & Hs' & _ & Hl' & _). injection Hs' as <-.
        congruence.
    + exists None, [StateGet cache_key; Stat p].
      split; [reflexivity|]. split; [repeat constructor|].
      intros data'. apply Hmiss.
      intros (? & ? & ? & ? & Hs' & Hne' & Hl' & Hsub' & Hp' & Hage' & Hg'
              & Hpne' & Hex').
      injection Hs' as <-.
      rewrite Hl in Hl'; injection Hl' as <-.
      rewrite Hg in Hg'; injection Hg' as <-.
      unfold file_there in Hthere. apply bool_decide_eq_false in Hthere.
      contradiction.
  - destruct l; miss cache_key Hmiss; congruence.
  - destruct d; miss cache_key Hmiss; congruence.
Qed.
End CacheClaims.
Lemma invalid_schedule_type_exits_early_witness :
  "tuesday" <> "weekday" /\ "tuesday" <> "saturday" /\ "tuesday" <> "sunday"
  /\ main (H := Sample.lib) ["check-tram-schedule.py"; "9"; ""; "tuesday"]
          Sample.fresh
     = (Exit 1,
        add_events Sample.fresh
          [Stderr "Error: schedule-type must be one of: weekday, saturday, sunday"]).
Proof.
  assert (H1 : "tuesday" <> "weekday") by discriminate.
  assert (H2 : "tuesday" <> "saturday") by discriminate.
  assert (H3 : "tuesday" <> "sunday") by discriminate.
  split; [exact H1|]. split; [exact H2|]. split; [exact H3|].
  exact (proj1 (invalid_schedule_type_exits_early (H := Sample.lib)
                  "check-tram-schedule.py" "9" "" "tuesday" Sample.fresh
                  H1 H2 H3)).
Defined.

(** ** Dictionaries *)

Section DictFacts.
Context {V : Type}.
Implicit Types (d : list (string * V)) (k : string) (v : V).

Lemma dict_set_new k v d :
  Dict.get k d = None -> Dict.set k v d = d ++ [(k, v)].
Proof.
  induction d as [|[k' v'] r IH]; cbn [Dict.get Dict.set app]; [reflexivity|].
  destruct (String.eqb k' k); [discriminate|]. intros Hr. now rewrite IH.
Qed.

Lemma dict_get_app_new k k' v d :
  Dict.get k d = None -> k' <> k -> Dict.get k (d ++ [(k', v)]) = None.
Proof.
  intros Hd Hne.
  induction d as [|[k0 v0] r IH]; cbn [Dict.get app] in *.
  - apply String.eqb_neq in Hne. now rewrite Hne.
  - destruct (String.eqb k0 k); [discriminate|]. now apply IH.
Qed.

Lemma dict_get_in k v d : Dict.get k d = Some v -> In (k, v) d.
Proof.
  induction d as [|[k' v'] r IH]; cbn [Dict.get]; [discriminate|].
  destruct (String.eqb_spec k' k) as [->|Hne].
  - intros [= ->]. now left.
  - intros Hr. right. now apply IH.
Qed.

(** An entry after [d[k] = v] is the new one or an old one. *)
Lemma dict_set_in k v d k0 v0 :
  In (k0, v0) (Dict.set k v d) -> (k0 = k /\ v0 = v) \/ In (k0, v0) d.
Proof.
  induction d as [|[k' v'] r IH]; cbn [Dict.set].
  - intros [[= <- <-]|[]]. now left.
  - destruct (String.eqb_spec k' k) as [->|Hne].
    + intros [[= <- <-]|Hin]; [now left | right; now right].
    + intros [Heq|Hin]; [right; now left|].
      destruct (IH Hin) as [?|?]; [now left | right; now right].
Qed.

End DictFacts.

(** ** Trip selection *)

Section Trips.
Variables (route_id service_pattern : string) (limit : nat).

Local Abbreviation matches := (trip_matches route_id service_pattern).
Local Abbreviation scan := (scan_trips route_id service_pattern limit).

(** The loop of [find_trips] on rows with fresh, distinct trip ids. *)
Lemma scan_trips_fresh (rows : list TripRow) :
  forall acc : list (string * string),
    NoDup (map t_trip_id rows) ->
    (forall row, In row rows -> Dict.get (t_trip_id row) acc = None) ->
    length acc < limit ->
    scan rows acc
    = acc ++ map trip_entry (firstn (limit - length acc) (List.filter matches rows)).
Proof.
  induction rows as [|row rest IH]; intros acc Hnd Hfresh Hlen.
  - cbn. now rewrite firstn_nil, app_nil_r.
  - cbn [map] in Hnd. apply NoDup_cons in Hnd as [Hrow Hnd].
    cbn [scan_trips List.filter].
    destruct (trip_matches route_id service_pattern row).
    + rewrite dict_set_new by (apply Hfresh; now left).
      rewrite length_app. cbn [length].
      replace (limit - length acc) with (S (limit - (length acc + 1))) by lia.
      cbn [firstn map]. fold (trip_entry row).
      destruct (limit <=? length acc + 1)%nat eqn:Hfull.
      * apply Nat.leb_le in Hfull.
        replace (limit - (length acc + 1)) with 0 by lia. reflexivity.
      * apply Nat.leb_gt in Hfull.
        rewrite IH; [| assumption | | rewrite length_app; cbn; lia].
        -- rewrite length_app. cbn [length]. now rewrite <- app_assoc.
        -- intros r Hr. apply dict_get_app_new; [apply Hfresh; now right|].
           intros Heq. apply Hrow. rewrite Heq.
           apply list_elem_of_In, in_map, Hr.
    + apply IH; [assumption | | assumption].
      intros r Hr. apply Hfresh. now right.
Qed.

(** Once [limit] trips are collected the rows that follow are not read. *)
Lemma scan_trips_stops (rows rest : list TripRow) :
  forall acc : list (string * string),
    NoDup (map t_trip_id rows) ->
    (forall row, In row rows -> Dict.get (t_trip_id row) acc = None) ->
    length acc < limit ->
    limit <= length acc + length (List.filter matches rows) ->
    scan (rows ++ rest) acc = scan rows acc.
Proof.
  induction rows as [|row rows' IH]; intros acc Hnd Hfresh Hlen Hmany.
  - cbn in Hmany. lia.
  - cbn [map] in Hnd. apply NoDup_cons in Hnd as [Hrow Hnd].
    cbn [scan_trips List.filter app] in *.
    destruct (trip_matches route_id service_pattern row).
    + rewrite dict_set_new by (apply Hfresh; now left).
      rewrite length_app. cbn [length] in *.
      destruct (limit <=? length acc + 1)%nat eqn:Hfull; [reflexivity|].
      apply Nat.leb_gt in Hfull.
      apply IH; [assumption | | rewrite length_app; cbn; lia
                 | rewrite length_app; cbn; lia].
      intros r Hr. apply dict_get_app_new; [apply Hfresh; now right|].
      intros Heq. apply Hrow. rewrite Heq.
      apply list_elem_of_In, in_map, Hr.
    + apply IH; try assumption. intros r Hr. apply Hfresh. now right.
Qed.

End Trips.

(** ** String order and [sorted] *)

Lemma string_leb_trans (s1 s2 s3 : string) :
  String.leb s1 s2 = true -> String.leb s2 s3 = true -> String.leb s1 s3 = true.
Proof.
  unfold String.leb. revert s2 s3.
  induction s1 as [|c1 r1 IH]; intros [|c2 r2] [|c3 r3];
    cbn [String.compare]; try congruence.
  unfold Ascii.compare.
  destruct (N.compare_spec (N_of_ascii c1) (N_of_ascii c2)) as [E12|L12|G12];
    destruct (N.compare_spec (N_of_ascii c2) (N_of_ascii c3)) as [E23|L23|G23];
    destruct (N.compare_spec (N_of_ascii c1) (N_of_ascii c3)) as [E13|L13|G13];
    try congruence; try lia.
  apply IH.
Qed.

Section SortedFacts.
Context {A : Type} (key : A -> string).

Local Abbreviation le := (fun a b : A => String.leb (key a) (key b) = true).

Lemma insert_sorted_perm (x : A) (l : list A) :
  Permutation (insert_sorted key x l) (x :: l).
Proof.
  induction l as [|y r IH]; cbn [insert_sorted]; [reflexivity|].
  destruct (String.leb (key x) (key y)); [reflexivity|].
  rewrite IH. apply perm_swap.
Qed.

Lemma sorted_perm (l : list A) : Permutation (sorted key l) l.
Proof.
  induction l as [|x r IH]; cbn [sorted]; [reflexivity|].
  now rewrite insert_sorted_perm, IH.
Qed.

Lemma sorted_in (x : A) (l : list A) : In x (sorted key l) <-> In x l.
Proof.
  rewrite <- !list_elem_of_In. now rewrite sorted_perm.
Qed.

Lemma insert_sorted_sorted (x : A) (l : list A) :
  StronglySorted le l -> StronglySorted le (insert_sorted key x l).
Proof.
  induction 1 as [|y r Hr IH Hy]; cbn [insert_sorted].
  - repeat constructor.
  - destruct (String.leb (key x) (key y)) eqn:Hxy.
    + constructor; [now constructor|].
      constructor; [exact Hxy|].
      eapply Forall_impl; [exact Hy|].
      intros z Hz. eapply string_leb_trans; [exact Hxy | exact Hz].
    + constructor; [exact IH|].
      assert (Hyx : le y x).
      { destruct (String.leb_total (key x) (key y)) as [Hc|Hc];
          [congruence | exact Hc]. }
      apply Forall_forall. intros z Hz.
      rewrite insert_sorted_perm in Hz. apply elem_of_cons in Hz.
      destruct Hz as [->|Hz]; [exact Hyx|].
      rewrite Forall_forall in Hy. now apply Hy.
Qed.

(** [sorted] sorts: every element is at most the ones after it. *)
Lemma sorted_sorted (l : list A) : StronglySorted le (sorted key l).
Proof.
  induction l as [|x r IH]; cbn [sorted]; [constructor|].
  now apply insert_sorted_sorted.
Qed.

End SortedFacts.

(** ** The query, step by step *)

Section QueryRuns.
Context `{PyLib}.

Lemma open_table_run {A} (path : string) (pick : content -> option (list A))
    (w : World) (c : content) (rows : list A) :
  fs w !! path = Some (Plain c) -> pick c = Some rows ->
  open_table path pick w = (Ret rows, add_events w [OpenRead path]).
Proof.
  intros Hf Hp. unfold open_table. run_step.
  unfold bind, get_world. cbn [fs add_events]. now rewrite Hf, Hp.
Qed.

Lemma load_routes_run (w : World) (rows : list RouteRow) :
  fs w !! joinpath GTFS_DIR "routes.txt" = Some (Plain (Routes rows)) ->
  load_routes w
  = (Ret (routes_dict rows),
     add_events w [OpenRead (joinpath GTFS_DIR "routes.txt")]).
Proof.
  intros Hf. unfold load_routes.
  erewrite bind_run by (eapply open_table_run; [exact Hf | reflexivity]).
  reflexivity.
Qed.

Lemma load_stops_run (w : World) (rows : list StopRow) :
  fs w !! joinpath GTFS_DIR "stops.txt" = Some (Plain (Stops rows)) ->
  load_stops w
  = (Ret (stops_dict rows),
     add_events w [OpenRead (joinpath GTFS_DIR "stops.txt")]).
Proof.
  intros Hf. unfold load_stops.
  erewrite bind_run by (eapply open_table_run; [exact Hf | reflexivity]).
  reflexivity.
Qed.

Lemma find_trips_run (route_id service_pattern : string) (limit : nat)
    (w : World) (rows : list TripRow) :
  fs w !! joinpath GTFS_DIR "trips.txt" = Some (Plain (Trips rows)) ->
  find_trips route_id service_pattern limit w
  = (Ret (scan_trips route_id service_pattern limit rows []),
     add_events w [OpenRead (joinpath GTFS_DIR "trips.txt")]).
Proof.
  intros Hf. unfold find_trips.
  erewrite bind_run by (eapply open_table_run; [exact Hf | reflexivity]).
  reflexivity.
Qed.

(** The listing of the tram lines in the error branch of [main]. *)
Lemma list_tram_lines_run (items : list (string * Route)) (w : World) :
  fold_right
    (fun item rest_ =>
       (if String.eqb (type (snd item)) "0" then
          log ("  " +:+ short_name (snd item) +:+ ": " +:+ long_name (snd item))
        else ret tt) ;;
       rest_)
    (ret tt) items w
  = (Ret tt,
     add_events w
       (map (fun item =>
               Stderr ("  " +:+ short_name (snd item) +:+ ": "
                       +:+ long_name (snd item)))
            (List.filter (fun item => String.eqb (type (snd item)) "0") items))).
Proof.
  revert w. induction items as [|item r IH]; intros w; cbn [fold_right List.filter].
  - unfold ret, add_events. cbn [map]. rewrite app_nil_r. now destruct w.
  - destruct (String.eqb (type (snd item)) "0"); run_step; rewrite IH.
    + now rewrite add_events_app.
    + reflexivity.
Qed.

(** [main] up to the route lookup, on a dataset that is ready. *)
Lemma run_query_to_route (line : string) (w w1 : World) (route_rows : list RouteRow) (stop_rows : list StopRow)
    (k : list (string * Route) -> list (string * Stop) -> M unit) :
  download_gtfs w = (Ret true, w1) ->
  fs w1 !! joinpath GTFS_DIR "routes.txt" = Some (Plain (Routes route_rows)) ->
  fs w1 !! joinpath GTFS_DIR "stops.txt" = Some (Plain (Stops stop_rows)) ->
  (ok <- download_gtfs ;;
   if negb ok then exit 1
   else
     log ("Querying GTFS data for line " +:+ line +:+ "...") ;;
     routes <- load_routes ;;
     stops <- load_stops ;;
     k routes stops) w
  = k (routes_dict route_rows) (stops_dict stop_rows)
      (add_events w1
         [Stderr ("Querying GTFS data for line " +:+ line +:+ "...");
          OpenRead (joinpath GTFS_DIR "routes.txt");
          OpenRead (joinpath GTFS_DIR "stops.txt")]).
Proof.
  intros Hd Hr Hs.
  erewrite bind_run by exact Hd. cbn [negb]. run_step.
  erewrite bind_run by (apply load_routes_run; exact Hr).
  erewrite bind_run by (apply load_stops_run; exact Hs).
  now rewrite !add_events_app.
Qed.

End QueryRuns.

Section QueryClaims.
Context `{PyLib}.

(** [main] with the three arguments given, a recognised schedule type
    and nothing valid in the query cache. *)
Lemma main_miss (prog line stop_name schedule_type : string) (w w0 : World) :
  Dict.mem schedule_type SERVICE_PATTERNS = true ->
  check_cache (cache_key line stop_name schedule_type) SCHEDULE_CACHE_TTL w
  = (Ret None, w0) ->
  main [prog; line; stop_name; schedule_type] w
  = run_query line stop_name schedule_type
      (cache_key line stop_name schedule_type) w0.
Proof.
  intros Hst Hc. unfold main. cbn [length Nat.ltb Nat.leb orb nth].
  rewrite Hst. cbn [negb]. erewrite bind_run by exact Hc. reflexivity.
Qed.

Lemma find_route_id_first (line : string) (routes : list (string * Route)) :
  Dict.mem ("T" +:+ line) routes = false ->
  forall before route_id r after,
    routes = before ++ (route_id, r) :: after ->
    (forall item, In item before ->
                  ~ (short_name (snd item) = line /\ type (snd item) = "0")) ->
    short_name r = line -> type r = "0" ->
    find_route_id line routes = Some route_id.
Proof.
  intros Hmem before route_id r after -> Hbefore Hs Ht.
  unfold find_route_id. rewrite Hmem.
  assert (Hfind : List.find (is_tram_line line) (before ++ (route_id, r) :: after)
                  = Some (route_id, r)).
  { clear Hmem. induction before as [|item b IH]; cbn [app List.find].
    - unfold is_tram_line. cbn [snd]. rewrite Hs, Ht, !String.eqb_refl.
      reflexivity.
    - destruct (is_tram_line line item) eqn:Hm.
      + exfalso. apply (Hbefore item); [now left|].
        unfold is_tram_line in Hm. apply andb_true_iff in Hm as [H1 H2].
        split; now apply String.eqb_eq.
      + apply IH. intros it Hit. apply Hbefore. now right. }
  now rewrite Hfind.
Qed.

Lemma find_route_id_none (line : string) (routes : list (string * Route)) :
  Dict.mem ("T" +:+ line) routes = false ->
  (forall item, In item routes ->
                ~ (short_name (snd item) = line /\ type (snd item) = "0")) ->
  find_route_id line routes = None.
Proof.
  intros Hmem Hno. unfold find_route_id. rewrite Hmem.
  destruct (List.find (is_tram_line line) routes) as [[rid r]|] eqn:Hf;
    [|reflexivity].
  apply find_some in Hf as [Hin Hm]. exfalso. apply (Hno _ Hin).
  unfold is_tram_line in Hm. apply andb_true_iff in Hm as [H1 H2].
  split; now apply String.eqb_eq.
Qed.

(** C6. [find_route_id] returns "T" + line when that id is in the
    table; otherwise the first route, in the order of the table, whose
    short name is the line and whose type is "0"; otherwise nothing, and
    then [main] logs that the line was not found, lists every route of
    type "0" and exits with status 1. *)
Theorem route_resolution (line : string) (routes : list (string * Route)) :
  (Dict.mem ("T" +:+ line) routes = true ->
   find_route_id line routes = Some ("T" +:+ line))
  /\ (Dict.mem ("T" +:+ line) routes = false ->
      forall before route_id r after,
        routes = before ++ (route_id, r) :: after ->
        (forall item, In item before ->
                      ~ (short_name (snd item) = line /\ type (snd item) = "0")) ->
        short_name r = line -> type r = "0" ->
        find_route_id line routes = Some route_id)
  /\ (Dict.mem ("T" +:+ line) routes = false ->
      (forall item, In item routes ->
                    ~ (short_name (snd item) = line /\ type (snd item) = "0")) ->
      find_route_id line routes = None)
  /\ (forall prog stop_name schedule_type w w0 w1 route_rows stop_rows,
        routes = routes_dict route_rows ->
        Dict.mem schedule_type SERVICE_PATTERNS = true ->
        check_cache (cache_key line stop_name schedule_type)
                    SCHEDULE_CACHE_TTL w = (Ret None, w0) ->
        download_gtfs w0 = (Ret true, w1) ->
        fs w1 !! joinpath GTFS_DIR "routes.txt" = Some (Plain (Routes route_rows)) ->
        fs w1 !! joinpath GTFS_DIR "stops.txt" = Some (Plain (Stops stop_rows)) ->
        find_route_id line routes = None ->
        let listing :=
          map (fun item =>
                 Stderr ("  " +:+ short_name (snd item) +:+ ": "
                         +:+ long_name (snd item)))
              (List.filter (fun item => String.eqb (type (snd item)) "0")
                           (sorted fst routes)) in
        main [prog; line; stop_name; schedule_type] w
        = (Exit 1,
           add_events w1
             ([Stderr ("Querying GTFS data for line " +:+ line +:+ "...");
               OpenRead (joinpath GTFS_DIR "routes.txt");
               OpenRead (joinpath GTFS_DIR "stops.txt");
               Stderr ("Error: Line " +:+ line +:+ " not found in GTFS data");
               Stderr (Py.nl +:+ "Available tram lines (route_type=0):")]
              ++ listing))
        /\ exit_code (fst (main [prog; line; stop_name; schedule_type] w)) = 1%Z
        /\ forall route_id r,
             In (route_id, r) routes -> type r = "0" ->
             In (Stderr ("  " +:+ short_name r +:+ ": " +:+ long_name r))
                listing).
Proof.
  split; [|split; [|split]].
  - intros Hmem. unfold find_route_id. now rewrite Hmem.
  - apply find_route_id_first.
  - apply find_route_id_none.
  - intros prog stop_name schedule_type w w0 w1 route_rows stop_rows
           -> Hst Hc Hd Hr Hs Hnone listing.
    assert (E : main [prog; line; stop_name; schedule_type] w
                = (Exit 1,
                   add_events w1
                     ([Stderr ("Querying GTFS data for line " +:+ line +:+ "...");
                       OpenRead (joinpath GTFS_DIR "routes.txt");
                       OpenRead (joinpath GTFS_DIR "stops.txt");
                       Stderr ("Error: Line " +:+ line +:+ " not found in GTFS data");
                       Stderr (Py.nl +:+ "Available tram lines (route_type=0):")]
                      ++ listing))).
    { rewrite (main_miss _ _ _ _ _ _ Hst Hc). unfold run_query.
      rewrite (run_query_to_route _ _ _ _ _ _ Hd Hr Hs).
      rewrite Hnone. cbn [Py.truthy_opt negb].
      do 2 run_step. erewrite bind_run by apply list_tram_lines_run.
      rewrite !add_events_app. reflexivity. }
    rewrite E. split; [reflexivity|]. split; [reflexivity|].
    intros route_id r Hin Ht. subst listing.
    apply (in_map (fun item => Stderr ("  " +:+ short_name (snd item) +:+ ": "
                                       +:+ long_name (snd item)))
                  _ (route_id, r)).
    apply filter_In. split; [now apply sorted_in|].
    cbn [snd]. rewrite Ht. reflexivity.
Qed.

(** C5. On a trips table with distinct trip ids, [find_trips] returns
    the rows of the route whose service id contains the pattern, in the
    order of the table and at most 50 of them; once 50 are collected the
    rest of the table is not read. When there is none, [main] logs
    "No trips found for line <line> on <schedule type>" and exits with
    status 1. *)
Theorem trip_selection (route_id service_pattern : string)
    (rows : list TripRow) :
  NoDup (map t_trip_id rows) ->
  scan_trips route_id service_pattern 50 rows []
  = selected_trips route_id service_pattern 50 rows
  /\ length (selected_trips route_id service_pattern 50 rows) <= 50
  /\ (forall rest,
        50 <= length (List.filter (trip_matches route_id service_pattern) rows) ->
        scan_trips route_id service_pattern 50 (rows ++ rest) []
        = scan_trips route_id service_pattern 50 rows [])
  /\ (forall w,
        fs w !! joinpath GTFS_DIR "trips.txt" = Some (Plain (Trips rows)) ->
        find_trips route_id service_pattern 50 w
        = (Ret (selected_trips route_id service_pattern 50 rows),
           add_events w [OpenRead (joinpath GTFS_DIR "trips.txt")]))
  /\ (forall prog line stop_name schedule_type w w0 w1 route_rows stop_rows,
        Dict.get schedule_type SERVICE_PATTERNS = Some service_pattern ->
        check_cache (cache_key line stop_name schedule_type)
                    SCHEDULE_CACHE_TTL w = (Ret None, w0) ->
        download_gtfs w0 = (Ret true, w1) ->
        fs w1 !! joinpath GTFS_DIR "routes.txt" = Some (Plain (Routes route_rows)) ->
        fs w1 !! joinpath GTFS_DIR "stops.txt" = Some (Plain (Stops stop_rows)) ->
        fs w1 !! joinpath GTFS_DIR "trips.txt" = Some (Plain (Trips rows)) ->
        find_route_id line (routes_dict route_rows) = Some route_id ->
        route_id <> "" ->
        selected_trips route_id service_pattern 50 rows = [] ->
        main [prog; line; stop_name; schedule_type] w
        = (Exit 1,
           add_events w1
             [Stderr ("Querying GTFS data for line " +:+ line +:+ "...");
              OpenRead (joinpath GTFS_DIR "routes.txt");
              OpenRead (joinpath GTFS_DIR "stops.txt");
              OpenRead (joinpath GTFS_DIR "trips.txt");
              Stderr ("No trips found for line " +:+ line +:+ " on "
                      +:+ schedule_type)])
        /\ exit_code (fst (main [prog; line; stop_name; schedule_type] w)) = 1%Z).
Proof.
  intros Hnd.
  assert (Hscan : scan_trips route_id service_pattern 50 rows []
                  = selected_trips route_id service_pattern 50 rows).
  { rewrite scan_trips_fresh; [reflexivity | exact Hnd | reflexivity | cbn; lia]. }
  split; [exact Hscan|]. split.
  { unfold selected_trips. rewrite length_map, length_take. lia. }
  split.
  { intros rest Hmany.
    apply scan_trips_stops; [exact Hnd | reflexivity | cbn; lia | cbn; lia]. }
  split.
  { intros w Hf. rewrite (find_trips_run _ _ _ _ _ Hf). now rewrite Hscan. }
  intros prog line stop_name schedule_type w w0 w1 route_rows stop_rows
         Hpat Hc Hd Hr Hs Ht Hroute Hne Hempty.
  assert (Hst : Dict.mem schedule_type SERVICE_PATTERNS = true).
  { unfold Dict.mem. now rewrite Hpat. }
  assert (E : main [prog; line; stop_name; schedule_type] w
              = (Exit 1,
                 add_events w1
                   [Stderr ("Querying GTFS data for line " +:+ line +:+ "...");
                    OpenRead (joinpath GTFS_DIR "routes.txt");
                    OpenRead (joinpath GTFS_DIR "stops.txt");
                    OpenRead (joinpath GTFS_DIR "trips.txt");
                    Stderr ("No trips found for line " +:+ line +:+ " on "
                            +:+ schedule_type)])).
  { rewrite (main_miss _ _ _ _ _ _ Hst Hc). unfold run_query.
    rewrite (run_query_to_route _ _ _ _ _ _ Hd Hr Hs).
    rewrite Hroute. apply truthy_length in Hne.
    cbn [Py.truthy_opt from_option id]. rewrite Hne. cbn [negb].
    rewrite Hpat. cbn [lift]. run_step.
    erewrite bind_run by (apply find_trips_run; exact Ht).
    rewrite Hscan, Hempty. run_step. rewrite !add_events_app. reflexivity. }
  rewrite E. split; reflexivity.
Qed.

End QueryClaims.

Lemma trip_selection_witness :
  NoDup (map t_trip_id Sample.trips)
  /\ scan_trips "T9" " LV " 50 Sample.trips []
     = [("t1", "P.ta Genova"); ("t2", "Centrale FS")]
  /\ exit_code
       (fst (main (H := Sample.lib)
                  ["check-tram-schedule.py"; "9"; ""; "sunday"] Sample.fresh))
     = 1%Z.
Proof.
  assert (Hnd : NoDup (map t_trip_id Sample.trips))
    by (apply (bool_decide_unpack _); vm_compute; exact I).
  split; [exact Hnd|]. split.
  - rewrite (proj1 (trip_selection (H := Sample.lib) "T9" " LV " Sample.trips Hnd)).
    vm_compute. reflexivity.
  - destruct (trip_selection (H := Sample.lib) "T9" " FEST " Sample.trips Hnd)
      as (_ & _ & _ & _ & Hmain).
    apply (Hmain "check-tram-schedule.py" "9" "" "sunday" Sample.fresh
                 (add_events Sample.fresh
                    [StateGet (cache_key "9" "" "sunday")])
                 (add_events Sample.fresh
                    (StateGet (cache_key "9" "" "sunday") :: freshness_checks))
                 Sample.routes Sample.stops);
      try (vm_compute; reflexivity).
    discriminate.
Defined.

Lemma route_resolution_witness :
  find_route_id "9" (routes_dict Sample.routes) = Some "T9"
  /\ find_route_id "15" (routes_dict Sample.routes) = Some "15"
  /\ exit_code
       (fst (main (H := Sample.lib)
                  ["check-tram-schedule.py"; "999999"; ""; "weekday"]
                  Sample.fresh))
     = 1%Z.
Proof.
  split; [|split].
  - apply (proj1 (route_resolution (H := Sample.lib) "9"
                    (routes_dict Sample.routes))).
    vm_compute. reflexivity.
  - destruct (route_resolution (H := Sample.lib) "15"
                (routes_dict Sample.routes)) as (_ & Hfirst & _).
    apply (Hfirst eq_refl
             [("B90", mkRoute "90" "Circolare destra" "3");
              ("T9", mkRoute "9" "Centrale FS - P.ta Genova" "0")]
             "15" (mkRoute "15" "Duomo - Rozzano" "0")
             [("T1", mkRoute "1" "Greco - Roserio" "0")]);
      try reflexivity.
    intros item [<-|[<-|[]]]; cbn; intros [? ?]; discriminate.
  - destruct (route_resolution (H := Sample.lib) "999999"
                (routes_dict Sample.routes)) as (_ & _ & _ & Hmain).
    apply (Hmain "check-tram-schedule.py" "" "weekday" Sample.fresh
                 (add_events Sample.fresh
                    [StateGet (cache_key "999999" "" "weekday")])
                 (add_events Sample.fresh
                    (StateGet (cache_key "999999" "" "weekday")
                     :: freshness_checks))
                 Sample.routes Sample.stops);
      try (vm_compute; reflexivity).
Defined.

(** ** Aggregation of the departure times *)

Lemma forall_sublist {A} (P : A -> Prop) (l1 l2 : list A) :
  l1 `sublist_of` l2 -> Forall P l2 -> Forall P l1.
Proof.
  induction 1 as [|x l1 l2 Hsub IH|x l1 l2 Hsub IH]; intros Hf.
  - constructor.
  - apply Forall_cons in Hf as [Hx Hf]. constructor; [exact Hx | now apply IH].
  - apply Forall_cons in Hf as [_ Hf]. now apply IH.
Qed.

Lemma strongly_sorted_sublist {A} (R : A -> A -> Prop) (l1 l2 : list A) :
  l1 `sublist_of` l2 -> StronglySorted R l2 -> StronglySorted R l1.
Proof.
  induction 1 as [|x l1 l2 Hsub IH|x l1 l2 Hsub IH]; intros Hs.
  - constructor.
  - apply StronglySorted_inv in Hs as [Hs Hx].
    constructor; [now apply IH|].
    eapply forall_sublist; eassumption.
  - apply StronglySorted_inv in Hs as [Hs _]. now apply IH.
Qed.

Lemma strongly_sorted_map_fst (l : list (string * string)) :
  StronglySorted (fun a b => String.leb (fst a) (fst b) = true) l ->
  StronglySorted (fun a b => String.leb a b = true) (map fst l).
Proof.
  induction 1 as [|x r Hr IH Hx]; cbn [map]; constructor; [exact IH|].
  apply Forall_map. exact Hx.
Qed.

(** An entry after [d[k].append(x)] is an old one, or the old list under
    [k] (empty if there was none) with [x] at its end. *)
Lemma dict_append_in {A} (k : string) (x : A) (d : list (string * list A))
    (k0 : string) (v0 : list A) :
  In (k0, v0) (Dict.append k x d) ->
  In (k0, v0) d
  \/ (k0 = k /\ exists old, v0 = old ++ [x] /\ (old = [] \/ In (k, old) d)).
Proof.
  unfold Dict.append. intros Hin.
  apply dict_set_in in Hin as [[-> ->]|Hin]; [right|now left].
  split; [reflexivity|].
  destruct (Dict.get k d) as [old|] eqn:Hg; cbn [from_option id].
  - exists old. split; [reflexivity|]. right. now apply dict_get_in.
  - exists []. split; [reflexivity|]. now left.
Qed.

(** The times of a direction keep the order they have at the stop. *)
Lemma by_direction_sublist (l : list (string * string)) :
  forall (done : list (string * string)) (acc : list (string * list string)),
    (forall d ts, In (d, ts) acc -> ts `sublist_of` map fst done) ->
    forall d ts,
      In (d, ts) (fold_left (fun acc th => Dict.append (snd th) (fst th) acc) l acc) ->
      ts `sublist_of` map fst (done ++ l).
Proof.
  induction l as [|th r IH]; intros done acc Hacc d ts Hin; cbn [fold_left] in Hin.
  - rewrite app_nil_r. eapply Hacc, Hin.
  - replace (done ++ th :: r) with ((done ++ [th]) ++ r)
      by now rewrite <- app_assoc.
    eapply IH; [|exact Hin].
    intros d' ts' Hin'. rewrite map_app. cbn [map].
    apply dict_append_in in Hin' as [Hold|(-> & old & -> & Hwas)].
    + apply sublist_inserts_r. eapply Hacc, Hold.
    + apply sublist_app; [|reflexivity].
      destruct Hwas as [->|Hwas]; [apply sublist_nil_l | eapply Hacc, Hwas].
Qed.

Section Aggregation.
Context `{PyLib}.

Lemma nodup_reverse {A} (l : list A) : NoDup l -> NoDup (reverse l).
Proof. intros Hl. now rewrite reverse_Permutation. Qed.

Lemma py_set_NoDup (l : list (string * string)) : NoDup (py_set l).
Proof. apply nodup_reverse, NoDup_remove_dups. Qed.

(** [set(l)] holds the elements of [l]. *)
Lemma py_set_elem (l : list (string * string)) (x : string * string) :
  x ∈ py_set l <-> x ∈ l.
Proof.
  unfold py_set.
  rewrite elem_of_reverse, elem_of_remove_dups, elem_of_reverse, elem_of_app,
    list_elem_of_filter.
  tauto.
Qed.

Lemma remove_dups_covered {A} `{EqDecision A} (a b : list A) :
  (forall x, x ∈ a -> x ∈ b) -> remove_dups (a ++ b) = remove_dups b.
Proof.
  induction a as [|x a IH]; intros Hab; [reflexivity|].
  cbn [app remove_dups].
  destruct (decide_rel elem_of x (a ++ b)) as [_|Hn].
  - apply IH. intros y Hy. apply Hab. now right.
  - destruct Hn. apply elem_of_app. right. apply Hab. now left.
Qed.

Lemma remove_dups_distinct {A} `{EqDecision A} (l : list A) :
  NoDup l -> remove_dups l = l.
Proof.
  induction 1 as [|x l Hx Hl IH]; [reflexivity|].
  cbn [remove_dups].
  destruct (decide_rel elem_of x l) as [Hin|_]; [now destruct Hx|].
  now rewrite IH.
Qed.

(** [set(l)] is iterated in the order proposed, whenever the proposal
    enumerates the set. *)
Lemma py_set_follows_order (l : list (string * string)) :
  NoDup (set_order l) -> (forall x, x ∈ set_order l <-> x ∈ l) ->
  py_set l = set_order l.
Proof.
  intros Hnd Hsame. unfold py_set.
  replace (filter (fun x => x ∈ l) (set_order l)) with (set_order l).
  - rewrite reverse_app, remove_dups_covered.
    + rewrite remove_dups_distinct by now apply nodup_reverse.
      apply reverse_involutive.
    + intros x. rewrite !elem_of_reverse. apply Hsame.
  - symmetry. clear Hnd. revert Hsame. generalize (set_order l) as o.
    intros o Ho. assert (Hall : forall x, x ∈ o -> x ∈ l) by (intros x; apply Ho).
    clear Ho. induction o as [|x o IH]; [reflexivity|].
    rewrite filter_cons_True by (apply Hall; now left).
    f_equal. apply IH. intros y Hy. apply Hall. now right.
Qed.

(** Every list [sort_times] stores is a sorted set. *)
Lemma sort_times_values (times_by_stop : list (string * list (string * string))) :
  forall result : list (string * list (string * string)),
    (forall k v, In (k, v) result -> exists l, v = sorted fst (py_set l)) ->
    forall k v,
      In (k, v)
         (fold_left
            (fun result item =>
               Dict.set (fst item) (sorted fst (py_set (snd item))) result)
            times_by_stop result) ->
      exists l, v = sorted fst (py_set l).
Proof.
  induction times_by_stop as [|item r IH]; intros result Hres k v Hin;
    cbn [fold_left] in Hin.
  - eapply Hres, Hin.
  - eapply IH; [|exact Hin].
    intros k' v' Hin'. apply dict_set_in in Hin' as [[_ ->]|Hold].
    + now exists (snd item).
    + eapply Hres, Hold.
Qed.

Lemma get_stop_times_run (trip_info : list (string * string))
    (stop_ids : option (list string)) (rows : list StopTimeRow) (w : World) :
  fs w !! joinpath GTFS_DIR "stop_times.txt" = Some (Plain (StopTimes rows)) ->
  get_stop_times trip_info stop_ids w
  = (Ret (sort_times (fold_left (add_stop_time trip_info stop_ids) rows [])),
     add_events w
       ((if (10 <? length trip_info)%nat
         then [Stderr ("Scanning stop_times.txt for "
                       +:+ Py.str_of_nat (length trip_info) +:+ " trips...")]
         else [])
        ++ [OpenRead (joinpath GTFS_DIR "stop_times.txt")])).
Proof.
  intros Hf. unfold get_stop_times.
  destruct (10 <? length trip_info)%nat; run_step;
    (erewrite bind_run by (eapply open_table_run; [exact Hf | reflexivity]));
    rewrite ?add_events_app; reflexivity.
Qed.

(** C7. With [stop_times.txt] readable, [get_stop_times] returns, and in
    its result the (time, headsign) pairs of every stop are without
    duplicates; grouped by headsign as [format_output] does, the times
    of every direction are in non-decreasing string order. *)
Theorem departures_unique_and_sorted (trip_info : list (string * string))
    (stop_ids : option (list string)) (rows : list StopTimeRow) (w : World) :
  fs w !! joinpath GTFS_DIR "stop_times.txt" = Some (Plain (StopTimes rows)) ->
  exists result w',
    get_stop_times trip_info stop_ids w = (Ret result, w')
    /\ forall stop_id times,
         In (stop_id, times) result ->
         NoDup times
         /\ forall direction departures,
              In (direction, departures) (by_direction times) ->
              StronglySorted (fun a b => String.leb a b = true) departures.
Proof.
  intros Hf. rewrite (get_stop_times_run _ _ _ _ Hf).
  eexists _, _. split; [reflexivity|].
  intros stop_id times Hin.
  destruct (sort_times_values _ [] (fun k v (Hnil : In (k, v) []) =>
                                      match Hnil with end)
                              stop_id times Hin) as [l ->].
  split.
  - rewrite sorted_perm. apply py_set_NoDup.
  - intros direction departures Hd.
    eapply strongly_sorted_sublist.
    + unfold by_direction in Hd.
      exact (by_direction_sublist _ [] []
               (fun d ts (Hnil : In (d, ts) []) => match Hnil with end)
               direction departures Hd).
    + cbn [app]. apply strongly_sorted_map_fst, sorted_sorted.
Qed.

End Aggregation.

Lemma departures_unique_and_sorted_witness :
  fs Sample.fresh !! joinpath GTFS_DIR "stop_times.txt"
  = Some (Plain (StopTimes Sample.stop_times))
  /\ fst (get_stop_times (H := Sample.lib)
            [("t1", "P.ta Genova"); ("t2", "Centrale FS")] None Sample.fresh)
     = Ret [("S1", [("07:40:00", "P.ta Genova"); ("08:10:00", "P.ta Genova");
                    ("08:15:00", "Centrale FS")]);
            ("S2", [("08:05:00", "Centrale FS"); ("08:20:00", "P.ta Genova")])]
  /\ exists result w',
       get_stop_times (H := Sample.lib)
         [("t1", "P.ta Genova"); ("t2", "Centrale FS")] None Sample.fresh
       = (Ret result, w')
       /\ forall stop_id times,
            In (stop_id, times) result ->
            NoDup times
            /\ forall direction departures,
                 In (direction, departures) (by_direction times) ->
                 StronglySorted (fun a b => String.leb a b = true) departures.
Proof.
  assert (Hf : fs Sample.fresh !! joinpath GTFS_DIR "stop_times.txt"
               = Some (Plain (StopTimes Sample.stop_times)))
    by (vm_compute; reflexivity).
  split; [exact Hf|]. split; [vm_compute; reflexivity|].
  exact (departures_unique_and_sorted (H := Sample.lib)
           [("t1", "P.ta Genova"); ("t2", "Centrale FS")] None
           Sample.stop_times Sample.fresh Hf).
Defined.

(** ** A stop name that matches no stop *)

Section EmptyFilter.
Context `{PyLib}.

(** With an empty list of stop ids no row of [stop_times.txt] is kept. *)
Lemma empty_filter_selects_nothing (trip_info : list (string * string))
    (rows : list StopTimeRow) :
  fold_left (add_stop_time trip_info (Some [])) rows [] = [].
Proof.
  induction rows as [|row r IH]; [reflexivity|].
  cbn [fold_left]. unfold add_stop_time at 2.
  destruct (Dict.get (st_trip_id row) trip_info); exact IH.
Qed.

Lemma get_stop_times_empty_filter (trip_info : list (string * string))
    (rows : list StopTimeRow) (w : World) :
  fs w !! joinpath GTFS_DIR "stop_times.txt" = Some (Plain (StopTimes rows)) ->
  fst (get_stop_times trip_info (Some []) w) = Ret [].
Proof.
  intros Hf. rewrite (get_stop_times_run _ _ _ _ Hf).
  now rewrite empty_filter_selects_nothing.
Qed.

End EmptyFilter.

(** C1 fails on the code. Line 9 on a weekday with the stop name "Duomo",
    which no stop of the table contains: [main] announces "Showing all
    stops for this line instead" and exits with status 0, but it hands
    the empty list of matches to [get_stop_times], which keeps no row;
    the report says "No departure times found." although the query
    without a stop name finds departures at two stops. *)
Theorem unmatched_stop_name_shows_no_stop :
  let trips := [("t1", "P.ta Genova"); ("t2", "Centrale FS")] in
  let run := main (H := Sample.lib)
               ["check-tram-schedule.py"; "9"; "Duomo"; "weekday"]
               Sample.fresh in
  find_stops_by_name (H := Sample.lib) "Duomo" (stops_dict Sample.stops) = []
  /\ fst (find_trips "T9" " LV " 50 Sample.fresh) = Ret trips
  /\ fst (get_stop_times (H := Sample.lib) trips (Some []) Sample.fresh) = Ret []
  /\ fst (get_stop_times (H := Sample.lib) trips None Sample.fresh)
     = Ret [("S1", [("07:40:00", "P.ta Genova"); ("08:10:00", "P.ta Genova");
                    ("08:15:00", "Centrale FS")]);
            ("S2", [("08:05:00", "Centrale FS"); ("08:20:00", "P.ta Genova")])]
  /\ exit_code (fst run) = 0%Z
  /\ stderr_lines (trace (snd run))
     = ["Querying GTFS data for line 9...";
        "Warning: No stops found matching 'Duomo'";
        "Showing all stops for this line instead"]
  /\ map (fun f => (fst f, Py.contains "No departure times found." (snd f),
                    Py.contains "Departures: " (snd f)))
         (files_written (trace (snd run)))
     = [("/data/generated/atm-tram-schedule/2026/11/04/20261104-083000-line9-duomo.txt",
         true, false)].
Proof.
  cbv zeta. repeat apply conj; vm_compute; reflexivity.
Qed.

(** ** SHA-256 on the standard test vectors *)

Example sha256_abc :
  Sha256.hexdigest (Py.encode "abc")
  = "ba7816bf8f01cfea414140de5dae2223b00361a396177a9cb410ff61f20015ad".
Proof. vm_compute. reflexivity. Qed.

Example sha256_empty :
  Sha256.hexdigest (Py.encode "")
  = "e3b0c44298fc1c149afbf4c8996fb92427ae41e4649b934ca495991b7852b855".
Proof. vm_compute. reflexivity. Qed.

Example sha256_two_blocks :
  Sha256.hexdigest
    (Py.encode "abcdbcdecdefdefgefghfghighijhijkijkljklmklmnlmnomnopnopq")
  = "248d6a61d20638b8e5c026930c3e6039a33ce45964ff2167f6ecedd419db06c1".
Proof. vm_compute. reflexivity. Qed.

Example cache_key_line9 :
  cache_key "9" "" "weekday"
  = "atm-tram-schedule:cache:" +:+ Sha256.hexdigest (Py.encode "9::weekday").
Proof. reflexivity. Qed.

(** ** Two runs of line 9, all stops, on a weekday *)

Example cache_hit_run :
  let run := main (H := Sample.lib)
               ["check-tram-schedule.py"; "9"; ""; "weekday"] Sample.cached in
  exit_code (fst run) = 0%Z
  /\ stdout_lines (trace (snd run))
     = ["LINE: 9"; "STOP: all"; "TYPE: weekday";
        "TEXT: " +:+ Sample.report_path; "SOURCE: GTFS"; "CACHE: hit"]
  /\ List.filter is_write (trace (snd run)) = [].
Proof. cbv zeta. repeat apply conj; vm_compute; reflexivity. Qed.

Example cache_miss_run :
  let run := main (H := Sample.lib)
               ["check-tram-schedule.py"; "9"] Sample.fresh in
  let path :=
    "/data/generated/atm-tram-schedule/2026/11/04/20261104-083000-line9-all.txt" in
  exit_code (fst run) = 0%Z
  /\ stdout_lines (trace (snd run))
     = ["LINE: 9"; "STOP: all"; "TYPE: weekday"; "TEXT: " +:+ path;
        "SOURCE: GTFS"; "CACHE: miss"]
  /\ map fst (files_written (trace (snd run))) = [path]
  /\ is_Some (fs (snd run) !! path).
Proof.
  cbv zeta. repeat apply conj; try (vm_compute; reflexivity).
  vm_compute. eauto.
Qed.

(** ** The query cache on the cached entry, in time and an hour late *)

Example check_cache_hit :
  fst (check_cache (H := Sample.lib) (cache_key "9" "" "weekday")
         SCHEDULE_CACHE_TTL Sample.cached)
  = Ret (Some Sample.entry).
Proof. vm_compute. reflexivity. Qed.

Example check_cache_expired :
  fst (check_cache (H := Sample.lib) (cache_key "9" "" "weekday")
         SCHEDULE_CACHE_TTL
         (mkWorld (fs Sample.cached) (Sample.at_8_00 + Sample.minutes 60)
                  (local_offset Sample.cached) (ctl_get Sample.cached)
                  None []))
  = Ret None.
Proof. vm_compute. reflexivity. Qed.

Example check_cache_report_gone :
  fst (check_cache (H := Sample.lib) (cache_key "9" "" "weekday")
         SCHEDULE_CACHE_TTL
         (mkWorld (fs Sample.fresh) (utc_now Sample.cached)
                  (local_offset Sample.cached) (ctl_get Sample.cached)
                  None []))
  = Ret None.
Proof. vm_compute. reflexivity. Qed.

(** [Path.exists] is true of a directory: the entry is returned. *)
Example check_cache_directory :
  fs Sample.cached_directory !! Sample.report_path = Some Directory
  /\ fst (check_cache (H := Sample.lib) (cache_key "9" "" "weekday")
            SCHEDULE_CACHE_TTL Sample.cached_directory)
     = Ret (Some Sample.entry).
Proof. split; vm_compute; reflexivity. Qed.

(** ** Substrings and the search for stops *)

Lemma startswith_spec (p s : string) :
  Py.startswith p s = true <-> exists b, s = p +:+ b.
Proof.
  revert s. induction p as [|a p IH]; intros s.
  - split; [intros _; now exists s | reflexivity].
  - destruct s as [|c s]; cbn [Py.startswith].
    + split; [discriminate | intros [b Hb]; discriminate Hb].
    + rewrite andb_true_iff, IH. split.
      * intros [Hac [b ->]]. apply Ascii.eqb_eq in Hac as ->. now exists b.
      * intros [b Hb]. rewrite append_cons in Hb. injection Hb as -> ->.
        split; [apply Ascii.eqb_refl | now exists b].
Qed.

(** [needle in hay] holds exactly when [hay] is [a + needle + b]. *)
Lemma contains_spec (needle hay : string) :
  Py.contains needle hay = true <-> exists a b, hay = a +:+ needle +:+ b.
Proof.
  induction hay as [|c r IH].
  - cbn [Py.contains]. rewrite orb_false_r, startswith_spec. split.
    + intros [b Hb]. now exists "", b.
    + intros (a & b & Hab). destruct a; [now exists b | discriminate Hab].
  - cbn [Py.contains]. rewrite orb_true_iff, startswith_spec, IH. split.
    + intros [[b Hb]|(a & b & ->)]; [now exists "", b|].
      now exists (String c a), b.
    + intros (a & b & Hab). destruct a as [|c' a].
      * left. now exists b.
      * right. rewrite append_cons in Hab. injection Hab as _ ->.
        now exists a, b.
Qed.

Section StopSearch.
Context `{PyLib}.

Lemma dict_get_other {V} (k k0 : string) (v : V) (d : list (string * V)) :
  k0 <> k -> Dict.get k ((k0, v) :: d) = Dict.get k d.
Proof.
  intros Hne. cbn [Dict.get]. apply String.eqb_neq in Hne. now rewrite Hne.
Qed.

(** Filtering the items of a dictionary is filtering its keys. *)
Lemma filter_items_keys {V} (p : V -> bool) (d : list (string * V)) :
  NoDup (Dict.keys d) ->
  map fst (List.filter (fun item => p (snd item)) d)
  = List.filter
      (fun k => match Dict.get k d with Some v => p v | None => false end)
      (Dict.keys d).
Proof.
  induction d as [|[k0 v0] r IH]; intros Hnd; [reflexivity|].
  cbn [Dict.keys map fst] in Hnd. apply NoDup_cons in Hnd as [Hk0 Hnd].
  cbn [List.filter Dict.keys map fst snd].
  replace (Dict.get k0 ((k0, v0) :: r)) with (Some v0)
    by (cbn [Dict.get]; now rewrite String.eqb_refl).
  assert (Hrest : List.filter
                    (fun k => match Dict.get k ((k0, v0) :: r) with
                              | Some v => p v
                              | None => false
                              end)
                    (map fst r)
                  = map fst (List.filter (fun item => p (snd item)) r)).
  { rewrite (IH Hnd). apply filter_ext_in. intros k Hk.
    rewrite dict_get_other; [reflexivity|].
    intros ->. apply Hk0. now apply list_elem_of_In. }
  rewrite Hrest. now destruct (p v0).
Qed.

(** X1. On a dictionary of stops, [find_stops_by_name] returns the keys
    of the dictionary, in its order and each at most once, that belong
    to a stop whose lowercased name contains the lowercased query as a
    substring; this holds whatever [str.lower] does to the two strings. *)
Theorem find_stops_by_name_spec (query : string) (stops : list (string * Stop)) :
  NoDup (Dict.keys stops) ->
  let found stop_id :=
    match Dict.get stop_id stops with
    | Some stop => Py.contains (str_lower query) (str_lower (name stop))
    | None => false
    end in
  find_stops_by_name query stops = List.filter found (Dict.keys stops)
  /\ NoDup (find_stops_by_name query stops)
  /\ (forall stop_id,
        In stop_id (find_stops_by_name query stops)
        <-> exists stop a b,
              Dict.get stop_id stops = Some stop
              /\ str_lower (name stop) = a +:+ str_lower query +:+ b).
Proof.
  intros Hnd found.
  assert (Heq : find_stops_by_name query stops
                = List.filter found (Dict.keys stops)).
  { unfold find_stops_by_name.
    apply (filter_items_keys
             (fun stop => Py.contains (str_lower query) (str_lower (name stop)))
             stops Hnd). }
  split; [exact Heq|]. rewrite Heq. split.
  - apply NoDup_ListNoDup, List.NoDup_filter, NoDup_ListNoDup, Hnd.
  - intros stop_id. rewrite filter_In. unfold found. split.
    + intros [_ Hfound].
      destruct (Dict.get stop_id stops) as [stop|]; [|discriminate Hfound].
      apply contains_spec in Hfound as (a & b & Hab). now exists stop, a, b.
    + intros (stop & a & b & Hget & Hab). split.
      * apply (in_map fst _ (stop_id, stop)). now apply dict_get_in.
      * rewrite Hget. apply contains_spec. now exists a, b.
Qed.

End StopSearch.

Lemma find_stops_by_name_spec_witness :
  NoDup (Dict.keys (stops_dict Sample.stops))
  /\ find_stops_by_name (H := Sample.lib) "p.TA" (stops_dict Sample.stops)
     = ["S2"; "S3"].
Proof.
  assert (Hnd : NoDup (Dict.keys (stops_dict Sample.stops))).
  { apply NoDup_ListNoDup. vm_compute. repeat constructor; cbn; intuition discriminate. }
  split; [exact Hnd|].
  destruct (find_stops_by_name_spec (H := Sample.lib) "p.TA"
              (stops_dict Sample.stops) Hnd) as [E _].
  rewrite E. vm_compute. reflexivity.
Defined.

(** ** The rows of six times in the report *)

Lemma chunks_spec {A} (n : nat) (l : list A) :
  forall fuel, length l <= fuel ->
    concat (Py.chunks fuel (S n) l) = l
    /\ length (Py.chunks fuel (S n) l) = (length l + n) / S n
    /\ forall i c, Py.chunks fuel (S n) l !! i = Some c ->
                   c = firstn (S n) (skipn (i * S n) l).
Proof.
  intros fuel. revert l. induction fuel as [|f IH]; intros l Hl.
  - destruct l; [|cbn in Hl; lia].
    cbn [Py.chunks concat length Nat.add]. repeat split.
    + symmetry. apply Nat.div_small. lia.
    + intros i c Hc. discriminate Hc.
  - destruct l as [|x r].
    + cbn [Py.chunks concat length Nat.add]. repeat split.
      * symmetry. apply Nat.div_small. lia.
      * intros i c Hc. discriminate Hc.
    + cbn [Py.chunks]. set (l := x :: r) in *.
      assert (Hdrop : length (skipn (S n) l) <= f).
      { rewrite length_skipn. subst l. cbn [length] in *. lia. }
      destruct (IH (skipn (S n) l) Hdrop) as (Hcat & Hlen & Hnth).
      split; [|split].
      * cbn [concat]. rewrite Hcat. apply firstn_skipn.
      * cbn [length]. rewrite Hlen, length_skipn.
        destruct (Nat.le_gt_cases (length l) (S n)) as [Hshort|Hlong].
        -- replace (length l - S n) with 0 by lia.
           rewrite (Nat.div_small (0 + n)) by lia.
           assert (Hpos : 1 <= length l) by (subst l; cbn; lia).
           replace (length l + n) with (1 * S n + (length l - 1)) by lia.
           rewrite Nat.div_add_l by lia. rewrite Nat.div_small by lia. lia.
        -- replace (length l + n) with (1 * S n + (length l - S n + n)) by lia.
           rewrite Nat.div_add_l by lia. lia.
      * intros [|i] c Hc.
        -- cbn in Hc. injection Hc as <-. reflexivity.
        -- cbn [lookup list_lookup] in Hc. apply Hnth in Hc. rewrite Hc.
           rewrite skipn_skipn. do 2 f_equal. lia.
Qed.

(** X2. The times of a direction are printed in rows of six: the rows,
    one after the other, are the times in their order; row [i] holds the
    times [6 i] to [6 i + 5]; there are [ceil (n / 6)] rows, none for an
    empty list. *)
Theorem rows_of_six (times : list string) :
  let rows := Py.chunks (length times) 6 times in
  concat rows = times
  /\ length rows = (length times + 5) / 6
  /\ (forall i row, rows !! i = Some row ->
                    row = firstn 6 (skipn (6 * i) times))
  /\ Forall (fun row => 1 <= length row <= 6) rows.
Proof.
  cbv zeta.
  destruct (chunks_spec 5 times (length times) (le_n _)) as (Hcat & Hlen & Hnth).
  split; [exact Hcat|]. split; [exact Hlen|]. split.
  - intros i row Hrow. rewrite (Hnth i row Hrow). do 2 f_equal. lia.
  - apply Forall_lookup. intros i row Hrow.
    assert (Hi : i < (length times + 5) / 6).
    { rewrite <- Hlen. eapply lookup_lt_Some, Hrow. }
    rewrite (Hnth i row Hrow), length_firstn, length_skipn.
    assert (i * 6 < length times).
    { destruct (Nat.lt_ge_cases (i * 6) (length times)) as [?|Hge]; [assumption|].
      exfalso. assert ((length times + 5) / 6 < S i); [|lia].
      apply Nat.Div0.div_lt_upper_bound. lia. }
    lia.
Qed.

(** ** More on dictionaries *)

Section DictMore.
Context {V : Type}.
Implicit Types (d : list (string * V)) (k : string) (v : V).

Lemma dict_get_set k k' v d :
  Dict.get k (Dict.set k' v d) = if String.eqb k' k then Some v else Dict.get k d.
Proof.
  induction d as [|[k0 v0] r IH]; cbn [Dict.get Dict.set].
  - reflexivity.
  - destruct (String.eqb_spec k0 k') as [->|Hne]; cbn [Dict.get].
    + destruct (String.eqb k' k); reflexivity.
    + rewrite IH. destruct (String.eqb_spec k0 k) as [->|Hne'];
        [|reflexivity].
      apply not_eq_sym, String.eqb_neq in Hne. now rewrite Hne.
Qed.

Lemma dict_get_none_keys k d : Dict.get k d = None <-> ~ In k (Dict.keys d).
Proof.
  induction d as [|[k0 v0] r IH]; cbn [Dict.get Dict.keys map fst In].
  - tauto.
  - destruct (String.eqb_spec k0 k) as [->|Hne].
    + split; [discriminate | intros Hn; destruct Hn; now left].
    + rewrite IH. unfold Dict.keys. tauto.
Qed.

Lemma dict_set_old k v d :
  Dict.get k d <> None -> Dict.keys (Dict.set k v d) = Dict.keys d.
Proof.
  induction d as [|[k0 v0] r IH]; cbn [Dict.get Dict.set Dict.keys map fst];
    [congruence|].
  destruct (String.eqb k0 k); [reflexivity|].
  intros Hr. cbn [map fst]. f_equal. now apply IH.
Qed.

(** [d[k] = v] adds at most the key [k], at the end. *)
Lemma dict_keys_set k v d :
  Dict.keys (Dict.set k v d)
  = if Dict.mem k d then Dict.keys d else Dict.keys d ++ [k].
Proof.
  unfold Dict.mem. destruct (Dict.get k d) as [v0|] eqn:Hg.
  - apply dict_set_old. congruence.
  - rewrite (dict_set_new _ _ _ Hg). unfold Dict.keys. now rewrite map_app.
Qed.

Lemma dict_set_nodup k v d :
  NoDup (Dict.keys d) -> NoDup (Dict.keys (Dict.set k v d)).
Proof.
  intros Hnd. rewrite dict_keys_set. unfold Dict.mem.
  destruct (Dict.get k d) eqn:Hg; [exact Hnd|].
  apply NoDup_app. split; [exact Hnd|]. split; [|apply NoDup_singleton].
  intros x Hx Hk. apply list_elem_of_singleton in Hk as ->.
  apply dict_get_none_keys in Hg. apply Hg. now apply list_elem_of_In.
Qed.

Lemma dict_set_length k v d :
  length (Dict.set k v d) = if Dict.mem k d then length d else S (length d).
Proof.
  rewrite <- !(length_map fst). fold (Dict.keys (Dict.set k v d)).
  fold (Dict.keys d). rewrite dict_keys_set.
  destruct (Dict.mem k d); [reflexivity|]. rewrite length_app. cbn. lia.
Qed.

(** With distinct keys, an entry is what [get] finds. *)
Lemma dict_in_get k v d :
  NoDup (Dict.keys d) -> In (k, v) d -> Dict.get k d = Some v.
Proof.
  induction d as [|[k0 v0] r IH]; cbn [Dict.keys map fst Dict.get];
    intros Hnd Hin; [destruct Hin|].
  apply NoDup_cons in Hnd as [Hk0 Hnd].
  destruct Hin as [[= -> ->]|Hin].
  - now rewrite String.eqb_refl.
  - destruct (String.eqb_spec k0 k) as [->|Hne]; [|now apply IH].
    exfalso. apply Hk0. apply list_elem_of_In.
    apply (in_map fst _ (k, v)), Hin.
Qed.

End DictMore.

(** A dictionary filled row by row, as [load_routes] and [load_stops] do. *)
Section DictBuild.
Context {R V : Type} (key : R -> string) (val : R -> V).

Local Abbreviation build :=
  (fold_left (fun d row => Dict.set (key row) (val row) d)).

Lemma build_snoc (rows : list R) (row : R) (acc : list (string * V)) :
  build (rows ++ [row]) acc = Dict.set (key row) (val row) (build rows acc).
Proof. now rewrite fold_left_app. Qed.

Lemma build_nodup (rows : list R) :
  forall acc : list (string * V),
    NoDup (Dict.keys acc) -> NoDup (Dict.keys (build rows acc)).
Proof.
  induction rows as [|row r IH]; intros acc Hacc; [exact Hacc|].
  cbn [fold_left]. apply IH. now apply dict_set_nodup.
Qed.

(** The last row with the key decides the value. *)
Lemma build_get (rows : list R) (k : string) :
  Dict.get k (build rows [])
  = val <$> List.find (fun row => String.eqb (key row) k) (rev rows).
Proof.
  induction rows as [|row r IH] using rev_ind; [reflexivity|].
  rewrite build_snoc, dict_get_set, rev_app_distr. cbn [rev app List.find].
  destruct (String.eqb (key row) k); [reflexivity | exact IH].
Qed.

(** The keys are the keys of the rows, each at its first occurrence. *)
Lemma build_keys (rows : list R) (k : string) :
  In k (Dict.keys (build rows [])) <-> In k (map key rows).
Proof.
  induction rows as [|row r IH] using rev_ind; [reflexivity|].
  rewrite build_snoc, dict_keys_set, map_app, in_app_iff. cbn [map In].
  destruct (Dict.mem (key row) (build r [])) eqn:Hm.
  - rewrite IH. split; [tauto|]. intros [Hr|[<-|[]]]; [exact Hr|].
    apply IH. unfold Dict.mem in Hm.
    destruct (Dict.get (key row) (build r [])) eqn:Hg; [|discriminate].
    destruct (in_dec string_dec (key row) (Dict.keys (build r [])))
      as [Hin|Hnot]; [exact Hin|].
    apply dict_get_none_keys in Hnot. congruence.
  - rewrite in_app_iff, IH. cbn [In]. tauto.
Qed.

End DictBuild.

(** ** Loading the routes and the stops *)

Lemma open_table_missing {A} (path : string)
    (pick : content -> option (list A)) (w : World) :
  fs w !! path = None ->
  open_table path pick w
  = (Raise FileNotFoundError, add_events w [OpenRead path]).
Proof.
  intros Hf. unfold open_table. run_step.
  unfold bind, get_world. cbn [fs add_events]. now rewrite Hf.
Qed.

(** X3. [load_routes] and [load_stops] keep one entry per id: the ids of
    the table, distinct, and under each id the fields of the last row
    that has it. A table that is not on disk makes them raise
    [FileNotFoundError] when they open it. *)
Theorem tables_as_dictionaries (route_rows : list RouteRow)
    (stop_rows : list StopRow) :
  (NoDup (Dict.keys (routes_dict route_rows))
   /\ (forall id, In id (Dict.keys (routes_dict route_rows))
                  <-> In id (map r_route_id route_rows))
   /\ (forall id,
         Dict.get id (routes_dict route_rows)
         = (fun row => mkRoute (route_short_name row) (route_long_name row)
                               (r_route_type row))
             <$> List.find (fun row => String.eqb (r_route_id row) id)
                           (rev route_rows)))
  /\ (NoDup (Dict.keys (stops_dict stop_rows))
      /\ (forall id, In id (Dict.keys (stops_dict stop_rows))
                     <-> In id (map s_stop_id stop_rows))
      /\ (forall id,
            Dict.get id (stops_dict stop_rows)
            = (fun row => mkStop (stop_name_col row) (default "" (stop_lat row))
                                 (default "" (stop_lon row)))
                <$> List.find (fun row => String.eqb (s_stop_id row) id)
                              (rev stop_rows)))
  /\ (forall w,
        (fs w !! joinpath GTFS_DIR "routes.txt" = Some (Plain (Routes route_rows)) ->
         load_routes w
         = (Ret (routes_dict route_rows),
            add_events w [OpenRead (joinpath GTFS_DIR "routes.txt")]))
        /\ (fs w !! joinpath GTFS_DIR "routes.txt" = None ->
            load_routes w
            = (Raise FileNotFoundError,
               add_events w [OpenRead (joinpath GTFS_DIR "routes.txt")]))
        /\ (fs w !! joinpath GTFS_DIR "stops.txt" = Some (Plain (Stops stop_rows)) ->
            load_stops w
            = (Ret (stops_dict stop_rows),
               add_events w [OpenRead (joinpath GTFS_DIR "stops.txt")]))
        /\ (fs w !! joinpath GTFS_DIR "stops.txt" = None ->
            load_stops w
            = (Raise FileNotFoundError,
               add_events w [OpenRead (joinpath GTFS_DIR "stops.txt")]))).
Proof.
  split; [|split].
  - split; [apply build_nodup; constructor|].
    split; [intros id; apply build_keys | intros id; apply build_get].
  - split; [apply build_nodup; constructor|].
    split; [intros id; apply build_keys | intros id; apply build_get].
  - intros w. split; [apply load_routes_run|]. split; [|split].
    + intros Hf. unfold load_routes, bind.
      now rewrite (open_table_missing _ _ _ Hf).
    + apply load_stops_run.
    + intros Hf. unfold load_stops, bind.
      now rewrite (open_table_missing _ _ _ Hf).
Qed.

(** ** Trip selection on any table *)

Section TripsAnyTable.
Variables (route_id service_pattern : string) (limit : nat).

Lemma scan_trips_invariant (rows : list TripRow) :
  forall acc : list (string * string),
    NoDup (Dict.keys acc) ->
    length acc < limit ->
    let result := scan_trips route_id service_pattern limit rows acc in
    NoDup (Dict.keys result)
    /\ length result <= limit
    /\ forall id headsign,
         In (id, headsign) result ->
         In (id, headsign) acc
         \/ exists row,
              In row rows
              /\ trip_matches route_id service_pattern row = true
              /\ (id, headsign) = trip_entry row.
Proof.
  induction rows as [|row rest IH]; intros acc Hnd Hlen; cbv zeta.
  - cbn [scan_trips]. split; [exact Hnd|]. split; [lia|]. now left.
  - cbn [scan_trips].
    destruct (trip_matches route_id service_pattern row) eqn:Hm.
    + set (acc' := Dict.set (t_trip_id row)
                            (default "Unknown" (trip_headsign row)) acc).
      assert (Hnd' : NoDup (Dict.keys acc')) by now apply dict_set_nodup.
      assert (Hlen' : length acc' <= S (length acc)).
      { subst acc'. rewrite dict_set_length. destruct (Dict.mem _ acc); lia. }
      assert (Hin' : forall id headsign,
                 In (id, headsign) acc' ->
                 In (id, headsign) acc \/ (id, headsign) = trip_entry row).
      { intros id headsign Hin. subst acc'.
        apply dict_set_in in Hin as [[-> ->]|Hin]; [now right | now left]. }
      destruct (limit <=? length acc')%nat eqn:Hfull.
      * apply Nat.leb_le in Hfull. split; [exact Hnd'|]. split; [lia|].
        intros id headsign Hin. destruct (Hin' _ _ Hin) as [?|?];
          [now left | right; exists row; split; [now left | now split]].
      * apply Nat.leb_gt in Hfull.
        destruct (IH acc' Hnd' Hfull) as (H1 & H2 & H3).
        split; [exact H1|]. split; [exact H2|].
        intros id headsign Hin.
        destruct (H3 _ _ Hin) as [Hacc|(r & Hr & Hrm & Hre)].
        -- destruct (Hin' _ _ Hacc) as [?|?];
             [now left | right; exists row; split; [now left | now split]].
        -- right. exists r. split; [now right | now split].
    + destruct (IH acc Hnd Hlen) as (H1 & H2 & H3).
      split; [exact H1|]. split; [exact H2|].
      intros id headsign Hin.
      destruct (H3 _ _ Hin) as [?|(r & Hr & Hrm & Hre)]; [now left|].
      right. exists r. split; [now right | now split].
Qed.

End TripsAnyTable.

(** X4. Whatever the trips table holds, also repeated trip ids,
    [find_trips] with the limit 50 returns at most 50 trips with distinct
    ids, and each of them is a row of the route whose service id
    contains the pattern, with "Unknown" for a missing headsign. *)
Theorem find_trips_bounded (route_id service_pattern : string)
    (rows : list TripRow) :
  let trips := scan_trips route_id service_pattern 50 rows [] in
  NoDup (Dict.keys trips)
  /\ length trips <= 50
  /\ (forall id headsign,
        In (id, headsign) trips ->
        exists row,
          In row rows
          /\ t_route_id row = route_id
          /\ Py.contains service_pattern (service_id row) = true
          /\ id = t_trip_id row
          /\ headsign = default "Unknown" (trip_headsign row))
  /\ (forall w,
        fs w !! joinpath GTFS_DIR "trips.txt" = Some (Plain (Trips rows)) ->
        fst (find_trips route_id service_pattern 50 w) = Ret trips).
Proof.
  cbv zeta.
  destruct (scan_trips_invariant route_id service_pattern 50 rows [])
    as (H1 & H2 & H3); [constructor | cbn; lia |].
  split; [exact H1|]. split; [exact H2|]. split.
  - intros id headsign Hin.
    destruct (H3 _ _ Hin) as [[]|(row & Hr & Hm & He)].
    exists row. unfold trip_matches in Hm.
    apply andb_true_iff in Hm as [Hroute Hpat].
    apply String.eqb_eq in Hroute. unfold trip_entry in He.
    injection He as -> ->. repeat split; assumption.
  - intros w Hf. now rewrite (find_trips_run _ _ _ _ _ Hf).
Qed.

(** ** Reading the state store *)

Lemma isspace_eq_sign : Py.isspace "=" = false.
Proof. reflexivity. Qed.

Lemma lstrip_keeps_value (k v : string) :
  Py.contains "=" k = false ->
  exists k', Py.lstrip (k +:+ String "=" v) = k' +:+ String "=" v
             /\ Py.contains "=" k' = false.
Proof.
  induction k as [|c r IH]; intros Hk.
  - exists "". split; [|reflexivity].
    rewrite !append_empty_l. cbn [Py.lstrip]. now rewrite isspace_eq_sign.
  - rewrite contains_char_cons in Hk. apply orb_false_iff in Hk as [Hc Hr].
    rewrite append_cons. cbn [Py.lstrip]. destruct (Py.isspace c).
    + apply IH, Hr.
    + exists (String c r). rewrite append_cons. split; [reflexivity|].
      rewrite contains_char_cons. now rewrite Hc, Hr.
Qed.

Lemma rstrip_after_mark (x v : string) (c : ascii) :
  Py.isspace c = false ->
  Py.rstrip (x +:+ String c v) = x +:+ String c (Py.rstrip v).
Proof.
  intros Hc. induction x as [|a r IH].
  - rewrite !append_empty_l. cbn [Py.rstrip]. rewrite Hc.
    now destruct (Py.rstrip v).
  - rewrite !append_cons. cbn [Py.rstrip]. rewrite IH.
    destruct r; reflexivity.
Qed.

Lemma after_first_mark (k v : string) (c : ascii) :
  Py.contains (String c "") k = false ->
  Py.after_first c (k +:+ String c v) = Some v.
Proof.
  induction k as [|a r IH]; intros Hk.
  - rewrite append_empty_l. cbn [Py.after_first]. now rewrite Ascii.eqb_refl.
  - rewrite contains_char_cons in Hk. apply orb_false_iff in Hk as [Ha Hr].
    rewrite append_cons. cbn [Py.after_first].
    rewrite Ascii.eqb_sym, Ha. now apply IH.
Qed.

Lemma rstrip_newline (v : string) : Py.rstrip (v +:+ Py.nl) = Py.rstrip v.
Proof.
  induction v as [|c r IH]; [reflexivity|].
  rewrite append_cons. cbn [Py.rstrip]. now rewrite IH.
Qed.

Lemma contains_char_append (c : ascii) (a b : string) :
  Py.contains (String c "") (a +:+ b)
  = Py.contains (String c "") a || Py.contains (String c "") b.
Proof.
  induction a as [|x r IH].
  - rewrite append_empty_l. reflexivity.
  - rewrite append_cons, !contains_char_cons, IH. now rewrite orb_assoc.
Qed.

Lemma hex_char_no_eq_sign (n : N) :
  (n < 16)%N -> Ascii.eqb "=" (Sha256.hex_char n) = false.
Proof.
  intros Hn. destruct n as [|p]; [reflexivity|].
  do 4 (destruct p as [p|p|]; try reflexivity); lia.
Qed.

Lemma hex_word_no_eq_sign (n : nat) :
  forall (x : N) (acc : string),
    Py.contains "=" acc = false ->
    Py.contains "=" (Sha256.hex_word n x acc) = false.
Proof.
  induction n as [|k IH]; intros x acc Hacc; [exact Hacc|].
  cbn [Sha256.hex_word]. apply IH.
  rewrite contains_char_cons, Hacc, orb_false_r.
  apply hex_char_no_eq_sign.
  change 15%N with (N.ones 4). rewrite N.land_ones.
  apply N.mod_lt. discriminate.
Qed.

Lemma hexdigest_no_eq_sign (msg : list N) :
  Py.contains "=" (Sha256.hexdigest msg) = false.
Proof.
  unfold Sha256.hexdigest. induction (Sha256.digest msg) as [|x r IH];
    [reflexivity|].
  cbn [fold_right]. now apply hex_word_no_eq_sign.
Qed.

Section StateStore.
Context `{PyLib}.

Lemma stored_value_of_output (key printed_key value : string) (w : World) :
  ctl_get w key = Some (0%Z, printed_key +:+ "=" +:+ value) ->
  Py.contains "=" printed_key = false ->
  stored_value w key = Some (Py.rstrip value).
Proof.
  unfold stored_value. intros -> Hk.
  change (printed_key +:+ "=" +:+ value)
    with (printed_key +:+ String "=" value).
  rewrite contains_char_app. cbn [Z.eqb andb]. unfold Py.strip.
  destruct (lstrip_keeps_value printed_key value Hk) as (k' & -> & Hk').
  rewrite rstrip_after_mark by reflexivity.
  now apply after_first_mark.
Qed.

(** X5. [get_cache_state] never raises and has one effect, the call of
    [ambrogioctl]. When the call succeeds and prints [<key>=<value>], it
    returns the value up to its trailing white space, also when the value
    contains '='; a failed spawn, a non-zero return code and an output
    without '=' all give [None]. *)
Theorem get_cache_state_parses (key : string) (w : World) :
  (exists r, get_cache_state key w = (Ret r, add_events w [StateGet key]))
  /\ (forall printed_key value,
        ctl_get w key = Some (0%Z, printed_key +:+ "=" +:+ value) ->
        Py.contains "=" printed_key = false ->
        fst (get_cache_state key w) = Ret (Some (Py.rstrip value)))
  /\ (ctl_get w key = None -> fst (get_cache_state key w) = Ret None)
  /\ (forall returncode stdout,
        ctl_get w key = Some (returncode, stdout) ->
        returncode <> 0%Z \/ Py.contains "=" stdout = false ->
        fst (get_cache_state key w) = Ret None).
Proof.
  rewrite get_cache_state_run. cbn [fst]. unfold stored_value.
  split; [eauto|]. split; [|split].
  - intros printed_key value Hout Hk. f_equal.
    fold (stored_value w key). now apply (stored_value_of_output _ printed_key).
  - now intros ->.
  - intros returncode stdout -> [Hrc|Hout].
    + apply Z.eqb_neq in Hrc. now rewrite Hrc.
    + rewrite Hout. now rewrite andb_false_r.
Qed.

(** X6. The key of a cached query is the namespace
    "atm-tram-schedule:cache:" followed by hexadecimal digits: it holds
    no '=' and differs from the key of the dataset timestamp. So a line
    [<key>=<entry>] printed by [ambrogioctl] for it is read back as the
    entry, whatever the entry holds. *)
Theorem cache_key_is_readable (line stop_name schedule_type : string) :
  Py.contains "=" (cache_key line stop_name schedule_type) = false
  /\ cache_key line stop_name schedule_type <> gtfs_cache_key
  /\ Py.startswith "atm-tram-schedule:cache:"
       (cache_key line stop_name schedule_type) = true
  /\ (forall w entry,
        ctl_get w (cache_key line stop_name schedule_type)
        = Some (0%Z, cache_key line stop_name schedule_type +:+ "="
                     +:+ entry +:+ Py.nl) ->
        fst (get_cache_state (cache_key line stop_name schedule_type) w)
        = Ret (Some (Py.rstrip entry))).
Proof.
  assert (Hno : Py.contains "=" (cache_key line stop_name schedule_type) = false).
  { unfold cache_key, cache_hash.
    rewrite contains_char_append, hexdigest_no_eq_sign. reflexivity. }
  split; [exact Hno|]. split; [|split].
  - unfold cache_key, gtfs_cache_key.
    generalize (cache_hash line stop_name schedule_type). intros h E.
    apply (f_equal (Py.slice_to 19)) in E. cbv in E. discriminate E.
  - apply startswith_spec. now eexists.
  - intros w entry Hout. rewrite get_cache_state_run. cbn [fst]. f_equal.
    rewrite (stored_value_of_output _ _ _ _ Hout Hno).
    now rewrite rstrip_newline.
Qed.

End StateStore.

Example stored_entry_is_read_back :
  fst (get_cache_state (cache_key "9" "" "weekday")
         Sample.cached)
  = Ret (Some (Sample.dumps Sample.entry)).
Proof. vm_compute. reflexivity. Qed.

(** ** Fetching and unpacking the archive *)







Section Fetch.
Context `{PyLib}.

Lemma curl_run_ran (url dest : string) (w : World) (returncode : Z)
    (written : option file) :
  curl_run w = Some (returncode, written) ->
  curl url dest w
  = (Ret returncode,
     match written with
     | Some f => with_fs (add_events w [Curl url dest]) (<[dest := f]> (fs w))
     | None => add_events w [Curl url dest]
     end).
Proof.
  intros Hc. unfold curl. run_step. unfold bind at 1, get_world.
  cbn [curl_run fs add_events]. rewrite Hc. destruct written; reflexivity.
Qed.

Lemma refresh_gtfs_curl (w : World) :
  fs w !! GTFS_ZIP = None ->
  refresh_gtfs w
  = (fetched <-
       (returncode <- curl GTFS_URL GTFS_ZIP ;;
        if negb (returncode =? 0)%Z then
          log "Error: Failed to download GTFS data" ;; ret false
        else ret true) ;;
     if negb fetched then ret false
     else
       log "Extracting GTFS data..." ;;
       extracted <-
         try_except
           (extractall GTFS_ZIP GTFS_DIR ;; ret true)
           (fun e => log ("Error extracting GTFS: " +:+ str_exn e) ;;
                     ret false) ;;
       if negb extracted then ret false
       else
         t <- utcnow ;;
         let now_iso := strftime t "%Y-%m-%dT%H:%M:%SZ" in
         set_cache_state gtfs_cache_key now_iso ;;
         ret true)
      (add_events w [Stderr "Downloading GTFS data from ATM Milano...";
                     Mkdir GTFS_DIR; Stat GTFS_ZIP]).
Proof.
  intros Hzip. unfold refresh_gtfs. do 3 run_step.
  rewrite !file_there_add_events. unfold file_there.
  rewrite Hzip, bool_decide_eq_false_2 by (intros [? ?]; discriminate).
  cbn [negb]. now rewrite !add_events_app.
Qed.

(** X7. Without an archive on disk a refresh calls [curl] once. If
    [curl] cannot be started the exception leaves [download_gtfs]; if it
    returns a non-zero code, [download_gtfs] logs the failure and returns
    [False] without extracting anything or recording a timestamp, and
    [main] exits with status 1 before it opens a table or prints a
    line. *)
Theorem failed_fetch_stops_the_run (w : World) :
  dataset_fresh w = false ->
  fs w !! GTFS_ZIP = None ->
  let steps :=
    freshness_checks
    ++ [Stderr "Downloading GTFS data from ATM Milano...";
        Mkdir GTFS_DIR; Stat GTFS_ZIP; Curl GTFS_URL GTFS_ZIP] in
  (curl_run w = None ->
   download_gtfs w = (Raise FileNotFoundError, add_events w steps))
  /\ (forall returncode written,
        curl_run w = Some (returncode, written) ->
        returncode <> 0%Z ->
        let failed :=
          add_events
            match written with
            | Some f => with_fs (add_events w steps) (<[GTFS_ZIP := f]> (fs w))
            | None => add_events w steps
            end
            [Stderr "Error: Failed to download GTFS data"] in
        download_gtfs w = (Ret false, failed)
        /\ forall prog line stop_name schedule_type w0,
             Dict.mem schedule_type SERVICE_PATTERNS = true ->
             check_cache (cache_key line stop_name schedule_type)
                         SCHEDULE_CACHE_TTL w0 = (Ret None, w) ->
             main [prog; line; stop_name; schedule_type] w0 = (Exit 1, failed)).
Proof.
  intros Hstale Hzip steps.
  assert (Hd : download_gtfs w
               = refresh_gtfs (add_events w freshness_checks)).
  { now rewrite download_gtfs_run, Hstale. }
  set (w1 := add_events w (freshness_checks
                           ++ [Stderr "Downloading GTFS data from ATM Milano...";
                               Mkdir GTFS_DIR; Stat GTFS_ZIP])).
  split.
  - intros Hc.
    rewrite Hd, (refresh_gtfs_curl (add_events w freshness_checks) Hzip),
      !add_events_app. fold w1.
    unfold bind at 1. unfold bind at 1. unfold curl.
    run_step. unfold bind at 1, get_world. subst w1.
    cbn [curl_run add_events]. rewrite Hc. unfold raise.
    subst steps. fold (add_events w (freshness_checks
      ++ [Stderr "Downloading GTFS data from ATM Milano...";
          Mkdir GTFS_DIR; Stat GTFS_ZIP])).
    now rewrite add_events_app, <- app_assoc.
  - intros returncode written Hc Hrc failed.
    assert (E : download_gtfs w = (Ret false, failed)).
    { rewrite Hd, (refresh_gtfs_curl (add_events w freshness_checks) Hzip),
        !add_events_app. fold w1.
      assert (Hin : (returncode0 <- curl GTFS_URL GTFS_ZIP ;;
                     if negb (returncode0 =? 0)%Z then
                       log "Error: Failed to download GTFS data" ;; ret false
                     else ret true) w1
                    = (Ret false, failed)).
      { erewrite bind_run by (apply curl_run_ran; exact Hc).
        apply Z.eqb_neq in Hrc. rewrite Hrc. cbn [negb]. run_step.
        unfold ret. subst failed w1 steps. f_equal.
        destruct written; rewrite !add_events_app, <- ?app_assoc;
          reflexivity. }
      erewrite bind_run by exact Hin. reflexivity. }
    split; [exact E|].
    intros prog line stop_name schedule_type w0 Hst Hmiss.
    rewrite (main_miss _ _ _ _ _ _ Hst Hmiss). unfold run_query.
    erewrite bind_run by exact E. reflexivity.
Qed.


End Fetch.

Lemma failed_fetch_stops_the_run_witness :
  dataset_fresh (H := Sample.lib) Sample.offline = false
  /\ fs Sample.offline !! GTFS_ZIP = None
  /\ fst (download_gtfs (H := Sample.lib) Sample.offline) = Ret false
  /\ exit_code (fst (main (H := Sample.lib)
                       ["check-tram-schedule.py"; "9"; ""; "weekday"]
                       Sample.offline)) = 1%Z.
Proof.
  assert (H1 : dataset_fresh (H := Sample.lib) Sample.offline = false)
    by (vm_compute; reflexivity).
  assert (H2 : fs Sample.offline !! GTFS_ZIP = None) by (vm_compute; reflexivity).
  split; [exact H1|]. split; [exact H2|].
  destruct (failed_fetch_stops_the_run (H := Sample.lib) Sample.offline H1 H2)
    as [_ Hfail].
  assert (Hrc : 6%Z <> 0%Z) by discriminate.
  destruct (Hfail 6%Z None eq_refl Hrc) as [E _].
  split; [rewrite E; reflexivity|]. vm_compute. reflexivity.
Defined.


(** ** The aggregation, with and without a list of stops *)

Section DictRestrict.
Context {V : Type} (keep : string -> bool).
Implicit Types (d : list (string * V)) (k : string) (v : V).

Local Abbreviation restrict := (List.filter (fun item : string * V => keep (fst item))).

Lemma restrict_get k d :
  Dict.get k (restrict d) = if keep k then Dict.get k d else None.
Proof.
  induction d as [|[k0 v0] r IH]; cbn [List.filter Dict.get fst].
  - now destruct (keep k).
  - destruct (keep k0) eqn:Hk0; cbn [Dict.get].
    + destruct (String.eqb_spec k0 k) as [->|Hne]; [now rewrite Hk0|exact IH].
    + destruct (String.eqb_spec k0 k) as [->|Hne]; [now rewrite IH, Hk0|exact IH].
Qed.

Lemma restrict_set k v d :
  restrict (Dict.set k v d)
  = if keep k then Dict.set k v (restrict d) else restrict d.
Proof.
  induction d as [|[k0 v0] r IH]; cbn [Dict.set List.filter fst].
  - now destruct (keep k).
  - destruct (String.eqb_spec k0 k) as [->|Hne]; cbn [List.filter fst].
    + destruct (keep k); cbn [Dict.set]; [now rewrite String.eqb_refl | reflexivity].
    + rewrite IH. destruct (keep k0) eqn:Hk0, (keep k) eqn:Hk; cbn [Dict.set];
        try reflexivity.
      apply String.eqb_neq in Hne. now rewrite Hne.
Qed.

Lemma restrict_keys_nodup d :
  NoDup (Dict.keys d) -> NoDup (Dict.keys (restrict d)).
Proof.
  induction d as [|[k0 v0] r IH]; cbn [List.filter Dict.keys map fst];
    [trivial|].
  intros Hnd. apply NoDup_cons in Hnd as [Hk Hnd].
  destruct (keep k0); [|now apply IH]. cbn [map fst].
  apply NoDup_cons. split; [|now apply IH].
  intros Hin. apply Hk. apply list_elem_of_In in Hin. apply list_elem_of_In.
  apply in_map_iff in Hin as (item & Hf & Hi). apply filter_In in Hi as [Hi _].
  apply in_map_iff. now exists item.
Qed.

End DictRestrict.

(** Changing every value of a dictionary whose keys are distinct, entry
    by entry, as the second loop of [get_stop_times] does. *)
Lemma dict_map_values {V W} (g : V -> W) (d : list (string * V)) :
  forall acc : list (string * W),
    NoDup (Dict.keys d) ->
    (forall k, In k (Dict.keys d) -> Dict.get k acc = None) ->
    fold_left (fun result item => Dict.set (fst item) (g (snd item)) result) d acc
    = acc ++ map (fun item => (fst item, g (snd item))) d.
Proof.
  induction d as [|[k v] r IH]; intros acc Hnd Hfresh;
    cbn [fold_left map fst snd].
  - now rewrite app_nil_r.
  - cbn [Dict.keys map fst] in Hnd. apply NoDup_cons in Hnd as [Hk Hnd].
    rewrite dict_set_new by (apply Hfresh; now left).
    rewrite IH; [now rewrite <- app_assoc | exact Hnd |].
    intros k' Hk'. apply dict_get_app_new; [apply Hfresh; now right|].
    intros ->. apply Hk. now apply list_elem_of_In.
Qed.

Lemma restrict_map_values {V W} (keep : string -> bool) (g : V -> W)
    (d : list (string * V)) :
  map (fun item => (fst item, g (snd item)))
      (List.filter (fun item => keep (fst item)) d)
  = List.filter (fun item => keep (fst item))
      (map (fun item => (fst item, g (snd item))) d).
Proof.
  induction d as [|item r IH]; [reflexivity|].
  cbn [List.filter map fst]. destruct (keep (fst item)); cbn [map];
    now rewrite IH.
Qed.

Section AggregationMore.
Context `{PyLib}.

Lemma collect_keys_nodup (trip_info : list (string * string))
    (stop_ids : option (list string)) (rows : list StopTimeRow) :
  forall acc : list (string * list (string * string)),
    NoDup (Dict.keys acc) ->
    NoDup (Dict.keys (fold_left (add_stop_time trip_info stop_ids) rows acc)).
Proof.
  induction rows as [|row r IH]; intros acc Hacc; [exact Hacc|].
  cbn [fold_left]. apply IH. unfold add_stop_time.
  destruct (Dict.get (st_trip_id row) trip_info); [|exact Hacc].
  destruct (match stop_ids with Some ids => _ | None => true end);
    [|exact Hacc].
  now apply dict_set_nodup.
Qed.

Lemma sort_times_map (d : list (string * list (string * string))) :
  NoDup (Dict.keys d) ->
  sort_times d = map (fun item => (fst item, sorted fst (py_set (snd item)))) d.
Proof.
  intros Hnd. unfold sort_times.
  now rewrite (dict_map_values (fun l => sorted fst (py_set l)) d []).
Qed.

(** Restricting the rows to the stops [ids] restricts the result to them. *)
Lemma collect_restrict (trip_info : list (string * string))
    (ids : list string) (rows : list StopTimeRow) :
  forall acc : list (string * list (string * string)),
    fold_left (add_stop_time trip_info (Some ids)) rows
      (List.filter (fun item => bool_decide (fst item ∈ ids)) acc)
    = List.filter (fun item => bool_decide (fst item ∈ ids))
        (fold_left (add_stop_time trip_info None) rows acc).
Proof.
  induction rows as [|row r IH]; intros acc; [reflexivity|].
  cbn [fold_left]. rewrite <- IH. f_equal. unfold add_stop_time.
  destruct (Dict.get (st_trip_id row) trip_info) as [headsign|]; [|reflexivity].
  unfold Dict.append.
  pose proof (restrict_set (fun k => bool_decide (k ∈ ids)) (st_stop_id row)
                (default [] (Dict.get (st_stop_id row) acc)
                 ++ [(departure_time row, headsign)]) acc) as Eset.
  pose proof (restrict_get (fun k => bool_decide (k ∈ ids)) (st_stop_id row)
                acc) as Eget.
  cbv beta in Eset, Eget. rewrite Eset, Eget.
  destruct (bool_decide (st_stop_id row ∈ ids)); reflexivity.
Qed.

(** X9. With a list of stop ids [get_stop_times] returns the entries of
    the unfiltered result whose stop is in the list, unchanged and in the
    same order; the empty list leaves none. *)
Theorem stop_list_restricts_the_result (trip_info : list (string * string))
    (ids : list string) (rows : list StopTimeRow) (w : World) :
  fs w !! joinpath GTFS_DIR "stop_times.txt" = Some (Plain (StopTimes rows)) ->
  exists unfiltered,
    fst (get_stop_times trip_info None w) = Ret unfiltered
    /\ fst (get_stop_times trip_info (Some ids) w)
       = Ret (List.filter (fun item => bool_decide (fst item ∈ ids)) unfiltered)
    /\ fst (get_stop_times trip_info (Some []) w) = Ret [].
Proof.
  intros Hf. rewrite !(get_stop_times_run _ _ _ _ Hf). cbn [fst].
  eexists. split; [reflexivity|].
  assert (Hr : forall l,
             sort_times (fold_left (add_stop_time trip_info (Some l)) rows [])
             = List.filter (fun item => bool_decide (fst item ∈ l))
                 (sort_times (fold_left (add_stop_time trip_info None) rows []))).
  { intros l.
    pose proof (collect_restrict trip_info l rows []) as E.
    cbn [List.filter] in E. rewrite E.
    rewrite !sort_times_map.
    - pose proof (restrict_map_values
                    (fun k : string => bool_decide (k ∈ l))
                    (fun t => sorted fst (py_set t))
                    (fold_left (add_stop_time trip_info None) rows [])) as Em.
      exact Em.
    - apply collect_keys_nodup. constructor.
    - pose proof (restrict_keys_nodup
                    (fun k : string => bool_decide (k ∈ l))
                    (fold_left (add_stop_time trip_info None) rows [])) as En.
      apply En, collect_keys_nodup. constructor. }
  split; [now rewrite Hr|]. rewrite Hr. f_equal. clear Hr.
  induction (sort_times _) as [|item r IH]; [reflexivity|].
  cbn [List.filter]. rewrite bool_decide_eq_false_2 by apply not_elem_of_nil.
  exact IH.
Qed.

Lemma dict_get_map_values {V W} (g : V -> W) (d : list (string * V))
    (k : string) :
  Dict.get k (map (fun item => (fst item, g (snd item))) d)
  = g <$> Dict.get k d.
Proof.
  induction d as [|[k0 v0] r IH]; cbn [map Dict.get fst snd]; [reflexivity|].
  destruct (String.eqb k0 k); [reflexivity | exact IH].
Qed.

Lemma departures_at_in (trip_info : list (string * string))
    (rows : list StopTimeRow) (stop_id time headsign : string) :
  In (time, headsign) (departures_at trip_info rows stop_id)
  <-> exists row,
        In row rows /\ st_stop_id row = stop_id
        /\ departure_time row = time
        /\ Dict.get (st_trip_id row) trip_info = Some headsign.
Proof.
  unfold departures_at. rewrite in_flat_map. split.
  - intros (row & Hrow & Hin). exists row. split; [exact Hrow|].
    destruct (Dict.get (st_trip_id row) trip_info) as [h|]; [|destruct Hin].
    destruct (String.eqb_spec (st_stop_id row) stop_id) as [Hs|Hs];
      [|destruct Hin].
    destruct Hin as [[= <- <-]|[]]. now repeat split.
  - intros (row & Hrow & Hs & Ht & Hh). exists row. split; [exact Hrow|].
    rewrite Hh, Hs, String.eqb_refl, Ht. now left.
Qed.

(** What the first loop of [get_stop_times] holds for a stop. *)
Lemma collect_get (trip_info : list (string * string))
    (rows : list StopTimeRow) (stop_id : string) :
  forall acc : list (string * list (string * string)),
    (forall k, Dict.get k acc <> Some []) ->
    Dict.get stop_id (fold_left (add_stop_time trip_info None) rows acc)
    = match default [] (Dict.get stop_id acc)
            ++ departures_at trip_info rows stop_id with
      | [] => None
      | l => Some l
      end.
Proof.
  induction rows as [|row r IH]; intros acc Hacc.
  - cbn [fold_left departures_at flat_map]. rewrite app_nil_r.
    destruct (Dict.get stop_id acc) as [[|x l]|] eqn:Hg; try reflexivity.
    now destruct (Hacc stop_id).
  - cbn [fold_left]. unfold departures_at. cbn [flat_map].
    fold (departures_at trip_info r stop_id).
    unfold add_stop_time at 2.
    destruct (Dict.get (st_trip_id row) trip_info) as [headsign|];
      [|now apply IH].
    rewrite IH.
    + unfold Dict.append. rewrite dict_get_set.
      destruct (String.eqb_spec (st_stop_id row) stop_id) as [->|Hne];
        [|reflexivity].
      cbn [from_option id]. now rewrite <- app_assoc.
    + intros k. unfold Dict.append. rewrite dict_get_set.
      destruct (String.eqb (st_stop_id row) k); [|apply Hacc].
      intros [= E]. now apply app_eq_nil in E as [_ E].
Qed.

(** X10. Without a list of stops [get_stop_times] keeps, for every stop,
    exactly the rows of [stop_times.txt] whose trip is selected: a stop
    is a key of the result when it has such a row, each stop once, and
    its list holds the (time, headsign) pairs of these rows as a set,
    sorted by time; pairs of one time stay in the order in which the
    interpreter iterates the set. *)
Theorem departures_of_every_stop (trip_info : list (string * string))
    (rows : list StopTimeRow) (w : World) :
  fs w !! joinpath GTFS_DIR "stop_times.txt" = Some (Plain (StopTimes rows)) ->
  exists result,
    fst (get_stop_times trip_info None w) = Ret result
    /\ NoDup (Dict.keys result)
    /\ (forall stop_id,
          Dict.get stop_id result
          = match departures_at trip_info rows stop_id with
            | [] => None
            | l => Some (sorted fst (py_set l))
            end)
    /\ (forall stop_id times time headsign,
          In (stop_id, times) result ->
          (In (time, headsign) times
           <-> exists row,
                 In row rows /\ st_stop_id row = stop_id
                 /\ departure_time row = time
                 /\ Dict.get (st_trip_id row) trip_info = Some headsign)).
Proof.
  intros Hf. rewrite (get_stop_times_run _ _ _ _ Hf). cbn [fst].
  eexists. split; [reflexivity|].
  set (collected := fold_left (add_stop_time trip_info None) rows []).
  assert (Hnd : NoDup (Dict.keys collected))
    by (apply collect_keys_nodup; constructor).
  assert (Hkeys : NoDup (Dict.keys (sort_times collected))).
  { rewrite sort_times_map by exact Hnd. unfold Dict.keys.
    rewrite map_map. cbn [fst]. exact Hnd. }
  assert (Hget : forall stop_id,
             Dict.get stop_id (sort_times collected)
             = match departures_at trip_info rows stop_id with
               | [] => None
               | l => Some (sorted fst (py_set l))
               end).
  { intros stop_id. rewrite sort_times_map by exact Hnd.
    rewrite (dict_get_map_values (fun l => sorted fst (py_set l))).
    subst collected. rewrite collect_get by (intros k; discriminate).
    cbn [Dict.get from_option app].
    now destruct (departures_at trip_info rows stop_id). }
  split; [exact Hkeys|]. split; [exact Hget|].
  intros stop_id times time headsign Hin.
  apply (dict_in_get _ _ _ Hkeys) in Hin. rewrite Hget in Hin.
  rewrite <- departures_at_in.
  destruct (departures_at trip_info rows stop_id) as [|x l] eqn:Hd;
    [discriminate|].
  injection Hin as <-. rewrite sorted_in, <- !list_elem_of_In.
  apply py_set_elem.
Qed.

End AggregationMore.

Lemma stop_list_restricts_the_result_witness :
  fs Sample.fresh !! joinpath GTFS_DIR "stop_times.txt"
  = Some (Plain (StopTimes Sample.stop_times))
  /\ fst (get_stop_times (H := Sample.lib)
            [("t1", "P.ta Genova"); ("t2", "Centrale FS")] (Some ["S2"])
            Sample.fresh)
     = Ret [("S2", [("08:05:00", "Centrale FS"); ("08:20:00", "P.ta Genova")])].
Proof.
  assert (Hf : fs Sample.fresh !! joinpath GTFS_DIR "stop_times.txt"
               = Some (Plain (StopTimes Sample.stop_times)))
    by (vm_compute; reflexivity).
  split; [exact Hf|].
  destruct (stop_list_restricts_the_result (H := Sample.lib)
              [("t1", "P.ta Genova"); ("t2", "Centrale FS")] ["S2"]
              Sample.stop_times Sample.fresh Hf) as (unfiltered & Ha & Hs & _).
  rewrite Hs. clear Hs. revert Ha. vm_compute. intros [= <-]. reflexivity.
Defined.

Lemma departures_of_every_stop_witness :
  fs Sample.fresh !! joinpath GTFS_DIR "stop_times.txt"
  = Some (Plain (StopTimes Sample.stop_times))
  /\ exists result,
       fst (get_stop_times (H := Sample.lib)
              [("t1", "P.ta Genova"); ("t2", "Centrale FS")] None Sample.fresh)
       = Ret result
       /\ Dict.get "S2" result
          = Some [("08:05:00", "Centrale FS"); ("08:20:00", "P.ta Genova")]
       /\ Dict.get "S3" result = None.
Proof.
  assert (Hf : fs Sample.fresh !! joinpath GTFS_DIR "stop_times.txt"
               = Some (Plain (StopTimes Sample.stop_times)))
    by (vm_compute; reflexivity).
  split; [exact Hf|].
  destruct (departures_of_every_stop (H := Sample.lib)
              [("t1", "P.ta Genova"); ("t2", "Centrale FS")]
              Sample.stop_times Sample.fresh Hf) as (result & Hr & _ & Hget & _).
  exists result. split; [exact Hr|].
  rewrite !Hget. split; vm_compute; reflexivity.
Defined.

(** Departures of one time come out as the set is iterated: two
    interpreters, two orders. *)
Example set_order_decides_ties :
  let times := [("08:00:00", "Mu"); ("08:00:00", "Zeta");
                ("08:00:00", "Alfa"); ("07:30:00", "Mu");
                ("08:00:00", "Zeta")] in
  sorted fst (py_set (H := Sample.lib) times)
  = [("07:30:00", "Mu"); ("08:00:00", "Mu"); ("08:00:00", "Zeta");
     ("08:00:00", "Alfa")]
  /\ sorted fst (py_set (H := Sample.backwards) times)
     = [("07:30:00", "Mu"); ("08:00:00", "Zeta"); ("08:00:00", "Alfa");
        ("08:00:00", "Mu")].
Proof. split; vm_compute; reflexivity. Qed.

(** ** A hit in the query cache *)

Section CacheHit.
Context `{PyLib}.

Ltac no_hit :=
  let Hc := fresh "Hc" in
  intros Hc; apply (f_equal fst) in Hc;
  cbv [try_except bind lift raise ret fst as_str as_path json_truthy] in Hc;
  discriminate Hc.

(** What [check_cache] has checked when it returns an entry. *)
Lemma check_cache_hit_shape (key : string) (ttl : Z) (w w0 : World)
    (data : json) :
  check_cache key ttl w = (Ret (Some data), w0) ->
  exists d path,
    data = JObj d
    /\ (exists stamp, Dict.get "timestamp" d = Some (JStr stamp))
    /\ Dict.get "text_path" d = Some (JStr path)
    /\ path <> ""
    /\ is_Some (fs w !! path)
    /\ w0 = add_events w [StateGet key; Stat path].
Proof.
  unfold check_cache. run_step.
  destruct (stored_value w key) as [entry|]; [|no_hit].
  cbn [Py.truthy_opt from_option id].
  destruct (Py.truthy entry); cbn [negb]; [|no_hit].
  unfold try_except.
  destruct (json_loads entry) as [cache_data|]; cbn [lift]; [|no_hit].
  run_step.
  destruct cache_data as [ | b | z | s | l | d ]; cbn [subscript lift];
    try no_hit.
  destruct (Dict.get "timestamp" d) as [stampv|] eqn:Hstamp; cbn [lift];
    [|no_hit].
  run_step.
  destruct stampv as [ | b | z | stamp | l | d' ]; cbn [as_str lift];
    try no_hit.
  run_step. unfold parse_timestamp.
  destruct (fromisoformat (Py.replace "Z" "+00:00" stamp)) as [ts|];
    cbn [lift]; [|no_hit].
  run_step. rewrite age_run.
  destruct (younger _ ttl); [|no_hit].
  cbn [json_get lift]. run_step.
  destruct (Dict.get "text_path" d) as [pathv|] eqn:Hpath;
    cbn [from_option id json_truthy]; [|no_hit].
  destruct pathv as [ | b | z | p | l | d' ]; cbn [json_truthy as_path lift];
    try no_hit.
  - destruct b; no_hit.
  - destruct (negb (z =? 0)%Z); no_hit.
  - destruct (Py.truthy p) eqn:Htp; [|no_hit].
    do 2 run_step. rewrite file_there_add_events, add_events_app. cbn [app].
    destruct (file_there w p) eqn:Hthere; [|no_hit].
    unfold ret. intros [= <- <-]. exists d, p.
    split; [reflexivity|]. split; [now exists stamp|].
    split; [exact Hpath|]. split; [now intros ->|].
    split; [|reflexivity].
    unfold file_there in Hthere. now apply bool_decide_eq_true in Hthere.
  - destruct l; no_hit.
  - destruct d'; no_hit.
Qed.

(** X11. When [check_cache] returns an entry, [main] prints the six
    result lines with the cached report path and "CACHE: hit", and exits
    with status 0. Between start and exit it has called the state store
    once and tested that the cached path exists: no table is opened and
    nothing is fetched, extracted or written. The path on the TEXT line
    is the one [Path.exists] has found on disk, a file or a directory. *)
Theorem cache_hit_skips_the_dataset
    (prog line stop_name schedule_type : string) (w w0 : World) (data : json) :
  Dict.mem schedule_type SERVICE_PATTERNS = true ->
  check_cache (cache_key line stop_name schedule_type) SCHEDULE_CACHE_TTL w
  = (Ret (Some data), w0) ->
  exists path,
    json_get data "text_path" = inr (JStr path)
    /\ is_Some (fs w !! path)
    /\ main [prog; line; stop_name; schedule_type] w
       = (Exit 0,
          add_events w
            [StateGet (cache_key line stop_name schedule_type);
             Stat path;
             Stdout ("LINE: " +:+ line);
             Stdout ("STOP: " +:+ (if Py.truthy stop_name then stop_name
                                   else "all"));
             Stdout ("TYPE: " +:+ schedule_type);
             Stdout ("TEXT: " +:+ path);
             Stdout "SOURCE: GTFS";
             Stdout "CACHE: hit"]).
Proof.
  intros Hst Hc.
  destruct (check_cache_hit_shape _ _ _ _ _ Hc)
    as (d & path & -> & [stamp Hstamp] & Hpath & Hne & Hthere & ->).
  exists path. split; [cbn [json_get]; now rewrite Hpath|].
  split; [exact Hthere|].
  unfold main. cbn [length Nat.ltb Nat.leb orb nth]. rewrite Hst. cbn [negb].
  erewrite bind_run by exact Hc.
  assert (Htruthy : json_truthy (JObj d) = true).
  { destruct d; [discriminate Hstamp | reflexivity]. }
  cbv beta iota. rewrite Htruthy. do 3 run_step. cbn [subscript]. rewrite Hpath. cbn [lift].
  do 4 run_step. rewrite !add_events_app. reflexivity.
Qed.

End CacheHit.

Lemma cache_hit_skips_the_dataset_witness :
  Dict.mem "weekday" SERVICE_PATTERNS = true
  /\ fst (check_cache (H := Sample.lib) (cache_key "9" "" "weekday")
            SCHEDULE_CACHE_TTL Sample.cached) = Ret (Some Sample.entry)
  /\ exists path,
       json_get Sample.entry "text_path" = inr (JStr path)
       /\ is_Some (fs Sample.cached !! path)
       /\ fst (main (H := Sample.lib)
                 ["check-tram-schedule.py"; "9"; ""; "weekday"] Sample.cached)
          = Exit 0.
Proof.
  split; [reflexivity|]. split; [vm_compute; reflexivity|].
  destruct (cache_hit_skips_the_dataset (H := Sample.lib)
              "check-tram-schedule.py" "9" "" "weekday" Sample.cached
              (add_events Sample.cached
                 [StateGet (cache_key "9" "" "weekday");
                  Stat Sample.report_path])
              Sample.entry eq_refl)
    as (path & Hp & Hthere & Hmain).
  - vm_compute. reflexivity.
  - exists path. split; [exact Hp|]. split; [exact Hthere|].
    now rewrite Hmain.
Defined.

(** ** Standard output *)

Section Silence.
Context `{PyLib}.

Lemma stdout_lines_app (a b : list event) :
  stdout_lines (a ++ b) = stdout_lines a ++ stdout_lines b.
Proof. unfold stdout_lines. apply flat_map_app. Qed.

Lemma prints_nothing_ret {A} (a : A) : prints_nothing (ret a).
Proof. intros w. split; [reflexivity | intros c [=]]. Qed.

Lemma prints_nothing_raise {A} (e : exn) : prints_nothing (@raise A e).
Proof. intros w. split; [reflexivity | intros c [=]]. Qed.

Lemma prints_nothing_lift {A} (r : exn + A) : prints_nothing (lift r).
Proof.
  destruct r; [apply prints_nothing_raise | apply prints_nothing_ret].
Qed.

Lemma prints_nothing_get_world : prints_nothing get_world.
Proof. intros w. split; [reflexivity | intros c [=]]. Qed.

Lemma prints_nothing_set_fs (f : gmap string file) : prints_nothing (set_fs f).
Proof. intros w. split; [reflexivity | intros c [=]]. Qed.

Lemma prints_nothing_emit (e : event) :
  (forall msg, e <> Stdout msg) -> prints_nothing (emit e).
Proof.
  intros He w. split; [|intros c [=]].
  unfold emit, add_events. cbn [snd trace]. rewrite stdout_lines_app.
  destruct e; try (cbn; apply app_nil_r). now destruct (He msg).
Qed.

Lemma prints_nothing_bind {A B} (m : M A) (k : A -> M B) :
  prints_nothing m -> (forall a, prints_nothing (k a)) ->
  prints_nothing (bind m k).
Proof.
  intros Hm Hk w. unfold bind. destruct (Hm w) as [Hout Hexit].
  destruct (m w) as [[a|c|e] w1]; cbn [fst snd] in *.
  - destruct (Hk a w1) as [Hout' Hexit']. split; [congruence | exact Hexit'].
  - now destruct (Hexit c).
  - split; [exact Hout | intros c [=]].
Qed.

Lemma prints_nothing_try {A} (m : M A) (h : exn -> M A) :
  prints_nothing m -> (forall e, prints_nothing (h e)) ->
  prints_nothing (try_except m h).
Proof.
  intros Hm Hh w. unfold try_except. destruct (Hm w) as [Hout Hexit].
  destruct (m w) as [[a|c|e] w1]; cbn [fst snd] in *.
  - split; [exact Hout | intros c [=]].
  - now destruct (Hexit c).
  - destruct (Hh e w1) as [Hout' Hexit']. split; [congruence | exact Hexit'].
Qed.

Lemma prints_nothing_log (msg : string) : prints_nothing (log msg).
Proof. apply prints_nothing_emit. intros m [=]. Qed.

End Silence.

Ltac quiet :=
  repeat first
    [ apply prints_nothing_log
    | apply prints_nothing_ret
    | apply prints_nothing_raise
    | apply prints_nothing_lift
    | apply prints_nothing_get_world
    | apply prints_nothing_set_fs
    | apply prints_nothing_emit; intros ? [=]
    | apply prints_nothing_bind; [|intros ?]
    | apply prints_nothing_try; [|intros ?]
    | match goal with
      | |- prints_nothing (match ?x with _ => _ end) => destruct x
      end ].

Section SilentParts.
Context `{PyLib}.

Lemma prints_nothing_path_exists (p : string) : prints_nothing (path_exists p).
Proof. unfold path_exists. quiet. Qed.

Lemma prints_nothing_now (tz : option Z) : prints_nothing (now tz).
Proof. unfold now. quiet. Qed.

Lemma prints_nothing_utcnow : prints_nothing utcnow.
Proof. unfold utcnow. quiet. Qed.

Lemma prints_nothing_get_cache_state (key : string) :
  prints_nothing (get_cache_state key).
Proof. unfold get_cache_state. quiet. Qed.

Lemma prints_nothing_set_cache_state (key value : string) :
  prints_nothing (set_cache_state key value).
Proof. unfold set_cache_state. quiet. Qed.

Lemma prints_nothing_check_cache (key : string) (ttl : Z) :
  prints_nothing (check_cache key ttl).
Proof.
  unfold check_cache.
  apply prints_nothing_bind; [apply prints_nothing_get_cache_state|].
  intros entry. destruct (negb (Py.truthy_opt entry)); [quiet|].
  apply prints_nothing_try; [|intros ?; quiet].
  do 4 (apply prints_nothing_bind; [quiet | intros ?]).
  apply prints_nothing_bind; [apply prints_nothing_now | intros ?].
  apply prints_nothing_bind; [quiet | intros ?].
  destruct (younger _ ttl); [|quiet].
  apply prints_nothing_bind; [quiet | intros ?].
  destruct (json_truthy _); [|quiet].
  apply prints_nothing_bind; [quiet | intros ?].
  apply prints_nothing_bind; [apply prints_nothing_path_exists | intros ?].
  quiet.
Qed.

Lemma prints_nothing_curl (url dest : string) : prints_nothing (curl url dest).
Proof. unfold curl. quiet. Qed.

Lemma prints_nothing_extractall (zip dest : string) :
  prints_nothing (extractall zip dest).
Proof. unfold extractall. quiet. Qed.

Lemma prints_nothing_refresh_gtfs : prints_nothing refresh_gtfs.
Proof.
  unfold refresh_gtfs.
  do 2 (apply prints_nothing_bind; [quiet | intros ?]).
  apply prints_nothing_bind; [apply prints_nothing_path_exists | intros ?].
  apply prints_nothing_bind.
  { destruct (negb _); [|quiet].
    apply prints_nothing_bind; [apply prints_nothing_curl | intros ?].
    destruct (negb _); quiet. }
  intros fetched. destruct (negb fetched); [quiet|].
  apply prints_nothing_bind; [quiet | intros ?].
  apply prints_nothing_bind.
  { apply prints_nothing_try; [|intros ?; quiet].
    apply prints_nothing_bind; [apply prints_nothing_extractall | intros ?].
    quiet. }
  intros extracted. destruct (negb extracted); [quiet|].
  apply prints_nothing_bind; [apply prints_nothing_utcnow | intros ?].
  apply prints_nothing_bind; [apply prints_nothing_set_cache_state | intros ?].
  quiet.
Qed.

Lemma prints_nothing_download_gtfs : prints_nothing download_gtfs.
Proof.
  unfold download_gtfs.
  do 4 (apply prints_nothing_bind; [apply prints_nothing_path_exists | intros ?]).
  apply prints_nothing_bind; [apply prints_nothing_get_cache_state | intros ?].
  apply prints_nothing_bind.
  { destruct (_ && _); [|quiet].
    apply prints_nothing_try; [|intros ?; quiet].
    apply prints_nothing_bind; [quiet | intros ?].
    apply prints_nothing_bind; [apply prints_nothing_now | intros ?].
    quiet. }
  intros fresh. destruct fresh; [quiet | apply prints_nothing_refresh_gtfs].
Qed.

Lemma prints_nothing_open_table {A} (path : string)
    (pick : content -> option (list A)) :
  prints_nothing (open_table path pick).
Proof. unfold open_table. quiet. Qed.

Lemma prints_nothing_load_routes : prints_nothing load_routes.
Proof.
  unfold load_routes.
  apply prints_nothing_bind; [apply prints_nothing_open_table | intros ?; quiet].
Qed.

Lemma prints_nothing_load_stops : prints_nothing load_stops.
Proof.
  unfold load_stops.
  apply prints_nothing_bind; [apply prints_nothing_open_table | intros ?; quiet].
Qed.

Lemma prints_nothing_find_trips (route_id service_pattern : string)
    (limit : nat) :
  prints_nothing (find_trips route_id service_pattern limit).
Proof.
  unfold find_trips.
  apply prints_nothing_bind; [apply prints_nothing_open_table | intros ?; quiet].
Qed.

Lemma prints_nothing_get_stop_times (trip_info : list (string * string))
    (stop_ids : option (list string)) :
  prints_nothing (get_stop_times trip_info stop_ids).
Proof.
  unfold get_stop_times.
  apply prints_nothing_bind; [destruct (_ <? _)%nat; quiet | intros ?].
  apply prints_nothing_bind; [apply prints_nothing_open_table | intros ?; quiet].
Qed.

Lemma prints_nothing_format_output (line stop_name schedule_type route_id : string)
    (trips : list (string * string))
    (stop_times : list (string * list (string * string)))
    (stops : list (string * Stop)) (matching_stops : list string) :
  prints_nothing (format_output line stop_name schedule_type route_id trips
                    stop_times stops matching_stops).
Proof.
  unfold format_output.
  apply prints_nothing_bind; [apply prints_nothing_utcnow | intros ?; quiet].
Qed.

Lemma prints_nothing_each {A} (f : A -> M unit) (l : list A) :
  (forall a, prints_nothing (f a)) ->
  prints_nothing (fold_right (fun a rest_ => f a ;; rest_) (ret tt) l).
Proof.
  intros Hf. induction l as [|a l IH]; cbn [fold_right]; [quiet|].
  apply prints_nothing_bind; [apply Hf | intros _; exact IH].
Qed.

End SilentParts.

Section StdoutResult.
Context `{PyLib}.
Variables (line stop_name schedule_type : string) (w0 : World).

Local Abbreviation Post := (result_on_stdout line stop_name schedule_type w0).

Lemma stdout_add_events (w : World) (evs : list event) :
  stdout_lines (trace (add_events w evs))
  = stdout_lines (trace w) ++ stdout_lines evs.
Proof. unfold add_events. cbn [trace]. apply stdout_lines_app. Qed.

(** A silent step leaves the verdict to what follows it. *)
Lemma silent_step {A} (m : M A) (k : A -> M unit) (w : World) :
  prints_nothing m ->
  stdout_lines (trace w) = stdout_lines (trace w0) ->
  (forall a w1, m w = (Ret a, w1) ->
                stdout_lines (trace w1) = stdout_lines (trace w0) ->
                Post (k a w1)) ->
  Post (bind m k w).
Proof.
  intros Hm Hw Hk. unfold bind. destruct (Hm w) as [Hout Hexit].
  destruct (m w) as [[a|c|e] w1]; cbn [fst snd] in *.
  - apply Hk; [reflexivity | congruence].
  - now destruct (Hexit c).
  - exists []. cbn [fst snd]. rewrite app_nil_r. split; [congruence | reflexivity].
Qed.

Lemma exit_1_silent (w : World) :
  stdout_lines (trace w) = stdout_lines (trace w0) -> Post (exit 1 w).
Proof.
  intros Hw. exists []. cbn [exit fst snd]. rewrite app_nil_r.
  split; [exact Hw | right; now split].
Qed.

Lemma run_query_stdout (key : string) (w : World) :
  stdout_lines (trace w) = stdout_lines (trace w0) ->
  Post (run_query line stop_name schedule_type key w).
Proof.
  intros Hw. unfold run_query.
  apply silent_step; [apply prints_nothing_download_gtfs | exact Hw |].
  intros ok w1 _ H1. destruct (negb ok); [now apply exit_1_silent|].
  apply silent_step; [quiet | exact H1 | intros _ w2 _ H2].
  apply silent_step; [apply prints_nothing_load_routes | exact H2 |].
  intros routes w3 _ H3.
  apply silent_step; [apply prints_nothing_load_stops | exact H3 |].
  intros stops w4 _ H4.
  destruct (negb (Py.truthy_opt (find_route_id line routes))).
  { apply silent_step; [quiet | exact H4 | intros _ w5 _ H5].
    apply silent_step; [quiet | exact H5 | intros _ w6 _ H6].
    apply silent_step; [|exact H6 | intros _ w7 _ H7; now apply exit_1_silent].
    apply (prints_nothing_each
             (fun item =>
                if String.eqb (type (snd item)) "0" then
                  log ("  " +:+ short_name (snd item) +:+ ": "
                       +:+ long_name (snd item))
                else ret tt)).
    intros item. destruct (String.eqb _ _); quiet. }
  apply silent_step; [quiet | exact H4 | intros service_pattern w5 _ H5].
  apply silent_step; [apply prints_nothing_find_trips | exact H5 |].
  intros trips w6 _ H6.
  destruct trips as [|trip trips].
  { apply silent_step; [quiet | exact H6 | intros _ w7 _ H7].
    now apply exit_1_silent. }
  apply silent_step; [|exact H6 | intros matching_stops w7 _ H7].
  { destruct (Py.truthy stop_name); [|quiet].
    apply prints_nothing_bind; [|intros ?; quiet].
    destruct (find_stops_by_name stop_name stops); quiet. }
  apply silent_step; [apply prints_nothing_get_stop_times | exact H7 |].
  intros stop_times w8 _ H8.
  apply silent_step; [apply prints_nothing_now | exact H8 | intros d w9 _ H9].
  apply silent_step; [quiet | exact H9 | intros _ w10 _ H10].
  apply silent_step; [apply prints_nothing_now | exact H10 | intros d' w11 _ H11].
  apply silent_step; [apply prints_nothing_format_output | exact H11 |].
  intros output w12 _ H12.
  apply silent_step; [quiet | exact H12 | intros _ w13 _ H13].
  apply silent_step; [quiet | exact H13 | intros w' w14 _ H14].
  apply silent_step; [quiet | exact H14 | intros _ w15 _ H15].
  apply silent_step; [apply prints_nothing_utcnow | exact H15 | intros t w16 _ H16].
  apply silent_step; [apply prints_nothing_set_cache_state | exact H16 |].
  intros _ w17 _ H17.
  set (text_path := joinpath _ _).
  unfold result_on_stdout. do 5 run_step. rewrite print_run.
  exists (result_lines line stop_name schedule_type text_path "miss").
  cbn [fst snd]. split; [|now exists text_path].
  rewrite !stdout_add_events, H17, <- !app_assoc. reflexivity.
Qed.

End StdoutResult.

Section StdoutOfMain.
Context `{PyLib}.

(** X12. Standard output carries the result and nothing else. Whatever
    the arguments and the world, a run of [main] that ends normally has
    printed exactly the six result lines with "CACHE: miss", a run that
    exits with status 0 exactly the six lines with "CACHE: hit"; any
    other exit has status 1, and with it, or with an exception that
    escapes, nothing has been written on standard output. *)
Theorem stdout_carries_only_the_result (argv : list string) (w : World) :
  let line := nth 1 argv "" in
  let stop_name := if (2 <? length argv)%nat then nth 2 argv "" else "" in
  let schedule_type :=
    if (3 <? length argv)%nat then nth 3 argv "" else "weekday" in
  exists out,
    stdout_lines (trace (snd (main argv w))) = stdout_lines (trace w) ++ out
    /\ match fst (main argv w) with
       | Ret _ =>
           exists p, out = result_lines line stop_name schedule_type p "miss"
       | Exit code =>
           (code = 0%Z
            /\ exists p, out = result_lines line stop_name schedule_type p "hit")
           \/ (code = 1%Z /\ out = [])
       | Raise _ => out = []
       end.
Proof.
  intros line stop_name schedule_type.
  change (result_on_stdout line stop_name schedule_type w (main argv w)).
  unfold main. fold line stop_name schedule_type.
  destruct ((length argv <? 2)%nat || (4 <? length argv)%nat).
  { apply silent_step; [|reflexivity | intros _ w1 _ H1; now apply exit_1_silent].
    apply (prints_nothing_each log). intros l. quiet. }
  destruct (negb (Dict.mem schedule_type SERVICE_PATTERNS)).
  { apply silent_step; [quiet | reflexivity | intros _ w1 _ H1].
    now apply exit_1_silent. }
  apply silent_step; [apply prints_nothing_check_cache | reflexivity |].
  intros [data|] w1 Hc H1; [|now apply run_query_stdout].
  destruct (check_cache_hit_shape _ _ _ _ _ Hc)
    as (d & path & -> & [stamp Hstamp] & Hpath & _ & _ & _).
  assert (Htruthy : json_truthy (JObj d) = true).
  { destruct d; [discriminate Hstamp | reflexivity]. }
  rewrite Htruthy. do 3 run_step. cbn [subscript]. rewrite Hpath. cbn [lift].
  do 4 run_step. exists (result_lines line stop_name schedule_type path "hit").
  cbn [exit fst snd]. split; [|left; split; [reflexivity | now exists path]].
  rewrite !stdout_add_events, H1, <- !app_assoc. reflexivity.
Qed.

End StdoutOfMain.

(** ** A query that completes *)

Section CompletedQuery.
Context `{PyLib}.

Lemma bind_ret_inv {A B} (m : M A) (k : A -> M B) (w w' : World) (b : B) :
  bind m k w = (Ret b, w') ->
  exists a w1, m w = (Ret a, w1) /\ k a w1 = (Ret b, w').
Proof.
  unfold bind. destruct (m w) as [[a|c|e] w1]; [|discriminate..].
  intros Hk. now exists a, w1.
Qed.

Lemma format_output_run (line stop_name schedule_type route_id : string)
    (trips : list (string * string))
    (stop_times : list (string * list (string * string)))
    (stops : list (string * Stop)) (matching_stops : list string) (w : World) :
  exists output,
    format_output line stop_name schedule_type route_id trips stop_times
      stops matching_stops w = (Ret output, w).
Proof. unfold format_output. run_step. unfold ret. eauto. Qed.

Lemma get_world_run (w : World) : get_world w = (Ret w, w).
Proof. reflexivity. Qed.

Lemma set_fs_run (f : gmap string file) (w : World) :
  set_fs f w = (Ret tt, with_fs w f).
Proof. reflexivity. Qed.

(** X13. When the query part of [main] runs to its end, it has created
    the dated directory below the data directory, written the report
    there under a name that ends in the slug and ".txt", stored under
    the query's key an entry whose "text_path" is that very file, and
    printed the same path on the TEXT line; these are its last effects,
    in this order, and the report is on disk with the text written. *)
Theorem completed_query_leaves_report
    (line stop_name schedule_type key : string) (w w' : World) :
  run_query line stop_name schedule_type key w = (Ret tt, w') ->
  exists date time_ stamp output before,
    let dir := joinpath DATA_DIR date in
    let path :=
      joinpath dir (time_ +:+ "-" +:+ slug line stop_name +:+ ".txt") in
    fs w' !! path = Some (Plain (Text output))
    /\ trace w'
       = before
         ++ [Mkdir dir;
             WriteFile path output;
             StateSet key
               (json_dumps (JObj [("timestamp", JStr stamp);
                                  ("line", JStr line);
                                  ("stop", JStr stop_name);
                                  ("schedule_type", JStr schedule_type);
                                  ("text_path", JStr path)]))]
         ++ map Stdout
              (result_lines line stop_name schedule_type path "miss").
Proof.
  intros Hrun. unfold run_query in Hrun.
  apply bind_ret_inv in Hrun as (ok & w1 & _ & Hrun).
  destruct (negb ok); [discriminate Hrun|].
  apply bind_ret_inv in Hrun as (_ & w2 & _ & Hrun).
  apply bind_ret_inv in Hrun as (routes & w3 & _ & Hrun).
  apply bind_ret_inv in Hrun as (stops & w4 & _ & Hrun).
  destruct (negb (Py.truthy_opt (find_route_id line routes))).
  { do 3 apply bind_ret_inv in Hrun as (_ & ? & _ & Hrun). discriminate Hrun. }
  apply bind_ret_inv in Hrun as (service_pattern & w5 & _ & Hrun).
  apply bind_ret_inv in Hrun as (trips & w6 & _ & Hrun).
  destruct trips as [|trip trips].
  { apply bind_ret_inv in Hrun as (_ & ? & _ & Hrun). discriminate Hrun. }
  apply bind_ret_inv in Hrun as (matching_stops & w7 & _ & Hrun).
  apply bind_ret_inv in Hrun as (stop_times & w8 & _ & Hrun).
  revert Hrun. do 3 run_step.
  set (d := mkDatetime _ None).
  set (dir := joinpath DATA_DIR (strftime d "%Y/%m/%d")).
  set (path := joinpath dir _).
  destruct (format_output_run line stop_name schedule_type
              (default "" (find_route_id line routes)) (trip :: trips)
              stop_times stops (default [] matching_stops)
              (add_events w8 [Mkdir dir])) as [output Hout].
  erewrite bind_run by exact Hout. run_step.
  erewrite bind_run by apply get_world_run.
  erewrite bind_run by apply set_fs_run.
  do 7 run_step. rewrite print_run. intros [= <-].
  exists (strftime d "%Y/%m/%d"), (strftime d "%Y%m%d-%H%M%S").
  eexists _, output, (trace w8). cbv zeta. fold dir path. split.
  - cbn [fs add_events with_fs]. apply lookup_insert_eq.
  - cbn [trace add_events with_fs map result_lines]. rewrite <- !app_assoc.
    reflexivity.
Qed.

End CompletedQuery.

Lemma completed_query_leaves_report_witness :
  let w' := snd (run_query (H := Sample.lib) "9" "" "weekday" "k" Sample.fresh) in
  run_query (H := Sample.lib) "9" "" "weekday" "k" Sample.fresh = (Ret tt, w')
  /\ exists path output,
       fs w' !! path = Some (Plain (Text output))
       /\ In (WriteFile path output) (trace w').
Proof.
  cbv zeta. split; [vm_compute; reflexivity|].
  destruct (completed_query_leaves_report (H := Sample.lib)
              "9" "" "weekday" "k" Sample.fresh
              (snd (run_query (H := Sample.lib) "9" "" "weekday" "k"
                      Sample.fresh)))
    as (date & time_ & stamp & output & before & Hfile & Htrace).
  - vm_compute. reflexivity.
  - eexists _, output. split; [exact Hfile|].
    rewrite Htrace. apply in_or_app. right. apply in_or_app. left.
    right. now left.
Defined.

(** ** The departures of a stop, direction by direction *)

Section Directions.

Local Abbreviation towards direction :=
  (fun th : string * string => String.eqb (snd th) direction).

Lemma by_direction_keys_nodup (l : list (string * string)) :
  forall acc : list (string * list string),
    NoDup (Dict.keys acc) ->
    NoDup (Dict.keys
             (fold_left (fun acc th => Dict.append (snd th) (fst th) acc) l acc)).
Proof.
  induction l as [|th r IH]; intros acc Hacc; [exact Hacc|].
  cbn [fold_left]. apply IH. now apply dict_set_nodup.
Qed.

Lemma by_direction_get (l : list (string * string)) (direction : string) :
  forall acc : list (string * list string),
    (forall k, Dict.get k acc <> Some []) ->
    Dict.get direction
      (fold_left (fun acc th => Dict.append (snd th) (fst th) acc) l acc)
    = match default [] (Dict.get direction acc)
            ++ map fst (List.filter (towards direction) l) with
      | [] => None
      | times => Some times
      end.
Proof.
  induction l as [|th r IH]; intros acc Hacc.
  - cbn [fold_left List.filter map]. rewrite app_nil_r.
    destruct (Dict.get direction acc) as [[|x l]|] eqn:Hg; try reflexivity.
    now destruct (Hacc direction).
  - cbn [fold_left List.filter]. rewrite IH.
    + unfold Dict.append. rewrite dict_get_set.
      destruct (String.eqb_spec (snd th) direction) as [->|Hne];
        [|reflexivity].
      cbn [from_option id map]. now rewrite <- app_assoc.
    + intros k. unfold Dict.append. rewrite dict_get_set.
      destruct (String.eqb (snd th) k); [|apply Hacc].
      intros [= E]. now apply app_eq_nil in E as [_ E].
Qed.

Lemma filter_towards_pairs (l : list (string * string)) (direction : string) :
  map (fun time => (time, direction))
      (map fst (List.filter (towards direction) l))
  = List.filter (towards direction) l.
Proof.
  induction l as [|[time d] r IH]; cbn [List.filter snd]; [reflexivity|].
  destruct (String.eqb_spec d direction) as [->|Hne]; [|exact IH].
  cbn [map fst]. now rewrite IH.
Qed.

Lemma filter_towards_absent (th : string * string) (r : list (string * string))
    (keys : list string) :
  ~ In (snd th) keys ->
  flat_map (fun k => List.filter (towards k) (th :: r)) keys
  = flat_map (fun k => List.filter (towards k) r) keys.
Proof.
  induction keys as [|k ks IH]; intros Hk; cbn [flat_map]; [reflexivity|].
  rewrite IH by (intros Hin; apply Hk; now right). f_equal.
  cbn [List.filter]. destruct (String.eqb_spec (snd th) k) as [E|Hne];
    [|reflexivity].
  destruct Hk. now left.
Qed.

Lemma filter_towards_present (th : string * string)
    (r : list (string * string)) (keys : list string) :
  NoDup keys -> In (snd th) keys ->
  Permutation (flat_map (fun k => List.filter (towards k) (th :: r)) keys)
              (th :: flat_map (fun k => List.filter (towards k) r) keys).
Proof.
  induction keys as [|k ks IH]; intros Hnd Hin; [destruct Hin|].
  apply NoDup_cons in Hnd as [Hk Hnd]. cbn [flat_map].
  destruct (String.eqb_spec (snd th) k) as [E|Hne].
  - rewrite filter_towards_absent
      by (rewrite E; intros Hin'; apply Hk; now apply list_elem_of_In).
    cbn [List.filter]. apply String.eqb_eq in E. now rewrite E.
  - destruct Hin as [E|Hin]; [now destruct Hne|].
    rewrite (IH Hnd Hin). cbn [List.filter].
    apply String.eqb_neq in Hne. rewrite Hne.
    symmetry. apply Permutation_middle.
Qed.

Lemma filter_towards_all (l : list (string * string)) (keys : list string) :
  NoDup keys -> (forall th, In th l -> In (snd th) keys) ->
  Permutation (flat_map (fun k => List.filter (towards k) l) keys) l.
Proof.
  intros Hnd. induction l as [|th r IH]; intros Hall.
  - clear. induction keys as [|k ks IH]; [reflexivity | exact IH].
  - rewrite filter_towards_present; [|exact Hnd | apply Hall; now left].
    apply perm_skip, IH. intros th' Hin. apply Hall. now right.
Qed.

(** X14. The grouping by direction in [format_output] splits the
    departures of a stop: every headsign among them is a direction,
    once; a direction lists the times of its departures in the order
    they have at the stop; the directions are shown in non-decreasing
    order; and over all directions shown, every departure appears
    exactly once, under its own headsign. *)
Theorem directions_split_the_departures
    (times_with_direction : list (string * string)) :
  let groups := by_direction times_with_direction in
  let shown := sorted id (Dict.keys groups) in
  NoDup (Dict.keys groups)
  /\ (forall direction,
        In direction shown
        <-> exists time, In (time, direction) times_with_direction)
  /\ (forall direction,
        default [] (Dict.get direction groups)
        = map fst (List.filter (towards direction) times_with_direction))
  /\ StronglySorted (fun a b => String.leb a b = true) shown
  /\ Permutation
       (flat_map
          (fun direction =>
             map (fun time => (time, direction))
                 (default [] (Dict.get direction groups)))
          shown)
       times_with_direction.
Proof.
  cbv zeta. unfold by_direction.
  set (groups := fold_left _ times_with_direction []).
  assert (Hnd : NoDup (Dict.keys groups)).
  { apply by_direction_keys_nodup. constructor. }
  assert (Hget : forall direction,
             Dict.get direction groups
             = match map fst (List.filter (towards direction)
                                times_with_direction) with
               | [] => None
               | times => Some times
               end).
  { intros direction. unfold groups. rewrite by_direction_get; [reflexivity|].
    intros k. discriminate. }
  assert (Hval : forall direction,
             default [] (Dict.get direction groups)
             = map fst (List.filter (towards direction) times_with_direction)).
  { intros direction. rewrite Hget. now destruct (map fst _). }
  assert (Hkeys : forall direction,
             In direction (Dict.keys groups)
             <-> exists time, In (time, direction) times_with_direction).
  { intros direction. split.
    - intros Hin. destruct (Dict.get direction groups) as [times|] eqn:Hg.
      + rewrite Hget in Hg.
        destruct (List.filter (towards direction) times_with_direction)
          as [|[time d] r] eqn:Hf; [discriminate Hg|].
        assert (Hin' : In (time, d)
                         (List.filter (towards direction) times_with_direction))
          by (rewrite Hf; now left).
        apply filter_In in Hin' as [Hin' Hd]. cbn [snd] in Hd.
        apply String.eqb_eq in Hd as ->. now exists time.
      + apply dict_get_none_keys in Hg. now destruct Hg.
    - intros [time Hin].
      destruct (Dict.get direction groups) as [times|] eqn:Hg.
      + destruct (in_dec string_dec direction (Dict.keys groups)) as [Hk|Hk];
          [exact Hk|].
        apply dict_get_none_keys in Hk. congruence.
      + rewrite Hget in Hg.
        assert (Hin' : In (time, direction)
                         (List.filter (towards direction) times_with_direction)).
        { apply filter_In. split; [exact Hin|]. cbn [snd].
          apply String.eqb_refl. }
        destruct (List.filter (towards direction) times_with_direction);
          [destruct Hin' | discriminate Hg]. }
  split; [exact Hnd|]. split.
  { intros direction. rewrite sorted_in. apply Hkeys. }
  split; [exact Hval|]. split.
  { apply (sorted_sorted id). }
  rewrite (Permutation_flat_map _ (sorted_perm id (Dict.keys groups))).
  rewrite (flat_map_ext _ (fun k => List.filter (towards k) times_with_direction)).
  - apply filter_towards_all.
    + clear -Hnd. induction Hnd as [|x l Hx Hl IH]; constructor; [|exact IH].
      intros Hin. apply Hx. now apply list_elem_of_In.
    + intros [time d] Hin. apply Hkeys. now exists time.
  - intros k. rewrite Hval. apply filter_towards_pairs.
Qed.

End Directions.
